(* ===== verification/_CoqProject ===== *)
-Q . S2P
Prelude.v
Json.v
Types.v
Storage.v
Store.v
JsString.v
Forms.v
Persistence.v
Session.v
Admin.v
AdminPanels.v
RichText.v
ServiceDetail.v
Storefront.v
Site.v
AuthApi.v
Witnesses.v
