(* ===== verification/Prelude.v ===== *)
(** * A verification development of the Prithvi Creation storefront

    The repository is a client-only React storefront: a catalogue of
    creative-service "gigs", a checkout that records orders, login and
    sign-up pages, a contact form and an admin console.  All data lives in
    the browser's [localStorage].  The persistence and session layer is
    [src/store.ts] (the [useStore] hook).  It owns five entries (users,
    services, orders, settings, current session), loads each with a
    fallback, writes each back after every change, recovers from a full
    quota, and implements login, signup and logout.  The pages under
    [src/pages] and [src/components] are its clients: they read the store's
    fields, call its setters, and post notifications to a form relay.
    [src/index.tsx] mounts the application.

    ** Files, in dependency order

    - [Prelude] (this file): the state-and-exception monad [ST] that the
      whole development uses for JavaScript code that mutates the browser
      and may throw, with a third outcome [Stuck] for a run that reaches a
      value the model's types do not represent (no [catch] intercepts it);
      its notation in [st_scope]; its rewriting laws (hint
      database [st_simpl]); the [decide_by_eval] tactic; and generic lemmas
      on lists and strings.
    - [Json]: the JSON values that [JSON.stringify] writes and [JSON.parse]
      reads, a printer and a fuel-bounded parser, and their round trip;
      and [json_text], a recogniser of the whole JSON grammar (fractions,
      exponents, every [\uXXXX] escape), which says when [JSON.parse]
      throws.  The parser accepts JSON text only ([parse_json_text]).
      These are platform functions, modelled because the store relies on
      them.
    - [Types]: the records of the data model ([User], [Service], [Order],
      [SiteSettings]).  Their declarations live in [types.ts], which is not
      under [src/], so they are modelled from the spec and from the fields
      the sources use.  Each record has a JSON codec behind the [Codec]
      typeclass, whose law is the round trip the store depends on.
      [json_parse] says what [JSON.parse(saved)] gives code that expects
      a [T]: a [T], a [SyntaxError], or JSON of another shape.
    - [Storage]: the browser.  [localStorage] is a [gmap string string]
      with a byte quota and an availability flag; [getItem], [setItem] and
      [removeItem] throw [DOMException]s as the browser does.  The console
      and [alert] are append-only logs.
    - [Store]: [src/store.ts].  It holds [loadFromDB], [saveToDB], the lazy
      initialisers and mount effects of [useStore], the setters, [login],
      [signup], [logout], and the derived [isAuthenticated] and [isAdmin].
      React's "set state, re-render, run the effects whose dependencies
      changed" is modelled as a pure in-memory update ([step_mem]) followed
      by [commit], which runs the persistence effects in declaration order.
      [dispatch] composes the two, and is what a page's call to the store
      means.
    - [JsString]: [startsWith], [endsWith], [toLowerCase], [toUpperCase] and
      [trim] on 8-bit strings, [Array.prototype.filter] with an index
      callback ([array_filter]) and [toLocaleString] on integers (platform
      functions).
    - [Forms]: the submit cycle the four visitor forms share, as a Section
      over the type of a form's values: inputs, a submit gated by
      constraint validation and the disabled button, the values captured
      at the click, and the settle of [finally].
    - [Persistence]: the storage contract of the store.  The relation
      [synced] says that storage holds exactly the in-memory state.  This
      file proves it is kept by every action and by whole sequences of
      actions ([dispatch_all]), and that it makes a remount a no-op.
    - [Session]: accounts and session.  It holds a step relation with its
      invariants (unique emails, a registered session user) and a
      refinement of [login] and [signup] to an abstract registry, a [gmap]
      from email to account, and progress: a session can always be opened.
    - [Admin]: the gig editor of [src/pages/AdminDashboard.tsx], Module
      [ServicesManagement]: its form state, every event handler, the save
      through [store.setServices], and the panel's rendering ([gigs_view],
      [modal_view], with React's rule for a controlled [<select>] whose
      value is not an option).  The save is modelled both as one step
      ([handleSaveService]) and split at its [await] ([save_click],
      [save_resume]); the two agree when nothing happens in between.  An
      upload is modelled both at once ([handleFileUpload]) and as readers
      in flight ([upload_start], [reader_done]) whose completions
      interleave with the other events; the two agree when the readers
      finish in order with nothing in between ([upload_then_reads]).
    - [AdminPanels]: the other panels of the console.  [Stats] holds the
      overview's figures, cards and recent rows; [OrdersManagement] holds
      [handleStatusUpdate], its notification, the [updatingId] lock and the
      order table; [Analytics] holds the progress rows; [Console] holds
      the nested routes and the sidebar; [SiteEditor] holds the settings
      handlers, the controlled inputs and the "Changes Saved" timers.
    - [RichText]: the [RichTextEditor] of the gig form, as DOM state (the
      div's [innerHTML], the effect's last dependency) composed with the
      modal's events; [document.execCommand] is a Section variable.
    - [ServiceDetail]: [src/pages/ServiceDetail.tsx], module [Detail]: the
      lookup, the gallery and its thumbnails, and the whole page view.
    - [Storefront]: the visitor side's state and handlers.  It holds
      [src/index.tsx] ([mount]), the [Navbar]'s menu state and view, the
      [Footer]'s social icons, which services [Home] and [Services] show
      ([Catalogue]), and [Checkout], [Login], [SignUp] and [Contact], each
      with its inputs, validation, handler and view.  A [fetch] is
      modelled by its outcome ([FetchResult]): a response with its [ok]
      flag, or a rejection.
    - [Site]: the visitor pages' content and links ([Home], [Services],
      [About], the account pages' cards, the links of [Checkout],
      [Contact] and [ServiceDetail]), the brand and link columns of the
      bar and the footer, and where each page can send the visitor.
    - [AuthApi]: the login and sign-up pages stated over their props
      ([LoginProps], [SignUpProps] in the source) as the class [AuthProps],
      with the laws the pages rely on as the class [AuthLaws]; the page
      theorems are proved from the laws in a Section, and the instance
      [store_auth_laws] shows that [useStore] keeps them.
    - [Witnesses]: seed-like data, and one run of the modelled code per
      theorem with hypotheses, settled by evaluation.

    ** What the theorems show

    - Load and save ([Store]): an absent or empty entry, or the text
      "undefined", yields the default, and the entry stays in storage.  An
      entry that is not JSON text yields the default and is erased with a
      warning.  An entry that is JSON text is neither warned about nor
      erased: a value of the table's type is returned, and any other JSON
      value is returned unchecked, where the typed model stops.  A write that exceeds the quota
      erases the session entry and raises the single alert.  Saving never
      throws.  With storage unavailable, mounting throws.
    - Persistence: mounting never throws while storage is available and
      every table entry is one the typed model loads ([tables_loadable]).
      After any sequence of actions that raised no alert, storage is
      synchronised with memory, and a remount gives back the same state.  Logout removes the session entry.  A
      quota failure keeps the new table in memory.
    - Session: login and signup refine the abstract registry.  Every
      sequence of actions keeps emails unique and the session user
      registered.  From every state a sign-up with a fresh email opens a
      session, and a later login with it succeeds (liveness).
    - Gig editor: a save refines the abstract catalogue, a [gmap] from id
      to service: an edit is [alter] at the edited id, a creation an
      [insert] at the [Date.now()] id, and ids stay distinct.  Every
      sequence of editor events keeps the form's carried id equal to
      [editingId].
    - JSON: the round trip; the parser accepts JSON text only; and the
      fuel bounds' adequacy: any fuel above the input's length gives the
      parser and the recogniser the same result (termination).
    - Editor: the description editor always shows the form's description,
      and the user's own edits never trigger the effect's rewrite.  The
      index removal equals the literal [filter((_, i) => i !== index)].
    - Pages: these theorems give the behaviour of each handler on every
      branch (network success, failure and rejection), composed with the
      store.  Examples: a checkout order survives a remount; a save adds
      only publishable gigs; an upload routes each file; a site edit
      survives a remount; the login and sign-up pages redirect by role; a
      thumbnail selects its medium; every account made on the sign-up
      page has a password of six characters or more.
    - Interfaces: any lawful implementation of the account pages' props
      makes a login end signed in and redirected by role, or with the
      branch's error and nothing changed; the store is such an
      implementation.  The overview's figures respect permutation of the
      orders ([Proper] instances for the revenue and the active count).
    - Composition: an order placed at checkout reaches the admin
      overview's revenue but, once four orders exist, never its Recent
      Orders; a status change in the order queue moves the overview's
      Active Orders by the orders entering or leaving 'active' and leaves
      its revenue unchanged.
    - Findings, each proved as a theorem:
      - the Draft toggle is overridden by the save button;
      - checkout drops the order when the relay fails;
      - checkout writes a stale snapshot of the orders;
      - order ids collide: an id draws one of 10000 numbers;
      - a stored table of the wrong shape is kept unchecked, not erased;
      - a status update rewrites every order sharing the id;
      - drafts are featured on Home and can be ordered;
      - the gallery's Delete leaves a URL filed under the other array;
      - edits made while a gig is publishing are dropped;
      - the checkout receipt names an email edited after the order was
        sent.
      - the site editor's "Changes Saved" flag is cleared by the first
        edit's timer.
      - the pay button shows two dollar signs before the price;
      - overlapping order-status changes re-enable a row whose request is
        still in flight;
      - a sign-up whose users table overflows the quota leaves a stored
        session for a user the stored users table lacks;
      - Recent Orders lists the four oldest orders;
      - the Delivery Time select shows "1 Days Delivery" for a gig with
        another delivery time, which a save keeps;
      - a gig save whose inline media overflow the quota looks successful,
        but the next load restores the old catalogue and signs the admin
        out;
      - a file whose reader finishes after the admin moved to another gig
        is added to that other gig;
      - a negative price is accepted, published and charged, and lowers
        the revenue.

    ** Modelling choices and bounds

    - JavaScript numbers are integers ([Z]).  Every number the store writes
      is an integer in the seed data and in all the code paths, but an
      admin can type a fractional price; that case is outside the model.
    - Strings are 8-bit.  [JSON.parse] accepts [\uXXXX] escapes below 0x100
      only.
    - [JSON.parse] of JSON text whose value the model cannot hold (another
      shape, a fraction, an escape from 0x100) is returned by the code
      unchecked; the load model returns the outcome [Stuck] there, so no
      theorem claims a behaviour of the code past that point, and the
      mount theorems assume [tables_loadable].  Only text that is not JSON
      is a [SyntaxError].
    - [Math.random()] is a rational in [0, 1) ([Checkout.draw]), and
      [Math.random() * 10000] is taken exactly.
    - The parser runs on fuel.  [parse] supplies one unit per input
      character plus one; a value needs at most as much fuel as its printed
      length ([need_le_length]), so the round trip is proved at exactly
      that fuel.
    - React compares effect dependencies by reference.  Every caller in
      [src/] passes a freshly built array or object to the collection
      setters, so their effects always run.  The session is compared by
      content.  Where React sees a new object with the same content (a
      session loaded from storage, then the same user logging in), its
      effect rewrites the stored value unchanged, which synchronised
      storage does not notice ([Persistence.session_rerun_same]).  Renders run
      between events;
      a handler that awaits uses the values it closed over, which is how
      the stale-snapshot and in-flight findings arise.  Such a handler is
      modelled as its part before the [await] and its continuation, with
      any events in between.
    - The browser's [type="email"] check is a parameter ([email_valid]) of
      the forms' validation; [required] and [minLength] are modelled.
    - Not modelled: markup that decides nothing shown (classes, icons,
      marketing copy); [App.tsx], which maps paths to pages, and
      [constants.ts] (not in [src/]; the seed data is the parameter
      [Constants], and no property of the routing is stated); what [document.execCommand] does to the markup (a
      parameter); the charts of [StatsOverview] and [FullAnalytics], which
      plot the constant [MOCK_ANALYTICS] through recharts;
      [toLocaleDateString] (a parameter, as it depends on the locale).
    - Timers are modelled where their order matters: the site editor's
      flag keeps the due times of its pending [setTimeout] callbacks, and
      the clock's advance fires those that are due.
*)

From stdpp Require Export base strings list gmap.
From Stdlib Require Export ZArith.

(** ** Outcomes of JavaScript code: a value, a thrown exception, or a run
    that reaches a value the model's types do not represent ([Stuck]: it
    is not a JavaScript exception, and no [catch] intercepts it) *)

Inductive outcome (E A : Type) : Type :=
| Normal (a : A)
| Thrown (e : E)
| Stuck.
Arguments Normal {E A} a.
Arguments Thrown {E A} e.
Arguments Stuck {E A}.

(** ** The state-and-exception monad

    [ST S E A] is code that reads and writes a state [S] and either returns
    an [A] or throws an [E].  A throw does not roll the state back, as in
    JavaScript. *)

Definition ST (S E A : Type) : Type := S -> S * outcome E A.

Section Monad.
Context {S E : Type}.

Definition st_ret {A} (a : A) : ST S E A := fun s => (s, Normal a).

Definition st_bind {A B} (m : ST S E A) (k : A -> ST S E B) : ST S E B :=
  fun s => match m s with
           | (s', Normal a) => k a s'
           | (s', Thrown e) => (s', Thrown e)
           | (s', Stuck) => (s', Stuck)
           end.

Definition st_throw {A} (e : E) : ST S E A := fun s => (s, Thrown e).

(** [try { m } catch (e) { h(e) }] *)
Definition st_try {A} (m : ST S E A) (h : E -> ST S E A) : ST S E A :=
  fun s => match m s with
           | (s', Normal a) => (s', Normal a)
           | (s', Thrown e) => h e s'
           | (s', Stuck) => (s', Stuck)
           end.

(** The run leaves the modelled domain, with the state as it is. *)
Definition st_stuck {A} : ST S E A := fun s => (s, Stuck).

Definition st_get : ST S E S := fun s => (s, Normal s).
Definition st_modify (f : S -> S) : ST S E unit := fun s => (f s, Normal tt).
End Monad.

Declare Scope st_scope.
Delimit Scope st_scope with st.
Notation "x <- m ;; k" := (st_bind m (fun x => k))
  (at level 100, m at next level, right associativity) : st_scope.
Notation "m ;;; k" := (st_bind m (fun _ => k))
  (at level 100, right associativity) : st_scope.
Open Scope st_scope.

(** Running a computation: the final state and the outcome. *)
Definition run_state {S E A} (m : ST S E A) (s : S) : S := fst (m s).
Definition run_outcome {S E A} (m : ST S E A) (s : S) : outcome E A := snd (m s).

(** ** Monad laws, used as rewriting rules *)

Section Laws.
Context {S E : Type}.

Lemma st_bind_ret_l {A B} (a : A) (k : A -> ST S E B) s :
  st_bind (st_ret a) k s = k a s.
Proof. reflexivity. Qed.

Lemma st_bind_assoc {A B C} (m : ST S E A) (k : A -> ST S E B)
      (k' : B -> ST S E C) s :
  st_bind (st_bind m k) k' s = st_bind m (fun a => st_bind (k a) k') s.
Proof. unfold st_bind. by destruct (m s) as [? []]. Qed.

Lemma st_bind_throw {A B} (e : E) (k : A -> ST S E B) s :
  st_bind (st_throw e) k s = (s, Thrown e).
Proof. reflexivity. Qed.

Lemma st_try_ret {A} (a : A) (h : E -> ST S E A) s :
  st_try (st_ret a) h s = (s, Normal a).
Proof. reflexivity. Qed.

Lemma st_try_throw {A} (e : E) (h : E -> ST S E A) s :
  st_try (st_throw e) h s = h e s.
Proof. reflexivity. Qed.

(** A computation followed by a continuation, when the first step's
    result is known. *)
Lemma st_bind_normal {A B} (m : ST S E A) (k : A -> ST S E B) s s' a :
  m s = (s', Normal a) -> st_bind m k s = k a s'.
Proof. unfold st_bind. by intros ->. Qed.

Lemma st_bind_thrown {A B} (m : ST S E A) (k : A -> ST S E B) s s' e :
  m s = (s', Thrown e) -> st_bind m k s = (s', Thrown e).
Proof. unfold st_bind. by intros ->. Qed.

Lemma st_bind_normal_inv {A B} (m : ST S E A) (k : A -> ST S E B) s s'' b :
  st_bind m k s = (s'', Normal b) -> exists s' a, m s = (s', Normal a) /\ k a s' = (s'', Normal b).
Proof. unfold st_bind. destruct (m s) as [s' [a|e|]]; [eauto|done|done]. Qed.

Lemma st_try_normal {A} (m : ST S E A) (h : E -> ST S E A) s s' a :
  m s = (s', Normal a) -> st_try m h s = (s', Normal a).
Proof. unfold st_try. by intros ->. Qed.

Lemma st_try_thrown {A} (m : ST S E A) (h : E -> ST S E A) s s' e :
  m s = (s', Thrown e) -> st_try m h s = h e s'.
Proof. unfold st_try. by intros ->. Qed.
End Laws.

Create Rewrite HintDb st_simpl.
#[export] Hint Rewrite @st_bind_ret_l @st_bind_assoc @st_bind_throw
  @st_try_ret @st_try_throw : st_simpl.

(** A decidable proposition about closed terms, settled by evaluation. *)
Ltac decide_by_eval := apply (bool_decide_unpack _); vm_compute; reflexivity.

(** Unfold the monad's plumbing of a concrete computation. *)
Ltac st_unfold :=
  cbv [st_bind st_ret st_throw st_stuck st_try st_get st_modify run_state run_outcome].

(** ** Generic lemmas on lists *)

Section Lists.
Context {A : Type}.

(** [Array.prototype.find] *)
Lemma find_app_none (p : A -> bool) (l1 l2 : list A) :
  List.find p l1 = None -> List.find p (l1 ++ l2) = List.find p l2.
Proof. induction l1 as [|x l1 IH]; simpl; [done|]. by destruct (p x). Qed.

Lemma find_none_forall (p : A -> bool) (l : list A) :
  List.find p l = None <-> Forall (fun x => p x = false) l.
Proof.
  induction l as [|x l IH]; simpl; [split; auto|].
  rewrite Forall_cons, <- IH. destruct (p x); naive_solver.
Qed.

Lemma find_some_in (p : A -> bool) (l : list A) x :
  List.find p l = Some x -> x ∈ l /\ p x = true.
Proof.
  intros H. apply List.find_some in H as [Hin Hp].
  by rewrite list_elem_of_In.
Qed.

(** [Array.prototype.map] is stdpp's [fmap] and the Standard Library's
    [map] alike. *)
Lemma fmap_list_map {B} (f : A -> B) (l : list A) : f <$> l = map f l.
Proof. induction l as [|x l IH]; [done|]. cbn. by f_equal. Qed.

(** Membership in the [Array.prototype.filter] of a boolean test. *)
Lemma elem_of_filter_bool (p : A -> bool) (l : list A) x :
  x ∈ List.filter p l <-> x ∈ l /\ p x = true.
Proof. by rewrite !list_elem_of_In, List.filter_In. Qed.

(** A boolean test splits a list into two parts that together keep every
    element. *)
Lemma filter_partition_length (p : A -> bool) (l : list A) :
  length (List.filter (fun x => negb (p x)) l) + length (List.filter p l) = length l.
Proof. induction l as [|x l IH]; [done|]. cbn. destruct (p x); cbn; lia. Qed.
End Lists.

(** ** Strings

    stdpp makes [String.append] (notation [+:+]) opaque to [simpl]; these
    equations are the steps of its computation. *)

Lemma string_app_nil_l (b : string) : "" +:+ b = b.
Proof. reflexivity. Qed.

Lemma string_app_cons (c : Ascii.ascii) (a b : string) :
  String c a +:+ b = String c (a +:+ b).
Proof. reflexivity. Qed.

Lemma string_app_inj_l (p a b : string) : p +:+ a = p +:+ b -> a = b.
Proof.
  induction p as [|c p IH]; [done|]. rewrite !string_app_cons. intros [= H]. by apply IH.
Qed.

Lemma string_app_assoc (a b c : string) : (a +:+ b) +:+ c = a +:+ (b +:+ c).
Proof.
  induction a as [|ch a IH]; [done|]. by rewrite !string_app_cons, IH.
Qed.

Lemma string_app_nil_r (a : string) : a +:+ "" = a.
Proof. induction a as [|ch a IH]; [done|]. by rewrite string_app_cons, IH. Qed.

Lemma string_length_app (a b : string) :
  String.length (a +:+ b) = String.length a + String.length b.
Proof.
  induction a as [|ch a IH]; [done|]. rewrite string_app_cons. simpl. by rewrite IH.
Qed.

#[export] Hint Rewrite string_app_nil_l string_app_cons string_app_assoc
  string_app_nil_r : st_simpl.
