(* ===== verification/Json.v ===== *)
(** * JSON text: the printer and parser that [store.ts] relies on

    [store.ts] persists every table as [JSON.stringify(data)] and reads it
    back with [JSON.parse(saved)] inside a [try].  This file models both
    platform functions on the JSON values the store writes.  The printer
    emits no whitespace and escapes strings as [JSON.stringify] does.  The
    parser follows the JSON grammar (whitespace, literals, strings with all
    escapes, arrays, objects with duplicate keys kept in order), with the
    bounds stated in the development's header: numbers are integers, and
    [\uXXXX] escapes are below 0x100.  A recogniser of the whole grammar,
    [json_text], says which texts [JSON.parse] accepts; the parser accepts
    only those ([parse_json_text]).  The main theorems are the round trip
    [parse (stringify j) = Some j], the same with JSON whitespace around the
    document, and that distinct integers print differently. *)

From S2P Require Import Prelude.
From Stdlib Require Import Ascii DecimalString DecimalN DecimalFacts.

(** ** JSON values *)

#[local] Set Warnings "-register-all".

Inductive json : Type :=
| JNull
| JBool (b : bool)
| JNum (n : Z)
| JStr (s : string)
| JArr (items : list json)
| JObj (fields : list (string * json)).

(** Induction with a hypothesis for every element of an array or object. *)
Section JsonInd.
Variable P : json -> Prop.
Hypothesis HNull : P JNull.
Hypothesis HBool : forall b, P (JBool b).
Hypothesis HNum : forall n, P (JNum n).
Hypothesis HStr : forall s, P (JStr s).
Hypothesis HArr : forall l, Forall P l -> P (JArr l).
Hypothesis HObj : forall l, Forall (fun kv => P kv.2) l -> P (JObj l).

Fixpoint json_ind' (j : json) : P j :=
  match j with
  | JNull => HNull
  | JBool b => HBool b
  | JNum n => HNum n
  | JStr s => HStr s
  | JArr l => HArr l
      ((fix go (l : list json) : Forall P l :=
          match l with
          | [] => Forall_nil_2 _
          | x :: l' => Forall_cons_2 _ _ _ (json_ind' x) (go l')
          end) l)
  | JObj l => HObj l
      ((fix go (l : list (string * json)) : Forall (fun kv => P kv.2) l :=
          match l with
          | [] => Forall_nil_2 _
          | kv :: l' => Forall_cons_2 _ _ _ (json_ind' kv.2) (go l')
          end) l)
  end.
End JsonInd.

(** ** Characters *)

Definition ch (n : nat) : ascii := ascii_of_nat n.
Definition quote : ascii := ch 34.
Definition bslash : ascii := ch 92.

Definition is_digit (c : ascii) : bool :=
  (48 <=? nat_of_ascii c) && (nat_of_ascii c <=? 57).

(** JSON whitespace: space, tab, line feed, carriage return. *)
Definition is_ws (c : ascii) : bool :=
  let n := nat_of_ascii c in (n =? 32) || (n =? 9) || (n =? 10) || (n =? 13).

Definition hex_digit (n : nat) : ascii :=
  if n <? 10 then ch (48 + n) else ch (87 + n).

Definition hex_val (c : ascii) : option nat :=
  let n := nat_of_ascii c in
  if (48 <=? n) && (n <=? 57) then Some (n - 48)
  else if (97 <=? n) && (n <=? 102) then Some (n - 87)
  else if (65 <=? n) && (n <=? 70) then Some (n - 55)
  else None.

(** ** The printer: [JSON.stringify] *)

(** The short escapes of [JSON.stringify]: [\b \t \n \f \r]. *)
Definition short_escape (n : nat) : option ascii :=
  if n =? 8 then Some "b"%char
  else if n =? 9 then Some "t"%char
  else if n =? 10 then Some "n"%char
  else if n =? 12 then Some "f"%char
  else if n =? 13 then Some "r"%char
  else None.

Definition escape_char (c : ascii) : string :=
  let n := nat_of_ascii c in
  if n =? 34 then String bslash (String quote "")
  else if n =? 92 then String bslash (String bslash "")
  else match short_escape n with
       | Some e => String bslash (String e "")
       | None =>
           if n <? 32
           then String bslash ("u00" +:+ String (hex_digit (n / 16))
                                           (String (hex_digit (n mod 16)) ""))
           else String c ""
       end.

Fixpoint escape_string (s : string) : string :=
  match s with
  | "" => ""
  | String c s' => escape_char c +:+ escape_string s'
  end.

Definition quote_string (s : string) : string :=
  String quote (escape_string s +:+ String quote "").

Definition string_of_N (n : N) : string := NilEmpty.string_of_uint (N.to_uint n).

(** [Number.prototype.toString] on an integer. *)
Definition string_of_Z (z : Z) : string :=
  match z with
  | Zneg p => "-" +:+ string_of_N (Npos p)
  | _ => string_of_N (Z.to_N z)
  end.

Fixpoint stringify (j : json) : string :=
  match j with
  | JNull => "null"
  | JBool true => "true"
  | JBool false => "false"
  | JNum n => string_of_Z n
  | JStr s => quote_string s
  | JArr [] => "[]"
  | JArr (x :: l) =>
      "[" +:+ stringify x +:+
      (fix items (l : list json) : string :=
         match l with
         | [] => "]"
         | y :: l' => "," +:+ stringify y +:+ items l'
         end) l
  | JObj [] => "{}"
  | JObj ((k, v) :: l) =>
      "{" +:+ quote_string k +:+ ":" +:+ stringify v +:+
      (fix members (l : list (string * json)) : string :=
         match l with
         | [] => "}"
         | (k', v') :: l' => "," +:+ quote_string k' +:+ ":" +:+ stringify v' +:+ members l'
         end) l
  end.

(** ** The parser: [JSON.parse] *)

Fixpoint skip_ws (s : string) : string :=
  match s with
  | String c s' => if is_ws c then skip_ws s' else s
  | "" => ""
  end.

Fixpoint strip_prefix (p s : string) : option string :=
  match p, s with
  | "", _ => Some s
  | String a p', String b s' => if Ascii.eqb a b then strip_prefix p' s' else None
  | _, _ => None
  end.

(** The one-character escapes [JSON.parse] accepts after a backslash. *)
Definition unescape_char (e : ascii) : option ascii :=
  if Ascii.eqb e quote then Some quote
  else if Ascii.eqb e bslash then Some bslash
  else if Ascii.eqb e "/"%char then Some "/"%char
  else if Ascii.eqb e "b"%char then Some (ch 8)
  else if Ascii.eqb e "t"%char then Some (ch 9)
  else if Ascii.eqb e "n"%char then Some (ch 10)
  else if Ascii.eqb e "f"%char then Some (ch 12)
  else if Ascii.eqb e "r"%char then Some (ch 13)
  else None.

(** A [\uXXXX] escape: four hexadecimal digits, a code unit below 0x100. *)
Definition unicode_escape (h1 h2 h3 h4 : ascii) : option ascii :=
  match hex_val h1, hex_val h2, hex_val h3, hex_val h4 with
  | Some a, Some b, Some c, Some d =>
      let code := a * 4096 + b * 256 + c * 16 + d in
      if code <? 256 then Some (ch code) else None
  | _, _, _, _ => None
  end.

(** The characters of a string literal up to the closing quote. *)
Fixpoint parse_chars (s : string) : option (string * string) :=
  match s with
  | "" => None
  | String c r =>
      if Ascii.eqb c quote then Some ("", r)
      else if Ascii.eqb c bslash then
        match r with
        | String e r' =>
            match unescape_char e with
            | Some d =>
                match parse_chars r' with
                | Some (s', rest) => Some (String d s', rest)
                | None => None
                end
            | None =>
                match r' with
                | String h1 (String h2 (String h3 (String h4 r''))) =>
                    if Ascii.eqb e "u"%char then
                      match unicode_escape h1 h2 h3 h4 with
                      | Some d =>
                          match parse_chars r'' with
                          | Some (s', rest) => Some (String d s', rest)
                          | None => None
                          end
                      | None => None
                      end
                    else None
                | _ => None
                end
            end
        | "" => None
        end
      else if nat_of_ascii c <? 32 then None
      else match parse_chars r with
           | Some (s', rest) => Some (String c s', rest)
           | None => None
           end
  end.

Fixpoint span_digits (s : string) : string * string :=
  match s with
  | String c s' =>
      if is_digit c then let '(ds, rest) := span_digits s' in (String c ds, rest)
      else ("", s)
  | "" => ("", "")
  end.

#[global] Instance uint_eq_dec : EqDecision Decimal.uint.
Proof. solve_decision. Defined.

(** An integer: an optional minus sign, then "0" or digits without a
    leading zero.  A fraction or an exponent is outside the model. *)
Definition number_end (rest : string) : bool :=
  match rest with
  | String c _ => negb (Ascii.eqb c "."%char || Ascii.eqb c "e"%char || Ascii.eqb c "E"%char)
  | "" => true
  end.

Definition parse_unsigned (neg : bool) (s : string) : option (json * string) :=
  let '(ds, rest) := span_digits s in
  match NilEmpty.uint_of_string ds with
  | Some u =>
      if bool_decide (Decimal.unorm u = u) && number_end rest then
        let n := Z.of_N (N.of_uint u) in
        Some (JNum (if neg then - n else n), rest)
      else None
  | None => None
  end.

Definition parse_number (s : string) : option (json * string) :=
  match s with
  | String c r => if Ascii.eqb c "-"%char then parse_unsigned true r else parse_unsigned false s
  | "" => None
  end.

Fixpoint parse_value (fuel : nat) (s : string) : option (json * string) :=
  match fuel with
  | O => None
  | S f =>
      match skip_ws s with
      | "" => None
      | String c r =>
          if Ascii.eqb c "n"%char then
            match strip_prefix "ull" r with Some r' => Some (JNull, r') | None => None end
          else if Ascii.eqb c "t"%char then
            match strip_prefix "rue" r with Some r' => Some (JBool true, r') | None => None end
          else if Ascii.eqb c "f"%char then
            match strip_prefix "alse" r with Some r' => Some (JBool false, r') | None => None end
          else if Ascii.eqb c quote then
            match parse_chars r with Some (str, r') => Some (JStr str, r') | None => None end
          else if Ascii.eqb c "["%char then
            match skip_ws r with
            | String c' r' =>
                if Ascii.eqb c' "]"%char then Some (JArr [], r')
                else match parse_items f r with
                     | Some (items, r'') => Some (JArr items, r'')
                     | None => None
                     end
            | "" => None
            end
          else if Ascii.eqb c "{"%char then
            match skip_ws r with
            | String c' r' =>
                if Ascii.eqb c' "}"%char then Some (JObj [], r')
                else match parse_members f r with
                     | Some (fields, r'') => Some (JObj fields, r'')
                     | None => None
                     end
            | "" => None
            end
          else parse_number (String c r)
      end
  end
with parse_items (fuel : nat) (s : string) : option (list json * string) :=
  match fuel with
  | O => None
  | S f =>
      match parse_value f s with
      | Some (v, r) =>
          match skip_ws r with
          | String c r' =>
              if Ascii.eqb c ","%char then
                match parse_items f r' with
                | Some (vs, r'') => Some (v :: vs, r'')
                | None => None
                end
              else if Ascii.eqb c "]"%char then Some ([v], r')
              else None
          | "" => None
          end
      | None => None
      end
  end
with parse_members (fuel : nat) (s : string) : option (list (string * json) * string) :=
  match fuel with
  | O => None
  | S f =>
      match skip_ws s with
      | String c r =>
          if Ascii.eqb c quote then
            match parse_chars r with
            | Some (k, r1) =>
                match skip_ws r1 with
                | String c1 r2 =>
                    if Ascii.eqb c1 ":"%char then
                      match parse_value f r2 with
                      | Some (v, r3) =>
                          match skip_ws r3 with
                          | String c3 r4 =>
                              if Ascii.eqb c3 ","%char then
                                match parse_members f r4 with
                                | Some (ms, r5) => Some ((k, v) :: ms, r5)
                                | None => None
                                end
                              else if Ascii.eqb c3 "}"%char then Some ([(k, v)], r4)
                              else None
                          | "" => None
                          end
                      | None => None
                      end
                    else None
                | "" => None
                end
            | None => None
            end
          else None
      | "" => None
      end
  end.

(** [JSON.parse]: one value, then only whitespace.  [None] is the
    [SyntaxError] that [JSON.parse] throws. *)
Definition parse (s : string) : option json :=
  match parse_value (S (String.length s)) s with
  | Some (j, rest) => match skip_ws rest with "" => Some j | _ => None end
  | None => None
  end.

(** ** The JSON grammar: which texts [JSON.parse] accepts

    [parse] returns values of the model's [json] type only, so it also
    rejects JSON text outside that type: fractions, exponents and [\uXXXX]
    escapes from 0x100.  The recogniser below accepts the whole grammar of
    RFC 8259, with the same recursive descent as [parse], and builds
    nothing: [json_text s = false] is exactly when [JSON.parse] throws its
    [SyntaxError]. *)

(** A string literal after its opening quote: any [\uXXXX] escape. *)
Fixpoint scan_chars (s : string) : option string :=
  match s with
  | "" => None
  | String c r =>
      if Ascii.eqb c quote then Some r
      else if Ascii.eqb c bslash then
        match r with
        | String e r' =>
            if bool_decide (is_Some (unescape_char e)) then scan_chars r'
            else if Ascii.eqb e "u"%char then
              match r' with
              | String h1 (String h2 (String h3 (String h4 r''))) =>
                  if bool_decide (is_Some (hex_val h1) /\ is_Some (hex_val h2) /\
                                  is_Some (hex_val h3) /\ is_Some (hex_val h4))
                  then scan_chars r'' else None
              | _ => None
              end
            else None
        | "" => None
        end
      else if nat_of_ascii c <? 32 then None
      else scan_chars r
  end.

(** One digit or more. *)
Definition scan_digits1 (s : string) : option string :=
  match span_digits s with
  | ("", _) => None
  | (_, rest) => Some rest
  end.

(** [0] or a digit from 1 to 9 followed by digits. *)
Definition scan_int (s : string) : option string :=
  match s with
  | String c r =>
      if Ascii.eqb c "0"%char then Some r
      else if is_digit c then Some (span_digits r).2
      else None
  | "" => None
  end.

(** An optional fraction: a point and one digit or more. *)
Definition scan_frac (s : string) : option string :=
  match s with
  | String c r => if Ascii.eqb c "."%char then scan_digits1 r else Some s
  | "" => Some ""
  end.

(** An optional exponent: [e] or [E], an optional sign, one digit or more. *)
Definition scan_exp (s : string) : option string :=
  match s with
  | String c r =>
      if Ascii.eqb c "e"%char || Ascii.eqb c "E"%char then
        match r with
        | String d r' =>
            if Ascii.eqb d "+"%char || Ascii.eqb d "-"%char then scan_digits1 r' else scan_digits1 r
        | "" => None
        end
      else Some s
  | "" => Some ""
  end.

Definition scan_number (s : string) : option string :=
  let s' := match s with String c r => if Ascii.eqb c "-"%char then r else s | "" => s end in
  match scan_int s' with
  | Some r1 => match scan_frac r1 with Some r2 => scan_exp r2 | None => None end
  | None => None
  end.

Fixpoint scan_value (fuel : nat) (s : string) : option string :=
  match fuel with
  | O => None
  | S f =>
      match skip_ws s with
      | "" => None
      | String c r =>
          if Ascii.eqb c "n"%char then strip_prefix "ull" r
          else if Ascii.eqb c "t"%char then strip_prefix "rue" r
          else if Ascii.eqb c "f"%char then strip_prefix "alse" r
          else if Ascii.eqb c quote then scan_chars r
          else if Ascii.eqb c "["%char then
            match skip_ws r with
            | String c' r' => if Ascii.eqb c' "]"%char then Some r' else scan_items f r
            | "" => None
            end
          else if Ascii.eqb c "{"%char then
            match skip_ws r with
            | String c' r' => if Ascii.eqb c' "}"%char then Some r' else scan_members f r
            | "" => None
            end
          else scan_number (String c r)
      end
  end
with scan_items (fuel : nat) (s : string) : option string :=
  match fuel with
  | O => None
  | S f =>
      match scan_value f s with
      | Some r =>
          match skip_ws r with
          | String c r' =>
              if Ascii.eqb c ","%char then scan_items f r'
              else if Ascii.eqb c "]"%char then Some r'
              else None
          | "" => None
          end
      | None => None
      end
  end
with scan_members (fuel : nat) (s : string) : option string :=
  match fuel with
  | O => None
  | S f =>
      match skip_ws s with
      | String c r =>
          if Ascii.eqb c quote then
            match scan_chars r with
            | Some r1 =>
                match skip_ws r1 with
                | String c1 r2 =>
                    if Ascii.eqb c1 ":"%char then
                      match scan_value f r2 with
                      | Some r3 =>
                          match skip_ws r3 with
                          | String c3 r4 =>
                              if Ascii.eqb c3 ","%char then scan_members f r4
                              else if Ascii.eqb c3 "}"%char then Some r4
                              else None
                          | "" => None
                          end
                      | None => None
                      end
                    else None
                | "" => None
                end
            | None => None
            end
          else None
      | "" => None
      end
  end.

(** The text is one JSON value with only whitespace around it. *)
Definition json_text (s : string) : bool :=
  match scan_value (S (String.length s)) s with
  | Some rest => String.eqb (skip_ws rest) ""
  | None => false
  end.

(** ** Fuel

    [need j] is the fuel [parse_value] uses on the text of [j]: one unit
    per call, the calls on the elements of an array or object being nested
    one level deeper per element. *)

Fixpoint need (j : json) : nat :=
  match j with
  | JArr l =>
      S ((fix go (l : list json) : nat :=
            match l with [] => 0 | x :: l' => S (Nat.max (need x) (go l')) end) l)
  | JObj l =>
      S ((fix go (l : list (string * json)) : nat :=
            match l with [] => 0 | kv :: l' => S (Nat.max (need kv.2) (go l')) end) l)
  | _ => 1
  end.

(** ** The round trip [parse (stringify j) = Some j] *)

(** *** Strings *)

(** The rest of the input after a number cannot extend it. *)
Definition num_stop (rest : string) : bool :=
  match rest with
  | String c _ => negb (is_digit c) && number_end rest
  | "" => true
  end.

Fixpoint items_str (l : list json) : string :=
  match l with
  | [] => "]"
  | y :: l' => "," +:+ stringify y +:+ items_str l'
  end.

Fixpoint members_str (l : list (string * json)) : string :=
  match l with
  | [] => "}"
  | (k, v) :: l' => "," +:+ quote_string k +:+ ":" +:+ stringify v +:+ members_str l'
  end.

Fixpoint items_need (l : list json) : nat :=
  match l with [] => 0 | x :: l' => S (Nat.max (need x) (items_need l')) end.

Fixpoint members_need (l : list (string * json)) : nat :=
  match l with [] => 0 | kv :: l' => S (Nat.max (need kv.2) (members_need l')) end.

(** A value's text parses back to the value, followed by the rest of the
    input, given enough fuel and a rest that cannot extend a number. *)
Definition parses_back (j : json) : Prop :=
  forall f rest, need j <= f -> num_stop rest = true ->
    parse_value f (stringify j +:+ rest) = Some (j, rest).

Definition need_fits (j : json) : Prop := need j <= String.length (stringify j).

(** A successful parse at some fuel consumes at least one character, and
    any fuel at least the number of characters it consumed gives the same
    result: the fuel bound of [parse] is never what decides its answer. *)
Definition value_stable (f : nat) : Prop := forall s v r,
  parse_value f s = Some (v, r) ->
  String.length r < String.length s /\
  forall g, String.length s - String.length r <= g -> parse_value g s = Some (v, r).
Definition items_stable (f : nat) : Prop := forall s vs r,
  parse_items f s = Some (vs, r) ->
  String.length r < String.length s /\
  forall g, String.length s - String.length r <= g -> parse_items g s = Some (vs, r).
Definition members_stable (f : nat) : Prop := forall s ms r,
  parse_members f s = Some (ms, r) ->
  String.length r < String.length s /\
  forall g, String.length s - String.length r <= g -> parse_members g s = Some (ms, r).

(** Each escaped character is read back as itself, whatever follows. *)
Lemma parse_chars_escape_char (c : ascii) (t : string) :
  parse_chars (escape_char c +:+ t) =
  match parse_chars t with Some (s', rest) => Some (String c s', rest) | None => None end.
Proof. destruct c as [[] [] [] [] [] [] [] []]; reflexivity. Qed.

Lemma parse_chars_escape (s rest : string) :
  parse_chars (escape_string s +:+ String quote rest) = Some (s, rest).
Proof.
  induction s as [|c s IH]; [reflexivity|].
  cbn [escape_string]. by rewrite string_app_assoc, parse_chars_escape_char, IH.
Qed.

(** *** Numbers *)

Lemma span_digits_uint (u : Decimal.uint) (rest : string) :
  num_stop rest = true ->
  span_digits (NilEmpty.string_of_uint u +:+ rest) = (NilEmpty.string_of_uint u, rest).
Proof.
  intros Hstop.
  induction u; cbn [NilEmpty.string_of_uint];
    rewrite ?string_app_cons; cbn [span_digits]; try (by rewrite IHu).
  rewrite string_app_nil_l. destruct rest as [|c r]; [done|].
  apply andb_prop in Hstop as [Hd _]. apply negb_true_iff in Hd.
  cbn [span_digits]. by rewrite Hd.
Qed.

Lemma N_to_uint_norm (n : N) : Decimal.unorm (N.to_uint n) = N.to_uint n.
Proof. by rewrite <- DecimalN.Unsigned.to_of, DecimalN.Unsigned.of_to. Qed.

Lemma num_stop_number_end (rest : string) : num_stop rest = true -> number_end rest = true.
Proof. destruct rest as [|c r]; [done|]. cbn. by destruct (is_digit c). Qed.

Lemma parse_unsigned_N (neg : bool) (n : N) (rest : string) :
  num_stop rest = true ->
  parse_unsigned neg (string_of_N n +:+ rest) =
  Some (JNum (if neg then - Z.of_N n else Z.of_N n), rest).
Proof.
  intros Hstop. unfold parse_unsigned, string_of_N.
  rewrite span_digits_uint by done. rewrite NilEmpty.usu.
  rewrite bool_decide_true by apply N_to_uint_norm.
  by rewrite num_stop_number_end, DecimalN.Unsigned.of_to.
Qed.

(** The decimal text of a natural number starts with a digit. *)
Lemma string_of_N_head (n : N) :
  exists c t, string_of_N n = String c t /\
    c ∈ ["0"; "1"; "2"; "3"; "4"; "5"; "6"; "7"; "8"; "9"]%char.
Proof.
  unfold string_of_N. pose proof (DecimalFacts.unorm_nonnil (N.to_uint n)) as Hnil.
  rewrite N_to_uint_norm in Hnil.
  destruct (N.to_uint n); [done|..]; eexists _, _; (split; [reflexivity|]);
    apply (bool_decide_unpack _); reflexivity.
Qed.

Lemma parse_number_N (n : N) (rest : string) :
  num_stop rest = true -> parse_number (string_of_N n +:+ rest) = Some (JNum (Z.of_N n), rest).
Proof.
  intros Hstop. destruct (string_of_N_head n) as (c & t & Ht & Hc).
  transitivity (parse_unsigned false (string_of_N n +:+ rest)); [|by rewrite parse_unsigned_N].
  rewrite Ht, string_app_cons.
  repeat (apply elem_of_cons in Hc as [-> | Hc]; [reflexivity|]). set_solver.
Qed.

Lemma parse_number_Z (z : Z) (rest : string) :
  num_stop rest = true -> parse_number (string_of_Z z +:+ rest) = Some (JNum z, rest).
Proof.
  intros Hstop. destruct z as [|p|p]; cbn [string_of_Z Z.to_N].
  - by rewrite parse_number_N.
  - by rewrite parse_number_N.
  - rewrite string_app_assoc.
    transitivity (parse_unsigned true (string_of_N (Npos p) +:+ rest));
      [reflexivity | by rewrite parse_unsigned_N].
Qed.

(** *** Arrays and objects *)

Lemma stringify_arr (x : json) (l : list json) :
  stringify (JArr (x :: l)) = "[" +:+ stringify x +:+ items_str l.
Proof. reflexivity. Qed.

Lemma stringify_obj (k : string) (v : json) (l : list (string * json)) :
  stringify (JObj ((k, v) :: l)) = "{" +:+ quote_string k +:+ ":" +:+ stringify v +:+ members_str l.
Proof. reflexivity. Qed.

Lemma need_arr (l : list json) : need (JArr l) = S (items_need l).
Proof. reflexivity. Qed.

Lemma need_obj (l : list (string * json)) : need (JObj l) = S (members_need l).
Proof. reflexivity. Qed.

(** Every printed value starts with a character that is not whitespace and
    closes no array or object. *)
Lemma stringify_head (j : json) :
  exists c t, stringify j = String c t /\ is_ws c = false /\
    Ascii.eqb c "]"%char = false /\ Ascii.eqb c "}"%char = false.
Proof.
  destruct j as [| [] |z|s| [|x l] | [|[k v] l]]; try by eexists _, _.
  destruct z as [|p|p]; try by eexists _, _.
  destruct (string_of_N_head (Npos p)) as (c & t & Ht & Hc).
  cbn [stringify string_of_Z Z.to_N]. rewrite Ht.
  eexists _, _; split; [reflexivity|].
  repeat (apply elem_of_cons in Hc as [-> | Hc]; [done|]). set_solver.
Qed.

Lemma skip_ws_stringify (j : json) (t : string) :
  skip_ws (stringify j +:+ t) = stringify j +:+ t.
Proof.
  destruct (stringify_head j) as (c & r & -> & Hws & _).
  rewrite string_app_cons. cbn [skip_ws]. by rewrite Hws.
Qed.

(** The first character of a number is a minus sign or a digit. *)
Lemma string_of_Z_head (z : Z) :
  exists c t, string_of_Z z = String c t /\
    c ∈ ["-"; "0"; "1"; "2"; "3"; "4"; "5"; "6"; "7"; "8"; "9"]%char.
Proof.
  destruct z as [|p|p].
  - eexists _, _. split; [reflexivity|]. set_solver.
  - destruct (string_of_N_head (Npos p)) as (c & t & Ht & Hc).
    exists c, t. split; [exact Ht|]. set_solver.
  - eexists _, _. split; [reflexivity|]. set_solver.
Qed.

Lemma parse_value_number (f : nat) (z : Z) (rest : string) :
  num_stop rest = true -> parse_value (S f) (string_of_Z z +:+ rest) = Some (JNum z, rest).
Proof.
  intros Hstop. rewrite <- (parse_number_Z z rest Hstop).
  destruct (string_of_Z_head z) as (c & t & -> & Hc). rewrite string_app_cons.
  repeat (apply elem_of_cons in Hc as [-> | Hc]; [reflexivity|]). set_solver.
Qed.

Lemma parse_items_back (l : list json) :
  Forall parses_back l ->
  forall x f rest, parses_back x -> items_need (x :: l) <= f -> num_stop rest = true ->
    parse_items f (stringify x +:+ items_str l +:+ rest) = Some (x :: l, rest).
Proof.
  induction 1 as [|y l Hy Hl IH]; intros x f rest Hx Hf Hstop;
    destruct f as [|f]; cbn [items_need] in Hf; try lia.
  - cbn [parse_items items_str]. rewrite Hx by (done || lia). reflexivity.
  - cbn [parse_items items_str]. rewrite Hx by (done || lia).
    rewrite !string_app_assoc, string_app_cons, string_app_nil_l. simpl.
    rewrite IH by (done || (cbn [items_need]; lia)). reflexivity.
Qed.

Lemma parse_members_back (l : list (string * json)) :
  Forall (fun kv => parses_back kv.2) l ->
  forall k v f rest, parses_back v -> members_need ((k, v) :: l) <= f -> num_stop rest = true ->
    parse_members f
      (String quote (escape_string k +:+ String quote (String ":"%char
         (stringify v +:+ members_str l +:+ rest))))
    = Some ((k, v) :: l, rest).
Proof.
  induction 1 as [|[k' v'] l Hy Hl IH]; intros k v f rest Hv Hf Hstop;
    destruct f as [|f]; cbn [members_need fst snd] in Hf; try lia;
    simpl; rewrite parse_chars_escape; simpl; rewrite Hv by (done || lia).
  - reflexivity.
  - unfold quote_string. autorewrite with st_simpl. simpl.
    rewrite IH by (done || (cbn [members_need fst snd]; lia)). reflexivity.
Qed.

Lemma parse_value_stringify (j : json) : parses_back j.
Proof.
  induction j as [| b | z | s | l Hl | l Hl] using json_ind';
    intros f rest Hf Hstop; destruct f as [|f];
    rewrite ?need_arr, ?need_obj in Hf; cbn [need] in Hf; try lia.
  - reflexivity.
  - by destruct b.
  - by apply parse_value_number.
  - cbn [stringify]. unfold quote_string. autorewrite with st_simpl. simpl.
    by rewrite parse_chars_escape.
  - destruct l as [|x l]; [reflexivity|].
    apply Forall_cons in Hl as [Hx Hl].
    rewrite stringify_arr. autorewrite with st_simpl. simpl.
    rewrite skip_ws_stringify.
    destruct (stringify_head x) as (c & t & Ht & _ & Hb & _).
    rewrite Ht, string_app_cons. simpl. rewrite Hb, <- string_app_cons, <- Ht.
    rewrite parse_items_back by (done || lia). reflexivity.
  - destruct l as [|[k v] l]; [reflexivity|].
    apply Forall_cons in Hl as [Hv Hl]. cbn [fst snd] in Hv.
    rewrite stringify_obj. unfold quote_string. autorewrite with st_simpl. simpl.
    rewrite parse_members_back by (done || lia). reflexivity.
Qed.


(** *** The fuel [parse] supplies is enough *)

Lemma string_of_Z_length (z : Z) : 1 <= String.length (string_of_Z z).
Proof. destruct (string_of_Z_head z) as (c & t & -> & _). simpl. lia. Qed.

Lemma items_need_fits (l : list json) :
  Forall need_fits l -> forall x, need_fits x ->
  items_need (x :: l) <= String.length (stringify x) + String.length (items_str l).
Proof.
  unfold need_fits. induction 1 as [|y l Hy Hl IH]; intros x Hx; cbn [items_need items_str].
  - simpl. lia.
  - specialize (IH y Hy). cbn [items_need] in IH.
    rewrite !string_length_app. simpl. lia.
Qed.

Lemma members_need_fits (l : list (string * json)) :
  Forall (fun kv => need_fits kv.2) l -> forall k v, need_fits v ->
  members_need ((k, v) :: l) <=
  String.length (quote_string k) + String.length (stringify v) + String.length (members_str l).
Proof.
  unfold need_fits. induction 1 as [|[k' v'] l Hy Hl IH]; intros k v Hv;
    cbn [members_need members_str fst snd].
  - simpl. lia.
  - specialize (IH k' v' Hy). cbn [members_need fst snd] in IH.
    rewrite !string_length_app. cbn [String.length]. lia.
Qed.

Lemma need_le_length (j : json) : need_fits j.
Proof.
  unfold need_fits.
  induction j as [| b | z | s | l Hl | l Hl] using json_ind'.
  - simpl. lia.
  - destruct b; simpl; lia.
  - cbn [need stringify]. apply string_of_Z_length.
  - simpl. lia.
  - destruct l as [|x l]; [simpl; lia|].
    apply Forall_cons in Hl as [Hx Hl].
    rewrite need_arr, stringify_arr, !string_length_app.
    pose proof (items_need_fits l Hl x Hx). cbn [String.length]. lia.
  - destruct l as [|[k v] l]; [simpl; lia|].
    apply Forall_cons in Hl as [Hv Hl].
    rewrite need_obj, stringify_obj, !string_length_app.
    pose proof (members_need_fits l Hl k v Hv). cbn [String.length]. lia.
Qed.

(** [JSON.parse(JSON.stringify(v))] gives back [v]. *)
Theorem parse_stringify (j : json) : parse (stringify j) = Some j.
Proof.
  unfold parse.
  pose proof (parse_value_stringify j (S (String.length (stringify j))) "") as H.
  rewrite string_app_nil_r in H. rewrite H; [reflexivity| |reflexivity].
  pose proof (need_le_length j). unfold need_fits in *. lia.
Qed.

(** ** Whitespace around a document *)

Lemma skip_ws_app (pre s : string) :
  skip_ws pre = "" -> skip_ws (pre +:+ s) = skip_ws s.
Proof.
  induction pre as [|c pre IH]; [done|]. cbn [skip_ws].
  destruct (is_ws c) eqn:Hc; [|done]. intros H. rewrite string_app_cons. cbn [skip_ws].
  rewrite Hc. by apply IH.
Qed.

Lemma ws_num_stop (c : ascii) (r : string) : is_ws c = true -> num_stop (String c r) = true.
Proof.
  unfold is_ws. cbv zeta. intros H. rewrite <- (ascii_nat_embedding c).
  repeat (apply orb_true_iff in H as [H|H]); apply Nat.eqb_eq in H; rewrite H; reflexivity.
Qed.

Lemma skip_ws_num_stop (s : string) : skip_ws s = "" -> num_stop s = true.
Proof.
  destruct s as [|c r]; [done|]. cbn [skip_ws].
  destruct (is_ws c) eqn:Hc; [intros _; by apply ws_num_stop|done].
Qed.

Lemma parse_value_skip (f : nat) (pre s : string) :
  skip_ws pre = "" -> parse_value f (pre +:+ s) = parse_value f s.
Proof. intros H. destruct f; [done|]. cbn [parse_value]. by rewrite skip_ws_app. Qed.

(** [JSON.parse] accepts the printed document with any JSON whitespace
    before and after it, and gives back the value. *)
Theorem parse_stringify_padded (j : json) (pre post : string) :
  skip_ws pre = "" -> skip_ws post = "" ->
  parse (pre +:+ stringify j +:+ post) = Some j.
Proof.
  intros Hpre Hpost. unfold parse. rewrite parse_value_skip by done.
  pose proof (need_le_length j) as Hn. unfold need_fits in Hn.
  rewrite (parse_value_stringify j); [by rewrite Hpost| |by apply skip_ws_num_stop].
  rewrite !string_length_app. lia.
Qed.

(** Distinct integers print differently. *)
Lemma string_of_Z_inj (z1 z2 : Z) : string_of_Z z1 = string_of_Z z2 -> z1 = z2.
Proof.
  intros H. pose proof (parse_stringify (JNum z1)) as H1.
  pose proof (parse_stringify (JNum z2)) as H2. cbn [stringify] in H1, H2.
  rewrite H in H1. congruence.
Qed.

(** ** Fuel adequacy of the parser

    Every call of [parse_value], [parse_items] and [parse_members] that
    succeeds reads a proper prefix of its input, so the fuel it needs is
    bounded by the characters it consumes (the shape of the fuel lemmas in
    fiat-crypto's [GroupAllBy]). *)

Lemma skip_ws_length (s : string) : String.length (skip_ws s) <= String.length s.
Proof. induction s as [|c s IH]; [done|]. cbn. destruct (is_ws c); cbn; lia. Qed.

Lemma strip_prefix_length (p s r : string) :
  strip_prefix p s = Some r -> String.length r <= String.length s.
Proof.
  revert s. induction p as [|a p IH]; intros [|b s] H; cbn in H; simplify_eq/=; try lia.
  destruct (Ascii.eqb a b); [apply IH in H; lia|done].
Qed.

Lemma parse_chars_length (s x r : string) :
  parse_chars s = Some (x, r) -> String.length r < String.length s.
Proof.
  revert x. induction s as [s IH] using (induction_ltof1 _ String.length); intros x H.
  destruct s as [|c t]; [done|]. cbn in H.
  repeat (case_match; simplify_eq/=); try lia;
    match goal with E : parse_chars ?u = Some _ |- _ =>
      apply IH in E; unfold ltof; cbn in *; lia end.
Qed.

Lemma span_digits_length (s : string) :
  String.length (span_digits s).1 + String.length (span_digits s).2 = String.length s.
Proof.
  induction s as [|c s IH]; [done|]. cbn.
  destruct (is_digit c); [destruct (span_digits s); cbn in *; lia|done].
Qed.

Lemma parse_unsigned_length (neg : bool) (s r : string) (v : json) :
  parse_unsigned neg s = Some (v, r) -> String.length r < String.length s.
Proof.
  unfold parse_unsigned. pose proof (span_digits_length s).
  destruct (span_digits s) as [ds rest] eqn:E. cbn in *.
  destruct ds as [|d ds]; [cbn; done|].
  repeat case_match; intros; simplify_eq/=; lia.
Qed.

Lemma parse_number_length (s r : string) (v : json) :
  parse_number s = Some (v, r) -> String.length r < String.length s.
Proof.
  destruct s as [|c t]; [done|]. cbn.
  destruct (Ascii.eqb c "-"); intros H%parse_unsigned_length; cbn in *; lia.
Qed.

Lemma skip_ws_cons_length (u t : string) (c : ascii) :
  skip_ws u = String c t -> String.length t < String.length u.
Proof. intros E. pose proof (skip_ws_length u) as H. rewrite E in H. cbn in H. lia. Qed.

Ltac rewrite_known :=
  repeat match goal with
  | H : ?x = _ |- context [?x] => lazymatch x with _ _ => rewrite H end
  end.

Ltac use_stable IH :=
  match goal with
  | E : _ = Some (_, _) |- _ =>
      lazymatch type of E with
      | parse_value _ _ = _ => idtac | parse_items _ _ = _ => idtac | parse_members _ _ = _ => idtac end;
      let Hl := fresh "Hl" in let Hg := fresh "Hg" in
      destruct (IH _ _ _ E) as [Hl Hg]; clear E
  end.

Ltac leaf_lengths :=
  repeat match goal with
  | E : strip_prefix _ _ = Some _ |- _ =>
      lazymatch goal with _ : String.length _ <= _ |- _ => fail | _ => idtac end;
      pose proof (strip_prefix_length _ _ _ E)
  | E : parse_chars _ = Some (_, _) |- _ =>
      lazymatch goal with _ : String.length _ < String.length _ |- _ => fail | _ => idtac end;
      pose proof (parse_chars_length _ _ _ E)
  end.

Ltac stable_case IHv IHi IHm :=
  repeat (case_match; simplify_eq);
  try match goal with E : parse_number _ = Some _ |- _ => pose proof (parse_number_length _ _ _ E) end;
  try match goal with E : strip_prefix _ _ = Some _ |- _ => pose proof (strip_prefix_length _ _ _ E) end;
  try match goal with E : parse_chars _ = Some (_, _) |- _ => pose proof (parse_chars_length _ _ _ E) end;
  repeat first [use_stable IHv | use_stable IHi | use_stable IHm];
  repeat match goal with E : skip_ws _ = String _ _ |- _ =>
    let Hl := fresh "Hw" in pose proof (skip_ws_cons_length _ _ _ E) as Hl; revert E end; intros;
  cbn [String.length] in *; (split; [lia|]); (let Hf := fresh "Hf" in intros [|g] Hf; [lia|]);
  cbn [parse_value parse_items parse_members];
  repeat (rewrite_known; cbn beta iota zeta;
    try match goal with Hg : forall k, _ -> ?F k ?u = Some _ |- context [?F _ ?u] =>
      rewrite Hg by lia end; cbn beta iota zeta);
  reflexivity.

Lemma parse_fuel_stable (f : nat) : value_stable f /\ items_stable f /\ members_stable f.
Proof.
  induction f as [|f (IHv & IHi & IHm)]; [split_and!; intros ???; done|].
  split_and!.
  - intros s v r H. cbn [parse_value] in H. pose proof (skip_ws_length s).
    stable_case IHv IHi IHm.
  - intros s vs r H. cbn [parse_items] in H. stable_case IHv IHi IHm.
  - intros s ms r H. cbn [parse_members] in H. stable_case IHv IHi IHm.
Qed.

(** A fuel above the input's length is always enough, so the result of
    [parse] is the result of the unbounded recursive-descent parser that
    [JSON.parse] runs. *)
Theorem parse_value_fuel_adequate (s : string) (f : nat) :
  String.length s < f -> parse_value f s = parse_value (S (String.length s)) s.
Proof.
  intros Hf. pose proof (proj1 (parse_fuel_stable f) s) as Hs1.
  pose proof (proj1 (parse_fuel_stable (S (String.length s))) s) as Hs2.
  destruct (parse_value f s) as [[v r]|] eqn:E1;
    destruct (parse_value (S (String.length s)) s) as [[v' r']|] eqn:E2; try done.
  - destruct (Hs1 _ _ eq_refl) as [_ Hg]. rewrite <- E2. symmetry. apply Hg. lia.
  - destruct (Hs1 _ _ eq_refl) as [_ Hg]. rewrite <- E2, Hg; [done|lia].
  - destruct (Hs2 _ _ eq_refl) as [_ Hg]. rewrite <- E1, Hg; [done|lia].
Qed.

(** ** The parser against the grammar

    Every text [parse] accepts is JSON text, so [json_text s = false]
    implies [parse s = None]: the model's parser rejects more than
    [JSON.parse] does, never less. *)

Lemma scan_chars_sound (s x r : string) :
  parse_chars s = Some (x, r) -> scan_chars s = Some r.
Proof.
  revert x. induction s as [s IH] using (induction_ltof1 _ String.length); intros x H.
  destruct s as [|c t]; [done|]. cbn in H |- *.
  destruct (Ascii.eqb c quote); [by simplify_eq|].
  destruct (Ascii.eqb c bslash).
  - destruct t as [|e t']; [done|].
    destruct (unescape_char e) eqn:Eu.
    + rewrite bool_decide_true by done.
      destruct (parse_chars t') as [[??]|] eqn:E; simplify_eq.
      eapply IH; [unfold ltof; cbn; lia|exact E].
    + rewrite bool_decide_false by (by intros []).
      destruct t' as [|h1 [|h2 [|h3 [|h4 r'']]]]; try done.
      destruct (Ascii.eqb e "u"%char); [|done].
      unfold unicode_escape in H.
      destruct (hex_val h1), (hex_val h2), (hex_val h3), (hex_val h4); try done.
      rewrite bool_decide_true by done.
      repeat case_match; simplify_eq.
      eapply IH; [unfold ltof; cbn; lia|eassumption].
  - repeat case_match; simplify_eq.
    eapply IH; [unfold ltof; cbn; lia|eassumption].
Qed.

Lemma span_digits_nil (r rest : string) : span_digits r = ("", rest) -> rest = r.
Proof.
  destruct r as [|c r]; cbn; [by intros [=]|].
  destruct (is_digit c); [destruct (span_digits r); done|by intros [=]].
Qed.

Lemma uint_of_string_nil (s : string) : NilEmpty.uint_of_string s = Some Decimal.Nil -> s = "".
Proof.
  destruct s as [|c s]; [done|]. cbn. destruct (NilEmpty.uint_of_string s); [|done].
  destruct c as [[] [] [] [] [] [] [] []]; done.
Qed.

(** A normalised digit string has no leading zero. *)
Lemma uint_leading_zero (ds : string) (u : Decimal.uint) :
  NilEmpty.uint_of_string (String "0" ds) = Some u -> Decimal.unorm u = u -> ds = "".
Proof.
  cbn. destruct (NilEmpty.uint_of_string ds) as [d|] eqn:E; [|done]. intros [= <-] Hn.
  destruct (decide (d = Decimal.Nil)) as [->|Hd]; [by apply uint_of_string_nil|].
  rewrite unorm_D0 in Hn. pose proof (nb_digits_unorm d Hd) as Hl. rewrite Hn in Hl. cbn in Hl. lia.
Qed.

Lemma unorm_nil_ne : Decimal.unorm Decimal.Nil <> Decimal.Nil.
Proof. done. Qed.

Lemma scan_int_sound (neg : bool) (s r : string) (j : json) :
  parse_unsigned neg s = Some (j, r) -> scan_int s = Some r /\ number_end r = true.
Proof.
  unfold parse_unsigned. destruct s as [|c t].
  - cbn. by rewrite bool_decide_false by apply unorm_nil_ne.
  - cbn [span_digits]. destruct (is_digit c) eqn:Hd.
    + destruct (span_digits t) as [ds rest] eqn:Es.
      destruct (NilEmpty.uint_of_string (String c ds)) as [u|] eqn:Eu; [|done].
      destruct (bool_decide (Decimal.unorm u = u)) eqn:Hn; [|done].
      destruct (number_end rest) eqn:He; [|done]. intros [= _ <-].
      cbn [scan_int]. destruct (Ascii.eqb c "0"%char) eqn:Ez; [|by rewrite Hd, Es].
      apply Ascii.eqb_eq in Ez as ->. apply bool_decide_eq_true in Hn.
      pose proof (uint_leading_zero ds u Eu Hn) as ->. by pose proof (span_digits_nil _ _ Es) as ->.
    + cbn. by rewrite bool_decide_false by apply unorm_nil_ne.
Qed.

Lemma scan_number_end (r : string) : number_end r = true -> scan_frac r = Some r /\ scan_exp r = Some r.
Proof.
  destruct r as [|c r]; [done|]. cbn.
  destruct (Ascii.eqb c "."%char), (Ascii.eqb c "e"%char), (Ascii.eqb c "E"%char); done.
Qed.

Lemma scan_number_sound (s r : string) (j : json) :
  parse_number s = Some (j, r) -> scan_number s = Some r.
Proof.
  unfold scan_number. destruct s as [|c t]; [done|]. cbn [parse_number].
  destruct (Ascii.eqb c "-"%char);
    intros (-> & (-> & ->)%scan_number_end)%scan_int_sound; done.
Qed.

(** Destruct the matches of a hypothesis one by one, the goal sharing its
    conditions. *)
Ltac destruct_hyp_matches H :=
  repeat match type of H with
  | context [match ?x with _ => _ end] => destruct x eqn:?; cbn beta iota zeta in H; simplify_eq
  end.

Lemma scan_sound (f : nat) :
  (forall s j r, parse_value f s = Some (j, r) -> scan_value f s = Some r) /\
  (forall s js r, parse_items f s = Some (js, r) -> scan_items f s = Some r) /\
  (forall s ms r, parse_members f s = Some (ms, r) -> scan_members f s = Some r).
Proof.
  induction f as [|f (IHv & IHi & IHm)]; [done|].
  split_and!; intros s x r H; cbn [parse_value parse_items parse_members] in H;
    cbn [scan_value scan_items scan_members]; destruct_hyp_matches H;
    repeat match goal with
    | E : parse_chars _ = Some (_, _) |- _ => apply scan_chars_sound in E
    | E : parse_number _ = Some (_, _) |- _ => apply scan_number_sound in E
    | E : parse_value f _ = Some (_, _) |- _ => apply IHv in E
    | E : parse_items f _ = Some (_, _) |- _ => apply IHi in E
    | E : parse_members f _ = Some (_, _) |- _ => apply IHm in E
    end;
    repeat match goal with E : ?x = _ |- context [?x] => rewrite E end; done.
Qed.

(** [parse] accepts JSON text only. *)
Lemma parse_json_text (s : string) (j : json) : parse s = Some j -> json_text s = true.
Proof.
  unfold parse, json_text. destruct (parse_value _ s) as [[v rest]|] eqn:E; [|done].
  rewrite (proj1 (scan_sound _) _ _ _ E). destruct (skip_ws rest); done.
Qed.

(** ** Fuel of the recogniser *)

Lemma scan_chars_length (s r : string) : scan_chars s = Some r -> String.length r < String.length s.
Proof.
  induction s as [s IH] using (induction_ltof1 _ String.length); intros H.
  destruct s as [|c t]; [done|]. cbn in H.
  repeat (case_match; simplify_eq/=); try lia;
    match goal with E : scan_chars ?u = Some _ |- _ => apply IH in E; unfold ltof; cbn in *; lia end.
Qed.

Lemma scan_digits1_length (s r : string) : scan_digits1 s = Some r -> String.length r <= String.length s.
Proof.
  unfold scan_digits1. pose proof (span_digits_length s).
  destruct (span_digits s) as [[|??] rest]; intros; simplify_eq/=; lia.
Qed.

Lemma scan_number_length (s r : string) : scan_number s = Some r -> String.length r < String.length s.
Proof.
  assert (forall u r1, scan_int u = Some r1 -> String.length r1 < String.length u) as Hi.
  { intros [|c t] r1; cbn; [done|]. pose proof (span_digits_length t).
    repeat case_match; intros; simplify_eq/=; lia. }
  assert (forall u r1, scan_frac u = Some r1 -> String.length r1 <= String.length u) as Hf.
  { intros [|c t] r1; cbn; [intros; simplify_eq/=; lia|].
    case_match; [intros ?%scan_digits1_length; cbn; lia|intros; simplify_eq/=; lia]. }
  assert (forall u r1, scan_exp u = Some r1 -> String.length r1 <= String.length u) as He.
  { intros [|c t] r1; cbn; [intros; simplify_eq/=; lia|].
    repeat case_match; intros; simplify_eq/=;
      try match goal with E : scan_digits1 _ = Some _ |- _ => apply scan_digits1_length in E end;
      cbn in *; lia. }
  unfold scan_number. destruct s as [|c t]; [done|].
  repeat case_match; intros; simplify_eq;
    repeat match goal with
    | E : scan_int _ = Some _ |- _ => apply Hi in E
    | E : scan_frac _ = Some _ |- _ => apply Hf in E
    | E : scan_exp _ = Some _ |- _ => apply He in E
    end; cbn in *; lia.
Qed.

Ltac scan_use IH :=
  match goal with
  | E : _ = Some _ |- _ =>
      lazymatch type of E with
      | scan_value _ _ = _ => idtac | scan_items _ _ = _ => idtac | scan_members _ _ = _ => idtac end;
      let Hl := fresh "Hl" in let Hg := fresh "Hg" in
      destruct (IH _ _ E) as [Hl Hg]; clear E
  end.

Ltac scan_case IHv IHi IHm :=
  repeat (case_match; simplify_eq);
  try match goal with E : scan_number _ = Some _ |- _ => pose proof (scan_number_length _ _ E) end;
  try match goal with E : strip_prefix _ _ = Some _ |- _ => pose proof (strip_prefix_length _ _ _ E) end;
  try match goal with E : scan_chars _ = Some _ |- _ => pose proof (scan_chars_length _ _ E) end;
  repeat first [scan_use IHv | scan_use IHi | scan_use IHm];
  repeat match goal with E : skip_ws _ = String _ _ |- _ =>
    let Hl := fresh "Hw" in pose proof (skip_ws_cons_length _ _ _ E) as Hl; revert E end; intros;
  cbn [String.length] in *; (split; [lia|]); (let Hf := fresh "Hf" in intros [|g] Hf; [lia|]);
  cbn [scan_value scan_items scan_members];
  repeat (rewrite_known; cbn beta iota zeta;
    try match goal with Hg : forall k, _ -> ?F k ?u = Some _ |- context [?F _ ?u] =>
      rewrite Hg by lia end; cbn beta iota zeta);
  reflexivity.

Lemma scan_fuel_stable (f : nat) :
  (forall s r, scan_value f s = Some r -> String.length r < String.length s /\
     forall g, String.length s - String.length r <= g -> scan_value g s = Some r) /\
  (forall s r, scan_items f s = Some r -> String.length r < String.length s /\
     forall g, String.length s - String.length r <= g -> scan_items g s = Some r) /\
  (forall s r, scan_members f s = Some r -> String.length r < String.length s /\
     forall g, String.length s - String.length r <= g -> scan_members g s = Some r).
Proof.
  induction f as [|f (IHv & IHi & IHm)]; [split_and!; intros ??; done|].
  split_and!.
  - intros s r H. cbn [scan_value] in H. pose proof (skip_ws_length s). scan_case IHv IHi IHm.
  - intros s r H. cbn [scan_items] in H. scan_case IHv IHi IHm.
  - intros s r H. cbn [scan_members] in H. scan_case IHv IHi IHm.
Qed.

(** The fuel of [json_text] is never what decides its answer: a text that
    the recursive descent accepts with some fuel, it accepts with the fuel
    [json_text] gives it. *)
Lemma scan_fuel_adequate (f : nat) (s r : string) :
  scan_value f s = Some r -> scan_value (S (String.length s)) s = Some r.
Proof. intros H. apply (proj1 (scan_fuel_stable f) s r H). lia. Qed.
