(* ===== verification/Types.v ===== *)
(** * The data model and its JSON codecs

    The records of [types.ts] (not under [src/], so modelled from the
    spec's data model and from the fields the sources read and write):
    [User], [Service], [Order], [SiteSettings], with their enumerations.
    [store.ts] writes each table with [JSON.stringify] and reads it back
    with [JSON.parse]; the [Codec] typeclass states what a table's type
    promises the store, namely that decoding its encoding gives it back.
    The instances discharge that law for every type the store persists. *)

From S2P Require Import Prelude Json.

(** ** Enumerations *)

Inductive Role := admin | visitor.
Inductive ServiceStatus := published | draft.
Inductive OrderStatus := pending | active | completed | cancelled.

#[global] Instance Role_eq_dec : EqDecision Role.
Proof. solve_decision. Defined.
#[global] Instance ServiceStatus_eq_dec : EqDecision ServiceStatus.
Proof. solve_decision. Defined.
#[global] Instance OrderStatus_eq_dec : EqDecision OrderStatus.
Proof. solve_decision. Defined.

(** ** Records *)

Record User := mkUser {
  user_id : string;
  user_name : string;
  user_email : string;
  user_password : string;
  user_role : Role }.

Record Service := mkService {
  service_id : string;
  title : string;
  description : string;
  price : Z;
  category : string;
  deliveryDays : Z;
  revisions : Z;
  images : list string;
  videos : list string;
  pdfs : list string;
  features : list string;
  service_status : ServiceStatus;
  impressions : Z;
  clicks : Z }.

Record Order := mkOrder {
  order_id : string;
  serviceId : string;
  clientName : string;
  clientEmail : string;
  order_status : OrderStatus;
  totalAmount : Z;
  createdAt : string;
  details : string }.

Record Seo := mkSeo { metaTitle : string; metaDescription : string }.

Record SiteSettings := mkSiteSettings {
  site_name : string;
  logo : string;
  socialLinks : list (string * string);
  seo : Seo }.

#[global] Instance User_eq_dec : EqDecision User.
Proof. solve_decision. Defined.
#[global] Instance Service_eq_dec : EqDecision Service.
Proof. solve_decision. Defined.
#[global] Instance Order_eq_dec : EqDecision Order.
Proof. solve_decision. Defined.
#[global] Instance Seo_eq_dec : EqDecision Seo.
Proof. solve_decision. Defined.
#[global] Instance SiteSettings_eq_dec : EqDecision SiteSettings.
Proof. solve_decision. Defined.

(** ** The codec interface *)

Class Codec (T : Type) := {
  to_json : T -> json;
  of_json : json -> option T;
  of_to_json : forall v, of_json (to_json v) = Some v }.

(** [JSON.stringify(v)], and [JSON.parse(s)] read at type [T]: [decode]
    fails where [JSON.parse] throws, and also on JSON text whose value is
    not a [T]; [json_parse] tells the two apart. *)
Definition encode {T} `{Codec T} (v : T) : string := stringify (to_json v).
Definition decode {T} `{Codec T} (s : string) : option T := parse s ≫= of_json.

(** What every persisted table relies on: the text written is read back as
    the same value. *)
Lemma decode_encode {T} `{Codec T} (v : T) : decode (encode v) = Some v.
Proof. unfold decode, encode. rewrite parse_stringify. apply of_to_json. Qed.

(** What [JSON.parse(saved)] gives code that expects a [T]: a [T]; a
    [SyntaxError], when the text is not JSON; or a JSON value that is not
    a [T] (another shape, a fraction, a [\u] escape from 0x100), which
    [JSON.parse] returns as it is and the typed model cannot hold. *)
Inductive parsed (T : Type) :=
| PValue (v : T)
| PSyntaxError
| POutside.
Arguments PValue {T} v.
Arguments PSyntaxError {T}.
Arguments POutside {T}.

Definition json_parse {T} `{Codec T} (s : string) : parsed T :=
  match decode s with
  | Some v => PValue v
  | None => if json_text s then POutside else PSyntaxError
  end.

Lemma json_parse_encode {T} `{Codec T} (v : T) : json_parse (encode v) = PValue v.
Proof. unfold json_parse. by rewrite decode_encode. Qed.

(** Text that is not JSON is a [SyntaxError] at every type. *)
Lemma json_parse_not_json {T} `{Codec T} (s : string) :
  json_text s = false -> json_parse (T:=T) s = PSyntaxError.
Proof.
  intros Hj. unfold json_parse, decode.
  destruct (parse s) as [j|] eqn:E; [by rewrite (parse_json_text _ _ E) in Hj|].
  cbn. by rewrite Hj.
Qed.

(** JSON text is never a [SyntaxError]. *)
Lemma json_parse_json {T} `{Codec T} (s : string) :
  json_text s = true -> json_parse (T:=T) s <> PSyntaxError.
Proof. intros Hj. unfold json_parse. destruct (decode s); [done|]. by rewrite Hj. Qed.

(** A field of a JSON object; a later duplicate key wins, as in [JSON.parse]. *)
Definition jfield (k : string) (fields : list (string * json)) : option json :=
  fold_left (fun acc kv => if String.eqb kv.1 k then Some kv.2 else acc) fields None.

(** ** Instances *)

#[global] Instance Codec_string : Codec string :=
  {| to_json s := JStr s;
     of_json j := match j with JStr s => Some s | _ => None end;
     of_to_json _ := eq_refl |}.

#[global] Instance Codec_Z : Codec Z :=
  {| to_json n := JNum n;
     of_json j := match j with JNum n => Some n | _ => None end;
     of_to_json _ := eq_refl |}.

Section ListCodec.
Context {T : Type} `{Codec T}.

Definition list_to_json (l : list T) : json := JArr (map to_json l).
Definition list_of_json (j : json) : option (list T) :=
  match j with JArr l => mapM of_json l | _ => None end.

Lemma list_of_to_json (l : list T) : list_of_json (list_to_json l) = Some l.
Proof.
  unfold list_of_json, list_to_json.
  induction l as [|x l IH]; [done|]. cbn [map mapM].
  rewrite of_to_json. simpl. by rewrite IH.
Qed.
End ListCodec.

#[global] Instance Codec_list {T} `{Codec T} : Codec (list T) :=
  {| to_json := list_to_json; of_json := list_of_json; of_to_json := list_of_to_json |}.

Definition role_to_json (r : Role) : json :=
  JStr (match r with admin => "admin" | visitor => "visitor" end).
Definition role_of_json (j : json) : option Role :=
  match j with
  | JStr s => if String.eqb s "admin" then Some admin
              else if String.eqb s "visitor" then Some visitor else None
  | _ => None
  end.
Lemma role_of_to_json r : role_of_json (role_to_json r) = Some r.
Proof. by destruct r. Qed.
#[global] Instance Codec_Role : Codec Role :=
  {| to_json := role_to_json; of_json := role_of_json; of_to_json := role_of_to_json |}.

Definition service_status_to_json (r : ServiceStatus) : json :=
  JStr (match r with published => "published" | draft => "draft" end).
Definition service_status_of_json (j : json) : option ServiceStatus :=
  match j with
  | JStr s => if String.eqb s "published" then Some published
              else if String.eqb s "draft" then Some draft else None
  | _ => None
  end.
Lemma service_status_of_to_json r : service_status_of_json (service_status_to_json r) = Some r.
Proof. by destruct r. Qed.
#[global] Instance Codec_ServiceStatus : Codec ServiceStatus :=
  {| to_json := service_status_to_json; of_json := service_status_of_json;
     of_to_json := service_status_of_to_json |}.

Definition order_status_to_json (r : OrderStatus) : json :=
  JStr (match r with
        | pending => "pending" | active => "active"
        | completed => "completed" | cancelled => "cancelled" end).
Definition order_status_of_json (j : json) : option OrderStatus :=
  match j with
  | JStr s => if String.eqb s "pending" then Some pending
              else if String.eqb s "active" then Some active
              else if String.eqb s "completed" then Some completed
              else if String.eqb s "cancelled" then Some cancelled else None
  | _ => None
  end.
Lemma order_status_of_to_json r : order_status_of_json (order_status_to_json r) = Some r.
Proof. by destruct r. Qed.
#[global] Instance Codec_OrderStatus : Codec OrderStatus :=
  {| to_json := order_status_to_json; of_json := order_status_of_json;
     of_to_json := order_status_of_to_json |}.

(** Decoding a record reads each field by name. *)
Ltac codec_record :=
  intros []; cbn [jfield fold_left fst snd String.eqb Ascii.eqb Bool.eqb andb];
  repeat (cbn [mbind option_bind]; rewrite of_to_json); reflexivity.

Definition user_to_json (u : User) : json :=
  JObj [("id", to_json (user_id u)); ("email", to_json (user_email u));
        ("password", to_json (user_password u)); ("name", to_json (user_name u));
        ("role", to_json (user_role u))].
Definition user_of_json (j : json) : option User :=
  match j with
  | JObj fs =>
      id ← jfield "id" fs ≫= of_json;
      email ← jfield "email" fs ≫= of_json;
      pw ← jfield "password" fs ≫= of_json;
      name ← jfield "name" fs ≫= of_json;
      role ← jfield "role" fs ≫= of_json;
      Some (mkUser id name email pw role)
  | _ => None
  end.
Lemma user_of_to_json u : user_of_json (user_to_json u) = Some u.
Proof. unfold user_of_json, user_to_json. revert u. codec_record. Qed.
#[global] Instance Codec_User : Codec User :=
  {| to_json := user_to_json; of_json := user_of_json; of_to_json := user_of_to_json |}.

Definition service_to_json (s : Service) : json :=
  JObj [("id", to_json (service_id s)); ("title", to_json (title s));
        ("description", to_json (description s)); ("price", to_json (price s));
        ("category", to_json (category s)); ("deliveryDays", to_json (deliveryDays s));
        ("revisions", to_json (revisions s)); ("images", to_json (images s));
        ("videos", to_json (videos s)); ("pdfs", to_json (pdfs s));
        ("features", to_json (features s)); ("status", to_json (service_status s));
        ("impressions", to_json (impressions s)); ("clicks", to_json (clicks s))].
Definition service_of_json (j : json) : option Service :=
  match j with
  | JObj fs =>
      id ← jfield "id" fs ≫= of_json;
      t ← jfield "title" fs ≫= of_json;
      d ← jfield "description" fs ≫= of_json;
      p ← jfield "price" fs ≫= of_json;
      c ← jfield "category" fs ≫= of_json;
      dd ← jfield "deliveryDays" fs ≫= of_json;
      r ← jfield "revisions" fs ≫= of_json;
      im ← jfield "images" fs ≫= of_json;
      vi ← jfield "videos" fs ≫= of_json;
      pd ← jfield "pdfs" fs ≫= of_json;
      fe ← jfield "features" fs ≫= of_json;
      st ← jfield "status" fs ≫= of_json;
      imp ← jfield "impressions" fs ≫= of_json;
      cl ← jfield "clicks" fs ≫= of_json;
      Some (mkService id t d p c dd r im vi pd fe st imp cl)
  | _ => None
  end.
Lemma service_of_to_json s : service_of_json (service_to_json s) = Some s.
Proof. unfold service_of_json, service_to_json. revert s. codec_record. Qed.
#[global] Instance Codec_Service : Codec Service :=
  {| to_json := service_to_json; of_json := service_of_json;
     of_to_json := service_of_to_json |}.

Definition order_to_json (o : Order) : json :=
  JObj [("id", to_json (order_id o)); ("serviceId", to_json (serviceId o));
        ("clientName", to_json (clientName o)); ("clientEmail", to_json (clientEmail o));
        ("status", to_json (order_status o)); ("totalAmount", to_json (totalAmount o));
        ("createdAt", to_json (createdAt o)); ("details", to_json (details o))].
Definition order_of_json (j : json) : option Order :=
  match j with
  | JObj fs =>
      id ← jfield "id" fs ≫= of_json;
      sid ← jfield "serviceId" fs ≫= of_json;
      cn ← jfield "clientName" fs ≫= of_json;
      ce ← jfield "clientEmail" fs ≫= of_json;
      st ← jfield "status" fs ≫= of_json;
      amt ← jfield "totalAmount" fs ≫= of_json;
      ca ← jfield "createdAt" fs ≫= of_json;
      de ← jfield "details" fs ≫= of_json;
      Some (mkOrder id sid cn ce st amt ca de)
  | _ => None
  end.
Lemma order_of_to_json o : order_of_json (order_to_json o) = Some o.
Proof. unfold order_of_json, order_to_json. revert o. codec_record. Qed.
#[global] Instance Codec_Order : Codec Order :=
  {| to_json := order_to_json; of_json := order_of_json; of_to_json := order_of_to_json |}.

(** [socialLinks]: an object whose entries are optional, kept in order. *)
Definition links_to_json (l : list (string * string)) : json :=
  JObj (map (fun kv => (kv.1, JStr kv.2)) l).
Definition links_of_json (j : json) : option (list (string * string)) :=
  match j with
  | JObj fs => mapM (fun kv => match kv.2 with JStr s => Some (kv.1, s) | _ => None end) fs
  | _ => None
  end.
Lemma links_of_to_json l : links_of_json (links_to_json l) = Some l.
Proof.
  unfold links_of_json, links_to_json.
  induction l as [|[k v] l IH]; [done|]. simpl. by rewrite IH.
Qed.

Definition settings_to_json (s : SiteSettings) : json :=
  JObj [("name", to_json (site_name s)); ("logo", to_json (logo s));
        ("socialLinks", links_to_json (socialLinks s));
        ("seo", JObj [("metaTitle", to_json (metaTitle (seo s)));
                      ("metaDescription", to_json (metaDescription (seo s)))])].
Definition settings_of_json (j : json) : option SiteSettings :=
  match j with
  | JObj fs =>
      n ← jfield "name" fs ≫= of_json;
      lg ← jfield "logo" fs ≫= of_json;
      sl ← jfield "socialLinks" fs ≫= links_of_json;
      sj ← jfield "seo" fs;
      match sj with
      | JObj sfs =>
          mt ← jfield "metaTitle" sfs ≫= of_json;
          md ← jfield "metaDescription" sfs ≫= of_json;
          Some (mkSiteSettings n lg sl (mkSeo mt md))
      | _ => None
      end
  | _ => None
  end.
Lemma settings_of_to_json s : settings_of_json (settings_to_json s) = Some s.
Proof.
  unfold settings_of_json, settings_to_json. intros. destruct s as [n lg sl []].
  cbn [jfield fold_left fst snd String.eqb Ascii.eqb Bool.eqb andb].
  repeat (cbn [mbind option_bind]; rewrite ?links_of_to_json, of_to_json). reflexivity.
Qed.
#[global] Instance Codec_SiteSettings : Codec SiteSettings :=
  {| to_json := settings_to_json; of_json := settings_of_json;
     of_to_json := settings_of_to_json |}.

(** The session entry: a user, or [null]. *)
Definition session_to_json (u : option User) : json :=
  match u with Some u => to_json u | None => JNull end.
Definition session_of_json (j : json) : option (option User) :=
  match j with JNull => Some None | _ => Some <$> user_of_json j end.
Lemma session_of_to_json u : session_of_json (session_to_json u) = Some u.
Proof.
  destruct u as [u|]; [|done].
  transitivity (Some <$> user_of_json (user_to_json u)); [reflexivity | by rewrite user_of_to_json].
Qed.
#[global] Instance Codec_session : Codec (option User) :=
  {| to_json := session_to_json; of_json := session_of_json;
     of_to_json := session_of_to_json |}.
