(* ===== verification/Storage.v ===== *)
(** * The browser environment of [store.ts]

    [localStorage] is a map from strings to strings with a size quota.
    [setItem] throws a [DOMException] named ["QuotaExceededError"] when the
    write would take the stored keys and values past the quota, and leaves
    the map as it was.  Every access throws a ["SecurityError"]
    [DOMException] when storage is unavailable (disabled by the user or by
    a privacy mode).  The console and [window.alert] are the side channels
    the store reports through; they are kept as append-only logs so that
    the theorems can say which warnings were shown.  All of these are
    browser APIs, not repository code: this file is the environment the
    repository's code runs against. *)

From S2P Require Import Prelude.

(** ** Exceptions and logs *)

Inductive exn : Type :=
| DOMException (name : string)
| SyntaxError
| TypeError
| JSError (msg : string).

Definition QuotaExceededError : exn := DOMException "QuotaExceededError".
Definition SecurityError : exn := DOMException "SecurityError".

Inductive log_entry : Type :=
| Log (msg : string)
| Warn (msg : string)
| Error (msg : string).

(** ** The browser state *)

Record World := mkWorld {
  ls_items : gmap string string;
  ls_quota : N;
  ls_available : bool;
  console : list log_entry;
  alerts : list string }.

Definition set_items (w : World) (m : gmap string string) : World :=
  mkWorld m (ls_quota w) (ls_available w) (console w) (alerts w).

(** Code that runs against the browser. *)
Notation Browser := (ST World exn).

(** Bytes in use: every key and every value, as the quota counts them. *)
Definition usage (m : gmap string string) : N :=
  map_fold (fun k v acc => (N.of_nat (String.length k) + N.of_nat (String.length v) + acc)%N) 0%N m.

(** The quota is respected by what is stored. *)
Definition wf_world (w : World) : Prop := (usage (ls_items w) <= ls_quota w)%N.

(** ** [localStorage] *)

Definition getItem (k : string) : Browser (option string) :=
  fun w => if ls_available w then (w, Normal (ls_items w !! k)) else (w, Thrown SecurityError).

Definition setItem (k v : string) : Browser unit :=
  fun w =>
    if ls_available w then
      let m := <[k:=v]> (ls_items w) in
      if (usage m <=? ls_quota w)%N then (set_items w m, Normal tt)
      else (w, Thrown QuotaExceededError)
    else (w, Thrown SecurityError).

Definition removeItem (k : string) : Browser unit :=
  fun w =>
    if ls_available w then (set_items w (delete k (ls_items w)), Normal tt)
    else (w, Thrown SecurityError).

(** ** Side channels *)

Definition console_log (msg : string) : Browser unit :=
  st_modify (fun w => mkWorld (ls_items w) (ls_quota w) (ls_available w)
                              (console w ++ [Log msg]) (alerts w)).

Definition console_warn (msg : string) : Browser unit :=
  st_modify (fun w => mkWorld (ls_items w) (ls_quota w) (ls_available w)
                              (console w ++ [Warn msg]) (alerts w)).

Definition console_error (msg : string) : Browser unit :=
  st_modify (fun w => mkWorld (ls_items w) (ls_quota w) (ls_available w)
                              (console w ++ [Error msg]) (alerts w)).

Definition alert (msg : string) : Browser unit :=
  st_modify (fun w => mkWorld (ls_items w) (ls_quota w) (ls_available w)
                              (console w) (alerts w ++ [msg])).

(** ** Lemmas *)

Lemma usage_delete (k : string) (m : gmap string string) :
  (usage (delete k m) <= usage m)%N.
Proof.
  unfold usage. destruct (m !! k) as [v|] eqn:Hk.
  - rewrite (map_fold_delete_L _ _ k v m); [lia| |done]. intros; lia.
  - by rewrite delete_id.
Qed.

Lemma set_items_same (w : World) : set_items w (ls_items w) = w.
Proof. by destruct w. Qed.

Lemma getItem_available (w : World) (k : string) :
  ls_available w = true -> getItem k w = (w, Normal (ls_items w !! k)).
Proof. unfold getItem. by intros ->. Qed.

Lemma removeItem_available (w : World) (k : string) :
  ls_available w = true ->
  removeItem k w = (set_items w (delete k (ls_items w)), Normal tt).
Proof. unfold removeItem. by intros ->. Qed.

Lemma setItem_fits (w : World) (k v : string) :
  ls_available w = true -> (usage (<[k:=v]> (ls_items w)) <= ls_quota w)%N ->
  setItem k v w = (set_items w (<[k:=v]> (ls_items w)), Normal tt).
Proof.
  unfold setItem. intros -> Hq. by rewrite (proj2 (N.leb_le _ _) Hq).
Qed.

Lemma setItem_exceeds (w : World) (k v : string) :
  ls_available w = true -> (ls_quota w < usage (<[k:=v]> (ls_items w)))%N ->
  setItem k v w = (w, Thrown QuotaExceededError).
Proof.
  unfold setItem. intros -> Hq.
  by rewrite (proj2 (N.leb_gt _ _) Hq).
Qed.

(** Writing back the value already stored always fits. *)
Lemma setItem_same (w : World) (k v : string) :
  ls_available w = true -> wf_world w -> ls_items w !! k = Some v ->
  setItem k v w = (w, Normal tt).
Proof.
  intros Ha Hwf Hk. rewrite setItem_fits; rewrite ?insert_id; try done.
  by rewrite set_items_same.
Qed.

(** The storage operations keep the quota respected. *)
Lemma setItem_wf (w : World) (k v : string) :
  wf_world w -> wf_world (run_state (setItem k v) w).
Proof.
  unfold run_state, setItem, wf_world. intros Hwf.
  destruct (ls_available w); [|done]. simpl.
  destruct (usage (<[k:=v]> (ls_items w)) <=? ls_quota w)%N eqn:Hq; [|done].
  by apply N.leb_le in Hq.
Qed.

Lemma removeItem_wf (w : World) (k : string) :
  wf_world w -> wf_world (run_state (removeItem k) w).
Proof.
  unfold run_state, removeItem, wf_world. intros Hwf.
  destruct (ls_available w); [|done]. simpl.
  pose proof (usage_delete k (ls_items w)). lia.
Qed.

#[export] Hint Rewrite getItem_available removeItem_available using assumption : st_simpl.
