(* ===== verification/Store.v ===== *)
(** * [src/store.ts]: the persistence and session layer

    [useStore] keeps five pieces of React state: [users], [services],
    [orders], [settings] and [currentUser].  Each is initialised lazily
    from [localStorage] by [loadFromDB] and written back by a [useEffect]
    through [saveToDB] whenever it changes.  The session is the exception:
    its effect removes the entry instead of writing [null].  The actions
    [setServices], [setOrders], [setSettings], [login], [signup] and
    [logout] change the in-memory state; React then re-renders and runs the
    effects of the fields that changed.

    Here the in-memory state is the record [StoreState], each action is a
    pure update that also reports which fields' setters took a new value
    ([Dirty]), and [commit] runs the effects of those fields in the order
    [store.ts] declares them. *)

From S2P Require Import Prelude Json Types Storage.

(** ** Keys and defaults *)

Record DbKeys := mkDbKeys {
  SERVICES : string; ORDERS : string; SETTINGS : string; USERS : string; SESSION : string }.

Definition DB_KEYS : DbKeys := {|
  SERVICES := "pc_db_services";
  ORDERS := "pc_db_orders";
  SETTINGS := "pc_db_settings";
  USERS := "pc_db_users";
  SESSION := "pc_db_current_session" |}.

(** The seed administrator, used when no users table is persisted. *)
Definition seed_admin : User :=
  mkUser "admin-1" "Admin" "admin@prithvi.com" "admin123" admin.

(** The seed data of [constants.ts] (not under [src/]): the store is
    defined for any choice of it. *)
Record Constants := mkConstants {
  INITIAL_SERVICES : list Service;
  INITIAL_ORDERS : list Order;
  INITIAL_SETTINGS : SiteSettings }.

(** ** [loadFromDB] and [saveToDB] *)

Definition parse_failed_msg (key : string) : string :=
  "[Store] Failed to parse " +:+ key +:+ ", resetting to default.".
Definition quota_msg : string := "[Store] Quota Exceeded! Large media files blocked.".
Definition storage_full_alert : string :=
  "Warning: Your browser storage is full. Some recent changes might not be saved.".
Definition save_error_msg (key : string) : string := "[Store] Save Error for " +:+ key.

(** The body of the [try]: [Some v] is the early [return JSON.parse(saved)],
    [None] falls through to [return defaultValue].  [JSON.parse] throws a
    [SyntaxError] on text that is not JSON; on JSON text whose value is not
    a [T] it returns that value, with no check, and the run leaves what the
    typed model represents ([st_stuck]): nothing is warned or erased. *)
Definition load_attempt {T} `{Codec T} (key : string) : Browser (option T) :=
  saved <- getItem key ;;
  match saved with
  | Some s =>
      if negb (String.eqb s "") && negb (String.eqb s "undefined") then
        match json_parse s with
        | PValue v => st_ret (Some v)
        | PSyntaxError => st_throw SyntaxError
        | POutside => st_stuck
        end
      else st_ret None
  | None => st_ret None
  end.

Definition loadFromDB {T} `{Codec T} (key : string) (defaultValue : T) : Browser T :=
  r <- st_try (load_attempt key)
              (fun _ => console_warn (parse_failed_msg key) ;;;
                        removeItem key ;;;
                        st_ret None) ;;
  match r with
  | Some v => st_ret v
  | None => st_ret defaultValue
  end.

(** [err instanceof DOMException && err.name === 'QuotaExceededError'] *)
Definition is_quota_exceeded (err : exn) : bool :=
  match err with
  | DOMException name => String.eqb name "QuotaExceededError"
  | _ => false
  end.

(** The [catch] of [saveToDB]. *)
Definition save_failed (key : string) (err : exn) : Browser unit :=
  if is_quota_exceeded err then
    console_error quota_msg ;;;
    removeItem (SESSION DB_KEYS) ;;;
    alert storage_full_alert
  else console_error (save_error_msg key).

Definition saveToDB {T} `{Codec T} (key : string) (data : T) : Browser unit :=
  st_try (setItem key (encode data)) (save_failed key).

(** ** The browser after a failed load or save *)

(** The world after [loadFromDB] discarded a corrupted entry. *)
Definition discard_entry (w : World) (key : string) : World :=
  mkWorld (delete key (ls_items w)) (ls_quota w) (ls_available w)
          (console w ++ [Warn (parse_failed_msg key)]) (alerts w).

(** The world after [saveToDB] hit the quota. *)
Definition quota_recovery (w : World) : World :=
  mkWorld (delete (SESSION DB_KEYS) (ls_items w)) (ls_quota w) (ls_available w)
          (console w ++ [Error quota_msg]) (alerts w ++ [storage_full_alert]).



(** ** The hook's state *)

Record StoreState := mkStore {
  users : list User;
  services : list Service;
  orders : list Order;
  settings : SiteSettings;
  currentUser : option User }.

(** Which state setters took a new value during an action.  Their effects
    are the ones React runs after the re-render. *)
Record Dirty := mkDirty {
  d_users : bool; d_services : bool; d_orders : bool; d_settings : bool; d_session : bool }.

Definition clean : Dirty := mkDirty false false false false false.

(** ** Effects

    An effect either writes a table through [saveToDB] or removes an entry.
    The session effect is the only one that removes. *)

Inductive effect : Type :=
| effect_save (key : string) (blob : string)
| effect_remove (key : string).

Definition run_effect (e : effect) : Browser unit :=
  match e with
  | effect_save key blob => st_try (setItem key blob) (save_failed key)
  | effect_remove key => removeItem key
  end.

Fixpoint run_effects (es : list effect) : Browser unit :=
  match es with
  | [] => st_ret tt
  | e :: es' => run_effect e ;;; run_effects es'
  end.

(** [if (currentUser) saveToDB(SESSION, currentUser) else removeItem(SESSION)] *)
Definition session_effect (cu : option User) : effect :=
  match cu with
  | Some u => effect_save (SESSION DB_KEYS) (encode u)
  | None => effect_remove (SESSION DB_KEYS)
  end.

(** The effects of the fields that changed, in declaration order. *)
Definition effects (d : Dirty) (st : StoreState) : list effect :=
  (if d_users d then [effect_save (USERS DB_KEYS) (encode (users st))] else []) ++
  (if d_services d then [effect_save (SERVICES DB_KEYS) (encode (services st))] else []) ++
  (if d_orders d then [effect_save (ORDERS DB_KEYS) (encode (orders st))] else []) ++
  (if d_settings d then [effect_save (SETTINGS DB_KEYS) (encode (settings st))] else []) ++
  (if d_session d then [session_effect (currentUser st)] else []).

Definition commit (d : Dirty) (st : StoreState) : Browser unit := run_effects (effects d st).

(** ** Initialisation: the lazy initialisers, then every effect on mount *)

Definition init_state (C : Constants) : Browser StoreState :=
  us <- loadFromDB (USERS DB_KEYS) [seed_admin] ;;
  ss <- loadFromDB (SERVICES DB_KEYS) (INITIAL_SERVICES C) ;;
  os <- loadFromDB (ORDERS DB_KEYS) (INITIAL_ORDERS C) ;;
  se <- loadFromDB (SETTINGS DB_KEYS) (INITIAL_SETTINGS C) ;;
  cu <- loadFromDB (SESSION DB_KEYS) (@None User) ;;
  st_ret (mkStore us ss os se cu).

Definition all_dirty : Dirty := mkDirty true true true true true.

Definition useStore (C : Constants) : Browser StoreState :=
  st <- init_state C ;;
  commit all_dirty st ;;;
  st_ret st.

(** ** Actions: the in-memory update and the setters it calls *)

Definition setServices (newServices : list Service) (st : StoreState) : StoreState * Dirty :=
  (mkStore (users st) newServices (orders st) (settings st) (currentUser st),
   mkDirty false true false false false).

Definition setOrders (newOrders : list Order) (st : StoreState) : StoreState * Dirty :=
  (mkStore (users st) (services st) newOrders (settings st) (currentUser st),
   mkDirty false false true false false).

Definition setSettings (newSettings : SiteSettings) (st : StoreState) : StoreState * Dirty :=
  (mkStore (users st) (services st) (orders st) newSettings (currentUser st),
   mkDirty false false false true false).

(** [setCurrentUser(u)]: React skips the update when the value is unchanged. *)
Definition setCurrentUser (cu : option User) (st : StoreState) : StoreState * Dirty :=
  (mkStore (users st) (services st) (orders st) (settings st) cu,
   mkDirty false false false false (bool_decide (currentUser st <> cu))).

Definition login (email pass : string) (st : StoreState) : bool * StoreState * Dirty :=
  match List.find (fun u => String.eqb (user_email u) email && String.eqb (user_password u) pass)
                  (users st) with
  | Some u => let '(st', d) := setCurrentUser (Some u) st in (true, st', d)
  | None => (false, st, clean)
  end.

(** [signup] appends a fresh visitor, whose id is [Date.now().toString()],
    and logs it in.  The new user object is fresh, so both effects run. *)
Definition signup (name email pass : string) (now : Z) (st : StoreState)
  : bool * StoreState * Dirty :=
  match List.find (fun u => String.eqb (user_email u) email) (users st) with
  | Some _ => (false, st, clean)
  | None =>
      let newUser := mkUser (string_of_Z now) name email pass visitor in
      (true,
       mkStore (users st ++ [newUser]) (services st) (orders st) (settings st) (Some newUser),
       mkDirty true false false false true)
  end.

Definition logout (st : StoreState) : StoreState * Dirty := setCurrentUser None st.

(** The derived values, recomputed on every render. *)
Definition isAuthenticated (st : StoreState) : bool := bool_decide (is_Some (currentUser st)).
Definition isAdmin (st : StoreState) : bool :=
  match currentUser st with Some u => bool_decide (user_role u = admin) | None => false end.

(** ** The store's interface, as the pages call it *)

Inductive Action : Type :=
| ASetServices (l : list Service)
| ASetOrders (l : list Order)
| ASetSettings (s : SiteSettings)
| ALogin (email pass : string)
| ASignup (name email pass : string) (now : Z)
| ALogout.

(** The in-memory part of an action: its boolean result (the setters
    return [true]), the new state, and the fields it changed. *)
Definition step_mem (a : Action) (st : StoreState) : bool * StoreState * Dirty :=
  match a with
  | ASetServices l => let '(st', d) := setServices l st in (true, st', d)
  | ASetOrders l => let '(st', d) := setOrders l st in (true, st', d)
  | ASetSettings s => let '(st', d) := setSettings s st in (true, st', d)
  | ALogin e p => login e p st
  | ASignup n e p now => signup n e p now st
  | ALogout => let '(st', d) := logout st in (true, st', d)
  end.

(** An action as the browser runs it: the state update, the re-render,
    then the effects. *)
Definition dispatch (a : Action) (st : StoreState) : Browser (bool * StoreState) :=
  let '(r, st', d) := step_mem a st in
  commit d st' ;;;
  st_ret (r, st').

(** An entry the typed model loads: absent, blank, not JSON text, or JSON
    text of the table's type.  Any other entry makes the load [Stuck]. *)
Definition loadable {T} `{Codec T} (o : option string) : bool :=
  match o with
  | Some s => match json_parse (T:=T) s with POutside => false | _ => true end
  | None => true
  end.

(** Every table entry of the storage is one the model loads. *)
Definition tables_loadable (m : gmap string string) : bool :=
  loadable (T:=list User) (m !! USERS DB_KEYS) &&
  loadable (T:=list Service) (m !! SERVICES DB_KEYS) &&
  loadable (T:=list Order) (m !! ORDERS DB_KEYS) &&
  loadable (T:=SiteSettings) (m !! SETTINGS DB_KEYS) &&
  loadable (T:=option User) (m !! SESSION DB_KEYS).

(** ** Behaviour of [loadFromDB] and [saveToDB] *)

Lemma decode_blank {T} `{Codec T} : decode "" = @None T /\ decode "undefined" = @None T.
Proof. split; reflexivity. Qed.

Lemma encode_not_blank {T} `{Codec T} (v : T) :
  String.eqb (encode v) "" = false /\ String.eqb (encode v) "undefined" = false.
Proof.
  pose proof (decode_encode v) as Hv. destruct decode_blank as [H1 H2].
  split; apply String.eqb_neq; intros Heq; rewrite Heq in Hv; congruence.
Qed.

Section Load.
Context {T : Type} `{Codec T}.
Implicit Types (w : World) (key : string) (d : T).

(** Every branch of [loadFromDB] on a stored entry. *)
Lemma loadFromDB_stored w key d s :
  ls_available w = true -> ls_items w !! key = Some s ->
  loadFromDB key d w =
    if negb (String.eqb s "") && negb (String.eqb s "undefined") then
      match json_parse s with
      | PValue v => (w, Normal v)
      | PSyntaxError => (discard_entry w key, Normal d)
      | POutside => (w, Stuck)
      end
    else (w, Normal d).
Proof.
  intros Ha Hk. unfold loadFromDB, load_attempt. st_unfold.
  rewrite getItem_available, Hk by done.
  destruct (negb _ && negb _); [|done].
  destruct (json_parse s); [done| |done].
  unfold console_warn, st_modify. by rewrite removeItem_available.
Qed.

Lemma loadFromDB_absent w key d :
  ls_available w = true -> ls_items w !! key = None ->
  loadFromDB key d w = (w, Normal d).
Proof. intros Ha Hk. unfold loadFromDB, load_attempt. st_unfold. by rewrite getItem_available, Hk. Qed.

(** C5: An empty or ["undefined"] entry gives the default, and the entry is
    left in storage: it is not erased. *)
Lemma loadFromDB_blank w key d s :
  ls_available w = true -> ls_items w !! key = Some s -> s = "" \/ s = "undefined" ->
  loadFromDB key d w = (w, Normal d).
Proof. intros Ha Hk Hs. rewrite (loadFromDB_stored w key d s Ha Hk). by destruct Hs as [-> | ->]. Qed.

(** C3: A stored entry that is neither empty nor ["undefined"] and is not
    JSON text, so that [JSON.parse] throws, is reported with a warning,
    erased, and replaced by the default; nothing is thrown. *)
Lemma loadFromDB_malformed w key d s :
  ls_available w = true -> ls_items w !! key = Some s ->
  s <> "" -> s <> "undefined" -> json_text s = false ->
  loadFromDB key d w = (discard_entry w key, Normal d).
Proof.
  intros Ha Hk H1 H2 Hj. rewrite (loadFromDB_stored w key d s Ha Hk), (json_parse_not_json s Hj).
  by rewrite (proj2 (String.eqb_neq _ _) H1), (proj2 (String.eqb_neq _ _) H2).
Qed.

(** C4: A stored entry that is JSON text is never warned about or
    erased, whatever its shape: a value of the table's type is returned,
    and any other JSON value is returned by [JSON.parse] unchecked, where
    the typed model stops ([Stuck]); the browser is left untouched. *)
Lemma loadFromDB_json_kept w key d s :
  ls_available w = true -> ls_items w !! key = Some s -> json_text s = true ->
  loadFromDB key d w = (w, match decode s with Some v => Normal v | None => Stuck end).
Proof.
  intros Ha Hk Hj. rewrite (loadFromDB_stored w key d s Ha Hk).
  destruct (String.eqb_spec s "") as [->|_]; [done|].
  destruct (String.eqb_spec s "undefined") as [->|_]; [done|]. cbn.
  unfold json_parse. destruct (decode s); [done|]. by rewrite Hj.
Qed.

Lemma loadFromDB_encoded w key d (v : T) :
  ls_available w = true -> ls_items w !! key = Some (encode v) ->
  loadFromDB key d w = (w, Normal v).
Proof.
  intros Ha Hk. rewrite (loadFromDB_stored w key d _ Ha Hk), json_parse_encode.
  destruct (encode_not_blank v) as [-> ->]. done.
Qed.

(** With storage unavailable, the [removeItem] inside the [catch] throws
    again, so the exception escapes [loadFromDB]. *)
Lemma loadFromDB_unavailable w key d :
  ls_available w = false ->
  loadFromDB key d w =
    (mkWorld (ls_items w) (ls_quota w) (ls_available w)
             (console w ++ [Warn (parse_failed_msg key)]) (alerts w),
     Thrown SecurityError).
Proof.
  intros Ha. unfold loadFromDB, load_attempt, getItem, removeItem, console_warn, st_modify.
  st_unfold. rewrite Ha. simpl. by rewrite Ha.
Qed.
End Load.

(** ** Behaviour of [saveToDB] *)

Section Save.
Context {T : Type} `{Codec T}.
Implicit Types (w : World) (key : string) (v : T).

Lemma saveToDB_fits w key v :
  ls_available w = true -> (usage (<[key:=encode v]> (ls_items w)) <= ls_quota w)%N ->
  saveToDB key v w = (set_items w (<[key:=encode v]> (ls_items w)), Normal tt).
Proof. intros Ha Hq. unfold saveToDB, st_try. by rewrite setItem_fits. Qed.

Lemma saveToDB_exceeds w key v :
  ls_available w = true -> (ls_quota w < usage (<[key:=encode v]> (ls_items w)))%N ->
  saveToDB key v w = (quota_recovery w, Normal tt).
Proof.
  intros Ha Hq. unfold saveToDB, st_try. rewrite setItem_exceeds by done.
  unfold save_failed.
  cbn [is_quota_exceeded QuotaExceededError String.eqb Ascii.eqb Bool.eqb andb].
  unfold console_error, alert. st_unfold. by rewrite removeItem_available.
Qed.

Lemma saveToDB_unavailable w key v :
  ls_available w = false ->
  saveToDB key v w =
    (mkWorld (ls_items w) (ls_quota w) (ls_available w)
             (console w ++ [Error (save_error_msg key)]) (alerts w), Normal tt).
Proof.
  intros Ha. unfold saveToDB, st_try, setItem, save_failed, console_error, st_modify.
  rewrite Ha. simpl. by rewrite Ha.
Qed.

(** Saving never throws: every failure is caught and reported. *)
Lemma saveToDB_normal w key v : exists w', saveToDB key v w = (w', Normal tt).
Proof.
  destruct (ls_available w) eqn:Ha; [|eexists; by apply saveToDB_unavailable].
  destruct (N.le_gt_cases (usage (<[key:=encode v]> (ls_items w))) (ls_quota w)).
  - eexists. by apply saveToDB_fits.
  - eexists. by apply saveToDB_exceeds.
Qed.

(** Writing back what is stored changes nothing. *)
Lemma saveToDB_same w key v :
  ls_available w = true -> wf_world w -> ls_items w !! key = Some (encode v) ->
  saveToDB key v w = (w, Normal tt).
Proof. intros Ha Hwf Hk. unfold saveToDB, st_try. by rewrite setItem_same. Qed.
End Save.

(** ** The store's error paths *)

(** C2: [setOrders] with a table that no longer fits: memory has the new
    orders, the session entry is erased, the user is warned once, and the
    other entries keep their old, uncorrupted values. *)
Theorem setOrders_quota (l : list Order) (st : StoreState) (w : World) :
  ls_available w = true ->
  (ls_quota w < usage (<[ORDERS DB_KEYS := encode l]> (ls_items w)))%N ->
  dispatch (ASetOrders l) st w =
    (quota_recovery w,
     Normal (true, mkStore (users st) (services st) l (settings st) (currentUser st))).
Proof.
  intros Ha Hq. unfold dispatch, commit. cbn [step_mem setOrders effects d_users d_services
    d_orders d_settings d_session app orders].
  cbn [run_effects]. change (run_effect (effect_save (ORDERS DB_KEYS) (encode l))) with (saveToDB (ORDERS DB_KEYS) l).
  st_unfold. rewrite saveToDB_exceeds by done. reflexivity.
Qed.

(** C13: A sign-up whose users table no longer fits: the quota handler erases
    the session entry and warns, and then the session effect, which runs
    after it in the same commit, writes the new session back.  Storage ends
    with the new user's session and the old users table, and the new
    account is in memory only. *)
Theorem signup_quota_session (n e p : string) (now : Z) (st : StoreState) (w : World) :
  let u := mkUser (string_of_Z now) n e p visitor in
  ls_available w = true -> Forall (fun v => user_email v <> e) (users st) ->
  (ls_quota w < usage (<[USERS DB_KEYS := encode (users st ++ [u])]> (ls_items w)))%N ->
  (usage (<[SESSION DB_KEYS := encode u]> (ls_items (quota_recovery w))) <= ls_quota w)%N ->
  exists w' st', dispatch (ASignup n e p now) st w = (w', Normal (true, st')) /\
    users st' = users st ++ [u] /\ currentUser st' = Some u /\
    ls_items w' !! SESSION DB_KEYS = Some (encode u) /\
    ls_items w' !! USERS DB_KEYS = ls_items w !! USERS DB_KEYS /\
    alerts w' = alerts w ++ [storage_full_alert].
Proof.
  intros u Ha Hf Hq Hs.
  assert (List.find (fun v => String.eqb (user_email v) e) (users st) = None) as Hn.
  { apply find_none_forall. eapply Forall_impl; [exact Hf|]. intros v Hv. by apply String.eqb_neq. }
  eexists _, _. unfold dispatch, commit. cbn [step_mem]. unfold signup. rewrite Hn.
  cbn [effects d_users d_services d_orders d_settings d_session app users currentUser
       session_effect run_effects].
  change (run_effect (effect_save (USERS DB_KEYS) (encode (users st ++ [mkUser (string_of_Z now) n e p visitor]))))
    with (saveToDB (USERS DB_KEYS) (users st ++ [u])).
  change (run_effect (effect_save (SESSION DB_KEYS) (encode (mkUser (string_of_Z now) n e p visitor))))
    with (saveToDB (SESSION DB_KEYS) u).
  st_unfold. rewrite saveToDB_exceeds by done.
  rewrite (saveToDB_fits (quota_recovery w) (SESSION DB_KEYS) u); [|done|done].
  split; [reflexivity|]. cbn. split_and!; try done.
  - by rewrite lookup_insert.
  - rewrite lookup_insert_ne, lookup_delete_ne; done.
Qed.

(** C6: With storage unavailable, mounting the store throws: the first load's
    [catch] calls [removeItem], which throws again. *)
Theorem useStore_unavailable (C : Constants) (w : World) :
  ls_available w = false ->
  run_outcome (useStore C) w = Thrown SecurityError.
Proof.
  intros Ha. unfold run_outcome, useStore, init_state.
  rewrite st_bind_assoc, (st_bind_thrown _ _ _ _ _ (loadFromDB_unavailable _ _ _ Ha)).
  reflexivity.
Qed.
