(* ===== verification/JsString.v ===== *)
(** * The JavaScript string methods the pages call

    [String.prototype.startsWith], [endsWith], [toLowerCase],
    [toUpperCase] and [trim], on the 8-bit strings of the development (a
    character is one Latin-1 code unit).  [toLowerCase] maps A-Z and the
    Latin-1 capitals; [toUpperCase] is only applied to the ASCII status
    names of orders and is modelled on ASCII letters.  [trim] removes the
    code units that ECMAScript counts as white space or line terminators in
    this range: tab, LF, VT, FF, CR, space and no-break space (160).
    Beside them, the two other built-ins the pages call with a behaviour
    that matters: [Array.prototype.filter] with a callback that reads the
    index, and [Number.prototype.toLocaleString()] in the en-US locale on
    integers.  These are platform functions, not repository code. *)

From S2P Require Import Prelude Json.
From Stdlib Require Import Ascii DecimalString.

Definition startsWith (s prefix : string) : bool := String.prefix prefix s.

Definition endsWith (s suffix : string) : bool :=
  let n := String.length s in
  let m := String.length suffix in
  (m <=? n) && String.eqb (String.substring (n - m) m s) suffix.

Definition lower_char (c : Ascii.ascii) : Ascii.ascii :=
  let n := Ascii.nat_of_ascii c in
  if ((65 <=? n) && (n <=? 90)) || ((192 <=? n) && (n <=? 222) && negb (n =? 215))
  then Ascii.ascii_of_nat (n + 32) else c.

Definition upper_char (c : Ascii.ascii) : Ascii.ascii :=
  let n := Ascii.nat_of_ascii c in
  if (97 <=? n) && (n <=? 122) then Ascii.ascii_of_nat (n - 32) else c.

Fixpoint string_map (f : Ascii.ascii -> Ascii.ascii) (s : string) : string :=
  match s with
  | EmptyString => EmptyString
  | String c s' => String (f c) (string_map f s')
  end.

Definition toLowerCase (s : string) : string := string_map lower_char s.
Definition toUpperCase (s : string) : string := string_map upper_char s.

Definition is_js_space (c : Ascii.ascii) : bool :=
  bool_decide (Ascii.nat_of_ascii c ∈ [9; 10; 11; 12; 13; 32; 160]).

Fixpoint drop_spaces (l : list Ascii.ascii) : list Ascii.ascii :=
  match l with
  | [] => []
  | c :: l' => if is_js_space c then drop_spaces l' else l
  end.

Definition trim (s : string) : string :=
  String.string_of_list_ascii
    (rev (drop_spaces (rev (drop_spaces (String.list_ascii_of_string s))))).

(** [arr.filter((x, i) => p x i)]: the callback sees each element with its
    index, counted from [i] for the suffix [l]. *)
Fixpoint filter_from {A} (p : A -> nat -> bool) (i : nat) (l : list A) : list A :=
  match l with
  | [] => []
  | x :: l' => if p x i then x :: filter_from p (S i) l' else filter_from p (S i) l'
  end.

Definition array_filter {A} (p : A -> nat -> bool) (l : list A) : list A := filter_from p 0 l.

(** The digits of an integer with a comma in front of every group of three
    counted from the right. *)
Fixpoint group_digits (s : string) : string :=
  match s with
  | "" => ""
  | String c r =>
      if (String.length r mod 3 =? 0) && (0 <? String.length r)
      then String c (String ","%char (group_digits r))
      else String c (group_digits r)
  end.

(** [n.toLocaleString()] for an integer [n], en-US. *)
Definition toLocaleString (n : Z) : string :=
  (if (n <? 0)%Z then "-" else "") +:+ group_digits (string_of_N (Z.abs_N n)).

Fixpoint remove_commas (s : string) : string :=
  match s with
  | "" => ""
  | String c r => if Ascii.eqb c ","%char then remove_commas r else String c (remove_commas r)
  end.

(** ** Lemmas *)

Lemma string_map_length f s : String.length (string_map f s) = String.length s.
Proof. induction s; simpl; congruence. Qed.

Lemma startsWith_app (p s : string) : startsWith (p +:+ s) p = true.
Proof.
  unfold startsWith. induction p as [|c p IH]; [by destruct s|].
  rewrite string_app_cons. simpl. by destruct (Ascii.ascii_dec c c).
Qed.

Lemma drop_spaces_nil l : drop_spaces l = [] <-> Forall (fun c => is_js_space c = true) l.
Proof.
  induction l as [|c l IH]; simpl; [split; auto|].
  rewrite Forall_cons. destruct (is_js_space c); [rewrite IH; tauto|].
  split; [done|]. intros [? _]; done.
Qed.

Lemma drop_spaces_all_spaces l :
  Forall (fun c => is_js_space c = true) (drop_spaces l) -> drop_spaces l = [].
Proof.
  induction l as [|c l IH]; simpl; [done|].
  destruct (is_js_space c) eqn:Hc; [done|]. by intros [? _]%Forall_cons; congruence.
Qed.

(** [trim s] is empty exactly when [s] is made of white space only. *)
Lemma trim_empty (s : string) :
  trim s = EmptyString <-> Forall (fun c => is_js_space c = true) (String.list_ascii_of_string s).
Proof.
  unfold trim. rewrite <- drop_spaces_nil. split.
  - intros H. apply (f_equal String.list_ascii_of_string) in H.
    rewrite String.list_ascii_of_string_of_list_ascii in H.
    apply (f_equal (@rev _)) in H. rewrite rev_involutive in H. simpl in H.
    apply drop_spaces_nil in H. apply Forall_rev in H.
    rewrite rev_involutive in H. by apply drop_spaces_all_spaces.
  - intros ->. reflexivity.
Qed.

Lemma remove_commas_group (s : string) : remove_commas (group_digits s) = remove_commas s.
Proof.
  induction s as [|c r IH]; [done|]. cbn [group_digits].
  destruct (_ && _); cbn; by rewrite IH.
Qed.

Lemma remove_commas_uint (u : Decimal.uint) :
  remove_commas (NilEmpty.string_of_uint u) = NilEmpty.string_of_uint u.
Proof. induction u; cbn; by f_equal. Qed.

Lemma remove_commas_app (a b : string) :
  remove_commas (a +:+ b) = remove_commas a +:+ remove_commas b.
Proof.
  induction a as [|c a IH]; [done|]. rewrite string_app_cons. cbn.
  destruct (Ascii.eqb c ","%char); [done|]. by rewrite IH, string_app_cons.
Qed.

(** The revenue figure reads as the number: deleting the grouping commas
    of [toLocaleString n] gives [String(n)]. *)
Lemma toLocaleString_digits (n : Z) : remove_commas (toLocaleString n) = string_of_Z n.
Proof.
  unfold toLocaleString, string_of_Z, string_of_N.
  rewrite remove_commas_app, remove_commas_group, remove_commas_uint.
  destruct n as [|p|p]; cbn -[NilEmpty.string_of_uint]; reflexivity.
Qed.

