(* ===== verification/Forms.v ===== *)
(** * The submit cycle of the visitor forms

    [Checkout.tsx], [Contact.tsx], [Login.tsx] and [SignUp.tsx] share one
    pattern: controlled inputs write a form state; the form's [onSubmit]
    runs an [async] handler that starts with [setIsSubmitting(true);
    setError('')], awaits a [fetch], and ends in [finally] with
    [setIsSubmitting(false)], having set an error message on failure; the
    submit button is [disabled={isSubmitting}] and changes its label.  The
    handler reads the form values of the render it was created in.

    This file states the pattern once, over the type [F] of a page's
    values, in the Section [Form]: the page's state [FormPage], its input,
    submit and settle operations and its button and banner.  The pages in
    [Storefront.v] instantiate it.  The theorems: a submitted request
    carries the values of the click whatever is typed while it is in
    flight, and no second request can start before the first settles. *)

From S2P Require Import Prelude.

Module Forms.

Section Form.

Context {F : Type}.

Record FormPage := mkFormPage { values : F; isSubmitting : bool; error : string }.

(** The [useState] initial values. *)
Definition initial (f0 : F) : FormPage := mkFormPage f0 false "".

(** An input's [onChange]: the page's setter applied to [e.target.value]. *)
Definition input (upd : F -> F) (p : FormPage) : FormPage :=
  mkFormPage (upd (values p)) (isSubmitting p) (error p).

(** The form's submit: the browser fires [onSubmit] only when the fields
    pass constraint validation ([valid]: [required], [type="email"],
    [minLength]), and not while the submit button is disabled (a click
    on it is ignored, and implicit submission with Enter is blocked by a
    disabled default button).  The handler's first two statements run, and
    the request is built from the values of that render. *)
Definition submit (valid : F -> bool) (p : FormPage) : option (FormPage * F) :=
  if valid (values p) && negb (isSubmitting p)
  then Some (mkFormPage (values p) true "", values p)
  else None.

(** The handler's end: the message its failing branch set ([""] when none
    did), then [finally]'s [setIsSubmitting(false)]. *)
Definition settle (err : string) (p : FormPage) : FormPage :=
  mkFormPage (values p) false err.

(** The submit button: [disabled] and the label shown. *)
Definition button (idle busy : string) (p : FormPage) : bool * string :=
  (isSubmitting p, if isSubmitting p then busy else idle).

(** [{error && <div>{error}</div>}]: the empty string is falsy. *)
Definition banner (p : FormPage) : option string :=
  if String.eqb (error p) "" then None else Some (error p).

(** A run of inputs while a request is in flight. *)
Definition inputs (us : list (F -> F)) (p : FormPage) : FormPage :=
  fold_left (fun p u => input u p) us p.

End Form.

Arguments FormPage : clear implicits.

(** ** Lemmas *)

Section Laws.

Context {F : Type}.
Implicit Types (p : FormPage F) (valid : F -> bool).

Lemma inputs_submitting (us : list (F -> F)) p :
  isSubmitting (inputs us p) = isSubmitting p.
Proof. revert p. induction us as [|u us IH]; intros p; [done|]. exact (IH (input u p)). Qed.

Lemma submit_some valid p p' f :
  submit valid p = Some (p', f) ->
  valid (values p) = true /\ isSubmitting p = false /\ f = values p /\
  p' = mkFormPage (values p) true "".
Proof.
  unfold submit. destruct (valid (values p)), (isSubmitting p); cbn; intros; simplify_eq; done.
Qed.

(** While a request is in flight, whatever is typed, the button is
    disabled with its busy label and a second submit does nothing: one
    request at a time. *)
Lemma submit_exclusive valid p p' f (us : list (F -> F)) (idle busy : string) :
  submit valid p = Some (p', f) ->
  button idle busy (inputs us p') = (true, busy) /\ submit valid (inputs us p') = None.
Proof.
  intros (_ & _ & _ & ->)%submit_some. unfold button, submit.
  rewrite inputs_submitting. cbn. by rewrite andb_false_r.
Qed.

Lemma inputs_values (us : list (F -> F)) p :
  values (inputs us p) = fold_left (fun f u => u f) us (values p).
Proof. revert p. induction us as [|u us IH]; intros p; [done|]. exact (IH (input u p)). Qed.

End Laws.

End Forms.
