(* ===== verification/Persistence.v ===== *)
(** * Persistence: memory is the source of truth, storage follows it

    The theorems of this file relate the store's in-memory state to what
    [localStorage] holds.
    - [dispatch] never throws while storage is available, and its in-memory
      result is the one [step_mem] prescribes, even when a write hits the
      quota.
    - [synced st w] says each of the five entries holds the encoding of
      the corresponding field.  Every action keeps it, unless a quota
      alert was raised.
    - From a synchronised storage, [useStore] rebuilds exactly the state
      that was saved, and leaves storage untouched: the reload round trip.
      It holds after a single action, after logout, and after any sequence
      of actions ([dispatch_all]) that raised no alert.
    - Mounting never throws while storage is available and every table
      entry is one the typed model loads, and on empty storage it starts
      from the defaults. *)

From S2P Require Import Prelude Json Types Storage Store.

(** ** What the effects do to the map *)

Definition apply_effect (e : effect) (m : gmap string string) : gmap string string :=
  match e with
  | effect_save k b => <[k:=b]> m
  | effect_remove k => delete k m
  end.

Definition apply_effects (es : list effect) (m : gmap string string) : gmap string string :=
  fold_left (fun m e => apply_effect e m) es m.

(** The contract of a run of effects on an available storage: it stays
    available, keeps its quota and the quota invariant, only appends
    alerts, and when it appends none, every write took place. *)
Definition effects_post (es : list effect) (w w' : World) : Prop :=
  ls_available w' = true /\ ls_quota w' = ls_quota w /\ (wf_world w -> wf_world w') /\
  alerts w `prefix_of` alerts w' /\
  (alerts w' = alerts w -> ls_items w' = apply_effects es (ls_items w)).

Definition session_blob (st : StoreState) : option string := encode <$> currentUser st.

Definition synced (st : StoreState) (m : gmap string string) : Prop :=
  m !! USERS DB_KEYS = Some (encode (users st)) /\
  m !! SERVICES DB_KEYS = Some (encode (services st)) /\
  m !! ORDERS DB_KEYS = Some (encode (orders st)) /\
  m !! SETTINGS DB_KEYS = Some (encode (settings st)) /\
  m !! SESSION DB_KEYS = session_blob st.

(** The fields an action did not mark are unchanged. *)
Definition covers (d : Dirty) (st st' : StoreState) : Prop :=
  (d_users d = false -> users st' = users st) /\
  (d_services d = false -> services st' = services st) /\
  (d_orders d = false -> orders st' = orders st) /\
  (d_settings d = false -> settings st' = settings st) /\
  (d_session d = false -> currentUser st' = currentUser st).

Definition effect_key (e : effect) : string :=
  match e with effect_save k _ => k | effect_remove k => k end.

(** The entries of the fields an action leaves alone are synchronised. *)
Definition synced_unless (d : Dirty) (st : StoreState) (m : gmap string string) : Prop :=
  (d_users d = false -> m !! USERS DB_KEYS = Some (encode (users st))) /\
  (d_services d = false -> m !! SERVICES DB_KEYS = Some (encode (services st))) /\
  (d_orders d = false -> m !! ORDERS DB_KEYS = Some (encode (orders st))) /\
  (d_settings d = false -> m !! SETTINGS DB_KEYS = Some (encode (settings st))) /\
  (d_session d = false -> m !! SESSION DB_KEYS = session_blob st).

(** The value [loadFromDB] yields for an entry, as a function of the entry. *)
Definition loaded_value {T} `{Codec T} (o : option string) (d : T) : T :=
  match o with
  | Some s =>
      if negb (String.eqb s "") && negb (String.eqb s "undefined")
      then match json_parse s with PValue v => v | _ => d end else d
  | None => d
  end.

(** What one load does to the world: at most its own entry is erased, with
    a warning on the console. *)
Definition load_post (key : string) (w w' : World) : Prop :=
  ls_available w' = true /\ ls_quota w' = ls_quota w /\ alerts w' = alerts w /\
  (forall k, k <> key -> ls_items w' !! k = ls_items w !! k) /\
  (wf_world w -> wf_world w').

Definition default_state (C : Constants) : StoreState :=
  mkStore [seed_admin] (INITIAL_SERVICES C) (INITIAL_ORDERS C) (INITIAL_SETTINGS C) None.

(** The handlers the pages run one after the other, each on the state the
    previous one left. *)
Fixpoint dispatch_all (acts : list Action) (st : StoreState) : Browser StoreState :=
  match acts with
  | [] => st_ret st
  | a :: acts' => r <- dispatch a st ;; dispatch_all acts' (snd r)
  end.

(** A visit: the store is mounted, then the pages make their store calls. *)
Definition session_run (C : Constants) (acts : list Action) : Browser StoreState :=
  st <- useStore C ;; dispatch_all acts st.


Lemma saveToDB_effect {T} `{Codec T} (key : string) (v : T) :
  saveToDB key v = run_effect (effect_save key (encode v)).
Proof. reflexivity. Qed.

Lemma run_effect_ok (e : effect) (w : World) :
  ls_available w = true ->
  exists w', run_effect e w = (w', Normal tt) /\ effects_post [e] w w'.
Proof.
  intros Ha. destruct e as [k b|k]; cbn [run_effect].
  - destruct (N.le_gt_cases (usage (<[k:=b]> (ls_items w))) (ls_quota w)) as [Hq|Hq].
    + eexists. unfold st_try. rewrite setItem_fits by done. split; [done|].
      unfold effects_post, wf_world. cbn [ls_available ls_quota ls_items alerts set_items apply_effects apply_effect fold_left]. done.
    + eexists. unfold st_try. rewrite setItem_exceeds by done.
      unfold save_failed, console_error, alert. st_unfold.
      cbn [is_quota_exceeded QuotaExceededError String.eqb Ascii.eqb Bool.eqb andb].
      rewrite removeItem_available by done. split; [done|].
      unfold effects_post, wf_world. cbn [ls_available ls_quota ls_items alerts set_items apply_effects apply_effect fold_left]. split_and!; try done.
      * pose proof (usage_delete (SESSION DB_KEYS) (ls_items w)). lia.
      * by apply prefix_app_r.
      * intros Heq. exfalso. apply (f_equal length) in Heq. rewrite length_app in Heq. simpl in Heq. lia.
  - eexists. rewrite removeItem_available by done. split; [done|].
    unfold effects_post, wf_world. cbn [ls_available ls_quota ls_items alerts set_items apply_effects apply_effect fold_left]. split_and!; try done.
    pose proof (usage_delete k (ls_items w)). lia.
Qed.

Lemma run_effects_ok (es : list effect) (w : World) :
  ls_available w = true ->
  exists w', run_effects es w = (w', Normal tt) /\ effects_post es w w'.
Proof.
  revert w. induction es as [|e es IH]; intros w Ha.
  - exists w. split; [done|]. unfold effects_post. split_and!; done.
  - destruct (run_effect_ok e w Ha) as (w1 & Hrun1 & Ha1 & Hq1 & Hwf1 & Hp1 & Hi1).
    destruct (IH w1 Ha1) as (w2 & Hrun2 & Ha2 & Hq2 & Hwf2 & Hp2 & Hi2).
    exists w2. cbn [run_effects]. rewrite (st_bind_normal _ _ _ _ _ Hrun1). split; [done|].
    unfold effects_post. split_and!; [done|congruence|tauto|by etrans|].
    intros Heq. assert (alerts w1 = alerts w) as Heq1.
    { symmetry. apply prefix_length_eq; [done|]. rewrite <- Heq. by apply prefix_length. }
    rewrite Hi2, Hi1 by congruence. done.
Qed.

(** ** Synchronised storage *)

Lemma apply_effects_app (es1 es2 : list effect) (m : gmap string string) :
  apply_effects (es1 ++ es2) m = apply_effects es2 (apply_effects es1 m).
Proof. unfold apply_effects. by rewrite fold_left_app. Qed.

(** Effects on other keys leave an entry alone. *)
Lemma apply_effects_lookup_ne (es : list effect) (m : gmap string string) (k : string) :
  k ∉ map effect_key es -> apply_effects es m !! k = m !! k.
Proof.
  revert m. induction es as [|e es IH]; intros m Hk; [done|].
  rewrite fmap_cons, not_elem_of_cons in Hk. destruct Hk as [Hne Hk].
  cbn [apply_effects fold_left]. rewrite (IH _ Hk).
  destruct e; cbn in *; simplify_map_eq; done.
Qed.

Lemma apply_block_lookup (b : bool) (k v : string) (m : gmap string string) :
  apply_effects (if b then [effect_save k v] else []) m !! k = if b then Some v else m !! k.
Proof. destruct b; cbn; simplify_map_eq; done. Qed.

(** The keys of the tables, pairwise distinct. *)
Ltac keys_ne :=
  match goal with
  | |- _ ∉ map effect_key (if ?b then _ else _) => destruct b
  | _ => idtac
  end;
  try match goal with |- _ ∉ map effect_key [session_effect ?c] => destruct c end;
  cbn; apply (bool_decide_unpack _); vm_compute; reflexivity.

Lemma synced_unless_synced (d : Dirty) (st : StoreState) (m : gmap string string) :
  synced st m -> synced_unless d st m.
Proof. intros (? & ? & ? & ? & ?). split_and!; auto. Qed.

Lemma apply_effects_synced (d : Dirty) (st st' : StoreState) (m : gmap string string) :
  covers d st st' -> synced_unless d st m -> synced st' (apply_effects (effects d st') m).
Proof.
  intros (Hu & Hs & Ho & Hse & Hc) (Mu & Ms & Mo & Mse & Mc).
  unfold synced, effects. rewrite !apply_effects_app.
  repeat split;
    repeat (rewrite apply_effects_lookup_ne by keys_ne);
    rewrite ?apply_block_lookup.
  - destruct (d_users d); [done|]. rewrite Mu by done. by rewrite Hu.
  - destruct (d_services d); [done|]. rewrite apply_effects_lookup_ne by keys_ne.
    rewrite Ms by done. by rewrite Hs.
  - destruct (d_orders d); [done|]. rewrite !apply_effects_lookup_ne by keys_ne.
    rewrite Mo by done. by rewrite Ho.
  - destruct (d_settings d); [done|]. rewrite !apply_effects_lookup_ne by keys_ne.
    rewrite Mse by done. by rewrite Hse.
  - destruct (d_session d).
    + unfold session_blob. destruct (currentUser st'); cbn; simplify_map_eq; done.
    + cbn -[DB_KEYS]. rewrite !apply_effects_lookup_ne by keys_ne. rewrite Mc by done.
      unfold session_blob. by rewrite Hc.
Qed.

(** ** Actions mark every field they change *)

Lemma setCurrentUser_covers (cu : option User) (st : StoreState) :
  covers (setCurrentUser cu st).2 st (setCurrentUser cu st).1.
Proof.
  unfold covers, setCurrentUser. cbn. split_and!; try done.
  intros Hd. apply bool_decide_eq_false in Hd. by apply dec_stable in Hd.
Qed.

Lemma step_mem_covers (a : Action) (st : StoreState) :
  covers (step_mem a st).2 st (step_mem a st).1.2.
Proof.
  destruct a; cbn [step_mem]; try (unfold covers; cbn; split_and!; done).
  - unfold login. destruct (List.find _ _); [|unfold covers; cbn; split_and!; done].
    apply setCurrentUser_covers.
  - unfold signup. destruct (List.find _ _); unfold covers; cbn; split_and!; done.
  - apply setCurrentUser_covers.
Qed.

(** ** The in-memory state is the specification's, whatever the storage does *)

Lemma commit_available (d : Dirty) (st : StoreState) (w : World) :
  ls_available w = true ->
  exists w', commit d st w = (w', Normal tt) /\ effects_post (effects d st) w w'.
Proof. apply run_effects_ok. Qed.

Theorem dispatch_memory (a : Action) (st : StoreState) (w : World) :
  ls_available w = true ->
  exists w', dispatch a st w = (w', Normal ((step_mem a st).1.1, (step_mem a st).1.2)).
Proof.
  intros Ha. unfold dispatch. destruct (step_mem a st) as [[r st'] d].
  destruct (commit_available d st' w Ha) as (w' & Hc & _).
  exists w'. by rewrite (st_bind_normal _ _ _ _ _ Hc).
Qed.

(** ** Without an alert, storage stays synchronised *)

Theorem dispatch_synced (a : Action) (st st' : StoreState) (r : bool) (w w' : World) :
  ls_available w = true -> wf_world w -> synced st (ls_items w) ->
  dispatch a st w = (w', Normal (r, st')) -> alerts w' = alerts w ->
  synced st' (ls_items w') /\ wf_world w' /\ ls_available w' = true.
Proof.
  intros Ha Hwf Hs Hd Hal. pose proof (step_mem_covers a st) as Hcov.
  unfold dispatch in Hd. destruct (step_mem a st) as [[r0 st0] d].
  destruct (commit_available d st0 w Ha) as (w1 & Hc & Ha1 & _ & Hwf1 & _ & Hi1).
  rewrite (st_bind_normal _ _ _ _ _ Hc) in Hd. injection Hd as <- <- <-.
  rewrite Hi1 by done. split_and!; [|by auto|done].
  cbn in Hcov. apply (apply_effects_synced d st); [done|]. by apply synced_unless_synced.
Qed.

(** ** A write past the quota *)



(** ** Initialisation *)

Lemma loadFromDB_value {T} `{Codec T} (w : World) (key : string) (d : T) :
  ls_available w = true -> loadable (T:=T) (ls_items w !! key) = true ->
  exists w', loadFromDB key d w = (w', Normal (loaded_value (ls_items w !! key) d)) /\
             load_post key w w'.
Proof.
  intros Ha Hl. unfold load_post. destruct (ls_items w !! key) as [s|] eqn:Hk.
  - rewrite (loadFromDB_stored w key d s Ha Hk). cbn [loaded_value]. cbn in Hl.
    destruct (negb _ && negb _); [destruct (json_parse s)|]; cbn; try done; eexists;
      (split; [reflexivity|]); split_and!; try done.
    + intros k Hne. cbn. by rewrite lookup_delete_ne by congruence.
    + unfold wf_world. cbn. pose proof (usage_delete key (ls_items w)). lia.
  - rewrite loadFromDB_absent by done. eexists; split; [reflexivity|]. done.
Qed.

(** [useStore]'s initial state: every field is loaded from its own entry
    alone, so a corrupted entry does not affect the other tables. *)
Theorem init_state_spec (C : Constants) (w : World) :
  ls_available w = true -> tables_loadable (ls_items w) = true ->
  exists w', init_state C w =
    (w', Normal (mkStore
                   (loaded_value (ls_items w !! USERS DB_KEYS) [seed_admin])
                   (loaded_value (ls_items w !! SERVICES DB_KEYS) (INITIAL_SERVICES C))
                   (loaded_value (ls_items w !! ORDERS DB_KEYS) (INITIAL_ORDERS C))
                   (loaded_value (ls_items w !! SETTINGS DB_KEYS) (INITIAL_SETTINGS C))
                   (loaded_value (ls_items w !! SESSION DB_KEYS) None)))
    /\ ls_available w' = true /\ alerts w' = alerts w /\ (wf_world w -> wf_world w').
Proof.
  intros Ha Hl. unfold init_state, tables_loadable in *.
  apply andb_prop in Hl as [Hl L5]. apply andb_prop in Hl as [Hl L4].
  apply andb_prop in Hl as [Hl L3]. apply andb_prop in Hl as [L1 L2].
  destruct (loadFromDB_value w (USERS DB_KEYS) [seed_admin] Ha L1)
    as (w1 & E1 & Ha1 & _ & Al1 & I1 & Wf1).
  rewrite (st_bind_normal _ _ _ _ _ E1).
  destruct (loadFromDB_value w1 (SERVICES DB_KEYS) (INITIAL_SERVICES C) Ha1)
    as (w2 & E2 & Ha2 & _ & Al2 & I2 & Wf2); [by rewrite I1|].
  rewrite (st_bind_normal _ _ _ _ _ E2).
  destruct (loadFromDB_value w2 (ORDERS DB_KEYS) (INITIAL_ORDERS C) Ha2)
    as (w3 & E3 & Ha3 & _ & Al3 & I3 & Wf3); [by rewrite I2, I1|].
  rewrite (st_bind_normal _ _ _ _ _ E3).
  destruct (loadFromDB_value w3 (SETTINGS DB_KEYS) (INITIAL_SETTINGS C) Ha3)
    as (w4 & E4 & Ha4 & _ & Al4 & I4 & Wf4); [by rewrite I3, I2, I1|].
  rewrite (st_bind_normal _ _ _ _ _ E4).
  destruct (loadFromDB_value w4 (SESSION DB_KEYS) (@None User) Ha4)
    as (w5 & E5 & Ha5 & _ & Al5 & I5 & Wf5); [by rewrite I4, I3, I2, I1|].
  rewrite (st_bind_normal _ _ _ _ _ E5).
  exists w5. split_and!; [|done|congruence|tauto].
  rewrite I4, !I3, !I2, !I1 by (cbn; congruence).
  reflexivity.
Qed.

(** ** Reload *)

Lemma run_effect_same (e : effect) (w : World) :
  ls_available w = true -> wf_world w -> apply_effect e (ls_items w) = ls_items w ->
  run_effect e w = (w, Normal tt).
Proof.
  intros Ha Hwf Hfix. destruct e as [k b|k]; cbn [apply_effect run_effect] in *.
  - assert (ls_items w !! k = Some b) as Hk by (rewrite <- Hfix; apply lookup_insert_eq).
    unfold st_try. by rewrite setItem_same.
  - rewrite removeItem_available, Hfix by done. by rewrite set_items_same.
Qed.

(** [setCurrentUser] skips the session effect when the new user equals the
    signed-in one by content, where React compares references
    ([Object.is]): signing in again as the user loaded from storage (another
    object) re-runs the effect in React and not in the model.  On
    synchronised storage that effect writes back the text already stored,
    so the browser is the same either way. *)
Lemma session_rerun_same (st : StoreState) (u : User) (w : World) :
  ls_available w = true -> wf_world w -> synced st (ls_items w) -> currentUser st = Some u ->
  run_effect (session_effect (Some u)) w = (w, Normal tt).
Proof.
  intros Ha Hwf (_ & _ & _ & _ & Hs) Hu. apply run_effect_same; [done|done|].
  cbn [session_effect apply_effect]. apply insert_id. rewrite Hs. unfold session_blob. by rewrite Hu.
Qed.

Lemma run_effects_same (es : list effect) (w : World) :
  ls_available w = true -> wf_world w ->
  Forall (fun e => apply_effect e (ls_items w) = ls_items w) es ->
  run_effects es w = (w, Normal tt).
Proof.
  intros Ha Hwf. induction 1 as [|e es He Hes IH]; [done|].
  cbn [run_effects]. by rewrite (st_bind_normal _ _ _ _ _ (run_effect_same e w Ha Hwf He)).
Qed.

(** The session codec reads back the user the session effect writes. *)
Lemma encode_session (u : User) : encode (Some u) = encode u.
Proof. reflexivity. Qed.

Lemma synced_effects_fixed (st : StoreState) (m : gmap string string) :
  synced st m -> Forall (fun e => apply_effect e m = m) (effects all_dirty st).
Proof.
  intros (Mu & Ms & Mo & Mse & Mc). unfold effects, session_blob in *. cbn.
  repeat constructor; cbn; rewrite ?insert_id by done; try done.
  destruct (currentUser st); cbn in *; [by rewrite insert_id | by rewrite delete_id].
Qed.

(** Reloading the page from a synchronised storage gives back the saved
    state and writes nothing new. *)
Theorem reload (C : Constants) (st : StoreState) (w : World) :
  ls_available w = true -> wf_world w -> synced st (ls_items w) ->
  useStore C w = (w, Normal st).
Proof.
  intros Ha Hwf Hs. pose proof Hs as (Mu & Ms & Mo & Mse & Mc).
  unfold useStore, init_state.
  rewrite st_bind_assoc, (st_bind_normal _ _ _ _ _ (loadFromDB_encoded _ _ _ _ Ha Mu)).
  rewrite st_bind_assoc, (st_bind_normal _ _ _ _ _ (loadFromDB_encoded _ _ _ _ Ha Ms)).
  rewrite st_bind_assoc, (st_bind_normal _ _ _ _ _ (loadFromDB_encoded _ _ _ _ Ha Mo)).
  rewrite st_bind_assoc, (st_bind_normal _ _ _ _ _ (loadFromDB_encoded _ _ _ _ Ha Mse)).
  unfold session_blob in Mc. destruct (currentUser st) as [u|] eqn:Ecu.
  { change (ls_items w !! SESSION DB_KEYS = Some (encode (Some u))) in Mc.
    rewrite st_bind_assoc, (st_bind_normal _ _ _ _ _ (loadFromDB_encoded _ _ _ _ Ha Mc)).
    rewrite st_bind_ret_l.
    replace (mkStore (users st) (services st) (orders st) (settings st) (Some u)) with st
      by (destruct st; cbn in *; congruence).
    unfold commit.
    by rewrite (st_bind_normal _ _ _ _ _
                  (run_effects_same _ w Ha Hwf (synced_effects_fixed st _ Hs))). }
  rewrite st_bind_assoc, (st_bind_normal _ _ _ _ _ (loadFromDB_absent _ _ _ Ha Mc)).
  rewrite st_bind_ret_l.
  replace (mkStore (users st) (services st) (orders st) (settings st) None) with st
    by (destruct st; cbn in *; congruence).
  unfold commit.
  by rewrite (st_bind_normal _ _ _ _ _
                (run_effects_same _ w Ha Hwf (synced_effects_fixed st _ Hs))).
Qed.

(** Reloading after any action that raised no alert gives back the state
    the action produced. *)
Corollary reload_after_dispatch (C : Constants) (a : Action) (st st' : StoreState) (r : bool)
  (w w' : World) :
  ls_available w = true -> wf_world w -> synced st (ls_items w) ->
  dispatch a st w = (w', Normal (r, st')) -> alerts w' = alerts w ->
  useStore C w' = (w', Normal st').
Proof.
  intros Ha Hwf Hs Hd Hal.
  destruct (dispatch_synced a st st' r w w' Ha Hwf Hs Hd Hal) as (Hs' & Hwf' & Ha').
  by apply reload.
Qed.

(** ** The store on mount *)

Lemma all_dirty_covers (st st' : StoreState) : covers all_dirty st st'.
Proof. unfold covers. cbn. split_and!; done. Qed.

Lemma all_dirty_synced_unless (st : StoreState) (m : gmap string string) :
  synced_unless all_dirty st m.
Proof. unfold synced_unless. cbn. split_and!; done. Qed.

Lemma useStore_spec (C : Constants) (w : World) :
  ls_available w = true -> tables_loadable (ls_items w) = true ->
  exists w' st, useStore C w = (w', Normal st) /\
    ls_available w' = true /\ (wf_world w -> wf_world w') /\ alerts w `prefix_of` alerts w' /\
    (alerts w' = alerts w -> synced st (ls_items w')).
Proof.
  intros Ha Hl. destruct (init_state_spec C w Ha Hl) as (w1 & Hi & Ha1 & Al1 & Wf1).
  unfold useStore. rewrite (st_bind_normal _ _ _ _ _ Hi).
  match goal with |- context [commit all_dirty ?st] => set (st0 := st) end.
  destruct (commit_available all_dirty st0 w1 Ha1) as (w2 & Hc & Ha2 & _ & Wf2 & Hp2 & Hi2).
  exists w2, st0. rewrite (st_bind_normal _ _ _ _ _ Hc). split_and!; [done|done|tauto|congruence|].
  intros Hal. rewrite Hi2 by congruence.
  apply (apply_effects_synced all_dirty st0); [apply all_dirty_covers|apply all_dirty_synced_unless].
Qed.

(** C7: Mounting never throws while storage is available and every table
    entry is one the typed model loads, and unless an alert was raised,
    storage then holds the state the store started with. *)
Theorem useStore_synced (C : Constants) (w : World) :
  ls_available w = true -> tables_loadable (ls_items w) = true ->
  exists w' st, useStore C w = (w', Normal st) /\
    ls_available w' = true /\ (wf_world w -> wf_world w') /\
    (alerts w' = alerts w -> synced st (ls_items w')).
Proof.
  intros Ha Hl. destruct (useStore_spec C w Ha Hl) as (w' & st & ? & ? & ? & _ & ?).
  exists w', st. done.
Qed.

(** On an empty storage the store starts from the defaults: the seeded
    administrator, the seed catalogue and settings, and no session. *)
Theorem useStore_fresh (C : Constants) (w : World) :
  ls_available w = true -> ls_items w = ∅ ->
  exists w', useStore C w = (w', Normal (default_state C)).
Proof.
  intros Ha He. destruct (init_state_spec C w Ha) as (w1 & Hi & Ha1 & _ & _); [by rewrite He|].
  rewrite He in Hi. cbn in Hi.
  destruct (commit_available all_dirty (default_state C) w1 Ha1) as (w2 & Hc & _).
  exists w2. unfold useStore. rewrite (st_bind_normal _ _ _ _ _ Hi).
  fold (default_state C). by rewrite (st_bind_normal _ _ _ _ _ Hc).
Qed.



(** ** Logout *)

(** What [logout] does to the browser: the session entry is removed when
    somebody was signed in, and nothing is written otherwise. *)
Lemma dispatch_logout (st : StoreState) (w : World) :
  ls_available w = true ->
  dispatch ALogout st w =
    (if bool_decide (currentUser st <> None)
     then set_items w (delete (SESSION DB_KEYS) (ls_items w)) else w,
     Normal (true, mkStore (users st) (services st) (orders st) (settings st) None)).
Proof.
  intros Ha. unfold dispatch, commit. cbn [step_mem logout setCurrentUser].
  destruct (currentUser st) eqn:E;
    [rewrite !bool_decide_true by congruence|rewrite !bool_decide_false by congruence];
    cbn; st_unfold; [rewrite removeItem_available by done|]; reflexivity.
Qed.

(** C8: After [logout], the session entry is gone and a reload starts
    anonymous. *)
Theorem logout_reload (C : Constants) (st st' : StoreState) (r : bool) (w w' : World) :
  ls_available w = true -> wf_world w -> synced st (ls_items w) ->
  dispatch ALogout st w = (w', Normal (r, st')) ->
  ls_items w' !! SESSION DB_KEYS = None /\ useStore C w' = (w', Normal st') /\
  isAuthenticated st' = false.
Proof.
  intros Ha Hwf Hs Hd.
  pose proof Hd as Hd'. rewrite dispatch_logout in Hd' by done.
  assert (alerts w' = alerts w /\ currentUser st' = None) as [Hal Hcu].
  { by destruct (bool_decide _); injection Hd' as <- <- <-. }
  destruct (dispatch_synced ALogout st st' r w w' Ha Hwf Hs Hd Hal) as (Hs' & Hwf' & Ha').
  split_and!.
  - destruct Hs' as (_ & _ & _ & _ & ->). by unfold session_blob; rewrite Hcu.
  - by apply reload.
  - by unfold isAuthenticated; rewrite Hcu.
Qed.

(** ** Sequences of actions *)

(** A dispatch that returns normally returns the memory update. *)
Lemma dispatch_normal_mem (a : Action) (st st' : StoreState) (r : bool) (w w' : World) :
  dispatch a st w = (w', Normal (r, st')) -> (r, st') = (step_mem a st).1.
Proof.
  unfold dispatch. destruct (step_mem a st) as [[r0 st0] d].
  intros (w1 & u & _ & Hr)%st_bind_normal_inv. cbn in *. by injection Hr as _ <- <-.
Qed.

Lemma dispatch_post (a : Action) (st st' : StoreState) (r : bool) (w w' : World) :
  ls_available w = true -> dispatch a st w = (w', Normal (r, st')) ->
  alerts w `prefix_of` alerts w' /\ ls_available w' = true /\ (wf_world w -> wf_world w').
Proof.
  intros Ha Hd. unfold dispatch in Hd. destruct (step_mem a st) as [[r0 st0] d].
  destruct (commit_available d st0 w Ha) as (w1 & Hc & Ha1 & _ & Hwf1 & Hp & _).
  rewrite (st_bind_normal _ _ _ _ _ Hc) in Hd. by injection Hd as <- _ _.
Qed.

Lemma dispatch_all_post (acts : list Action) (st st' : StoreState) (w w' : World) :
  ls_available w = true -> dispatch_all acts st w = (w', Normal st') ->
  alerts w `prefix_of` alerts w' /\ ls_available w' = true /\ (wf_world w -> wf_world w').
Proof.
  revert st w. induction acts as [|a acts IH]; intros st w Ha Hd; cbn in Hd.
  - injection Hd as <- _. done.
  - destruct (dispatch_memory a st w Ha) as [w1 Hd1].
    rewrite (st_bind_normal _ _ _ _ _ Hd1) in Hd.
    destruct (dispatch_post _ _ _ _ _ _ Ha Hd1) as (Hp1 & Ha1 & Hw1).
    destruct (IH _ _ Ha1 Hd) as (Hp2 & Ha2 & Hw2). split_and!; [by etrans|done|auto].
Qed.

Lemma prefix_of_antisym {A} (l1 l2 : list A) : l1 `prefix_of` l2 -> l2 `prefix_of` l1 -> l1 = l2.
Proof. intros [k1 ->] [k2 Hk]. destruct k1; [by rewrite app_nil_r|]. 
  apply (f_equal length) in Hk. rewrite !length_app in Hk. cbn in Hk. lia. Qed.

(** Alert-free store calls from a synchronised state keep it synchronised. *)
Lemma dispatch_all_synced (acts : list Action) (st st' : StoreState) (w w' : World) :
  ls_available w = true -> wf_world w -> synced st (ls_items w) ->
  dispatch_all acts st w = (w', Normal st') -> alerts w' = alerts w ->
  synced st' (ls_items w') /\ wf_world w' /\ ls_available w' = true.
Proof.
  revert st w. induction acts as [|a acts IH]; intros st w Ha Hwf Hs Hd Hal;
    cbn in Hd.
  - by injection Hd as <- <-.
  - destruct (dispatch_memory a st w Ha) as [w1 Hd1].
    rewrite (st_bind_normal _ _ _ _ _ Hd1) in Hd.
    destruct (dispatch_post _ _ _ _ _ _ Ha Hd1) as (Hp1 & Ha1 & _).
    destruct (dispatch_all_post _ _ _ _ _ Ha1 Hd) as (Hp2 & _ & _).
    assert (alerts w1 = alerts w) as Hal1.
    { apply prefix_of_antisym; [|done]. rewrite <- Hal. done. }
    destruct (dispatch_synced _ _ _ _ _ _ Ha Hwf Hs Hd1 Hal1) as (Hs1 & Hwf1 & _).
    apply (IH _ w1 Ha1 Hwf1 Hs1 Hd). congruence.
Qed.

(** C1: The persistence contract over a whole session: after any sequence of
    actions that raised no alert, storage is synchronised with memory, so
    a reload gives back exactly the in-memory state. *)
Theorem reload_after_actions (C : Constants) (acts : list Action) (st st' : StoreState)
    (w w' : World) :
  ls_available w = true -> wf_world w -> synced st (ls_items w) ->
  dispatch_all acts st w = (w', Normal st') -> alerts w' = alerts w ->
  synced st' (ls_items w') /\ useStore C w' = (w', Normal st').
Proof.
  intros Ha Hwf Hs Hd Hal.
  destruct (dispatch_all_synced acts st st' w w' Ha Hwf Hs Hd Hal) as (? & ? & ?).
  split; [done|by apply reload].
Qed.


