(* ===== verification/Session.v ===== *)
(** * Accounts and the session: [login], [signup], [logout]

    [store.ts] keeps the accounts as a list and the session as the current
    user object.  This file states what the three session operations do on
    every branch, models the store's life cycle as a step relation with its
    invariants (unique emails, the session user is a registered user), and
    proves that, on states with unique emails, the list-based code refines
    an abstract registry: a [gmap] from email to account, with the session
    as an email. *)

From S2P Require Import Prelude Json Types Storage Store Persistence.

(** ** Searching the accounts *)

Definition email_is (e : string) (u : User) : bool := String.eqb (user_email u) e.
Definition credentials_are (e p : string) (u : User) : bool :=
  String.eqb (user_email u) e && String.eqb (user_password u) p.

(** One action that changes the in-memory state.  A failed login or signup
    leaves the state as it was, so it is no step. *)
Inductive store_step : StoreState -> StoreState -> Prop :=
| step_setServices l st : store_step st (setServices l st).1
| step_setOrders l st : store_step st (setOrders l st).1
| step_setSettings s st : store_step st (setSettings s st).1
| step_login e p st u :
    List.find (credentials_are e p) (users st) = Some u ->
    store_step st (mkStore (users st) (services st) (orders st) (settings st) (Some u))
| step_signup n e p now st :
    Forall (fun u => user_email u <> e) (users st) ->
    store_step st (mkStore (users st ++ [mkUser (string_of_Z now) n e p visitor])
                           (services st) (orders st) (settings st)
                           (Some (mkUser (string_of_Z now) n e p visitor)))
| step_logout st : store_step st (logout st).1.

Definition reachable (st0 st : StoreState) : Prop := rtc store_step st0 st.

(** The in-memory state after a sequence of actions. *)
Definition run_mem (acts : list Action) (st : StoreState) : StoreState :=
  fold_left (fun st a => (step_mem a st).1.2) acts st.

Definition unique_emails (st : StoreState) : Prop := NoDup (user_email <$> users st).
Definition session_registered (st : StoreState) : Prop :=
  forall u, currentUser st = Some u -> u ∈ users st.
Definition session_inv (st : StoreState) : Prop := unique_emails st /\ session_registered st.

(** The abstract registry: accounts by email, and the session as the
    logged-in email. *)
Record Registry := mkRegistry { accounts : gmap string User; session_email : option string }.

Definition abs_login (e p : string) (a : Registry) : bool * Registry :=
  match accounts a !! e with
  | Some u => if String.eqb (user_password u) p then (true, mkRegistry (accounts a) (Some e))
              else (false, a)
  | None => (false, a)
  end.

Definition abs_signup (n e p : string) (now : Z) (a : Registry) : bool * Registry :=
  match accounts a !! e with
  | Some _ => (false, a)
  | None => (true, mkRegistry (<[e := mkUser (string_of_Z now) n e p visitor]> (accounts a)) (Some e))
  end.

Definition abs_logout (a : Registry) : Registry := mkRegistry (accounts a) None.

(** An email no account has: longer than every registered one. *)
Definition fresh_email (us : list User) : string :=
  "@" +:+ foldr (fun u acc => user_email u +:+ acc) "" us.

Definition registry_of (us : list User) : gmap string User :=
  list_to_map ((fun u => (user_email u, u)) <$> us).

(** The abstraction of a store state. *)
Definition abs_of (st : StoreState) : Registry :=
  mkRegistry (registry_of (users st)) (user_email <$> currentUser st).

Lemma find_email_none (e : string) (us : list User) :
  List.find (email_is e) us = None <-> Forall (fun u => user_email u <> e) us.
Proof.
  rewrite find_none_forall. apply Forall_iff. intros u. unfold email_is.
  by rewrite String.eqb_neq.
Qed.

Lemma find_credentials_some (e p : string) (us : list User) (u : User) :
  List.find (credentials_are e p) us = Some u ->
  u ∈ us /\ user_email u = e /\ user_password u = p.
Proof.
  intros H. apply find_some_in in H as [Hin Hp]. unfold credentials_are in Hp.
  apply andb_prop in Hp as [H1 H2]. apply String.eqb_eq in H1, H2. done.
Qed.

Lemma find_credentials_none (e p : string) (us : list User) (u : User) :
  List.find (credentials_are e p) us = None -> u ∈ us -> user_email u = e ->
  user_password u <> p.
Proof.
  intros H Hin He Hp. apply find_none_forall in H. rewrite Forall_forall in H.
  specialize (H u Hin).
  unfold credentials_are in H. rewrite He, Hp, !String.eqb_refl in H. done.
Qed.

(** ** What the operations do *)

Section Operations.
Implicit Types (st : StoreState) (e p n : string).

Lemma login_found st e p u :
  List.find (credentials_are e p) (users st) = Some u ->
  login e p st = (true, mkStore (users st) (services st) (orders st) (settings st) (Some u),
                  mkDirty false false false false (bool_decide (currentUser st <> Some u))).
Proof. intros H. unfold login. fold (credentials_are e p). by rewrite H. Qed.

Lemma login_not_found st e p :
  List.find (credentials_are e p) (users st) = None -> login e p st = (false, st, clean).
Proof. intros H. unfold login. fold (credentials_are e p). by rewrite H. Qed.

Lemma signup_taken st n e p now u :
  u ∈ users st -> user_email u = e -> signup n e p now st = (false, st, clean).
Proof.
  intros Hin He. unfold signup. fold (email_is e).
  destruct (List.find (email_is e) (users st)) eqn:Hf; [done|].
  apply find_email_none in Hf. rewrite Forall_forall in Hf.
  by destruct (Hf u Hin).
Qed.

Lemma signup_fresh st n e p now :
  Forall (fun u => user_email u <> e) (users st) ->
  signup n e p now st =
    (true, mkStore (users st ++ [mkUser (string_of_Z now) n e p visitor])
                   (services st) (orders st) (settings st)
                   (Some (mkUser (string_of_Z now) n e p visitor)),
     mkDirty true false false false true).
Proof. intros H. unfold signup. fold (email_is e). by rewrite (proj2 (find_email_none e _) H). Qed.

(** A sign-up adds at most the new account. *)
Lemma signup_users st n e p now :
  users (signup n e p now st).1.2 = users st \/
  users (signup n e p now st).1.2 = users st ++ [mkUser (string_of_Z now) n e p visitor].
Proof. unfold signup. destruct (List.find _ _); [left|right]; reflexivity. Qed.
End Operations.

(** An action that changes nothing writes nothing. *)
Lemma dispatch_clean (a : Action) (st : StoreState) (w : World) :
  (step_mem a st).2 = clean ->
  dispatch a st w = (w, Normal ((step_mem a st).1.1, (step_mem a st).1.2)).
Proof. unfold dispatch. destruct (step_mem a st) as [[r st'] d]. cbn. by intros ->. Qed.

(** ** The store's life cycle as a step relation *)

(** Every action either takes a step or leaves the state unchanged. *)
Lemma step_mem_step (a : Action) (st : StoreState) :
  store_step st (step_mem a st).1.2 \/ (step_mem a st).1.2 = st.
Proof.
  destruct a as [l|l|s|e p|n e p now|]; cbn [step_mem]; try (left; constructor).
  - destruct (List.find (credentials_are e p) (users st)) as [u|] eqn:Hf.
    + left. rewrite (login_found _ _ _ _ Hf). cbn [fst snd]. by apply (step_login e p).
    + right. by rewrite (login_not_found _ _ _ Hf).
  - destruct (List.find (email_is e) (users st)) as [u|] eqn:Hf.
    + right. apply find_some_in in Hf as [Hin He]. unfold email_is in He.
      apply String.eqb_eq in He. by rewrite (signup_taken _ n e p now u Hin He).
    + left. apply find_email_none in Hf. rewrite (signup_fresh _ _ _ _ _ Hf). cbn [fst snd].
      by apply step_signup.
Qed.

(** ** Invariants *)

Lemma store_step_inv (st st' : StoreState) :
  store_step st st' -> session_inv st -> session_inv st'.
Proof.
  unfold session_inv, unique_emails, session_registered.
  intros [] [Hu Hs]; cbn; split; try done.
  - intros u' [= <-]. by apply find_credentials_some in H as [? _].
  - rewrite fmap_app. apply NoDup_app. split_and!; [done| |by apply NoDup_singleton].
    intros x Hx ->%list_elem_of_singleton.
    apply list_elem_of_fmap in Hx as (u & Heq & Hin).
    rewrite Forall_forall in H. by apply (H u).
  - intros u' [= <-]. apply elem_of_app. right. by apply list_elem_of_singleton.
Qed.

(** Every state reachable from one with unique emails and a registered
    session user has both properties. *)
Theorem reachable_inv (st0 st : StoreState) :
  session_inv st0 -> reachable st0 st -> session_inv st.
Proof. intros H0 Hr. induction Hr as [|x y z Hxy _ IH]; [done|]. eauto using store_step_inv. Qed.

(** C12: Whatever actions the pages dispatch, starting from a state with
    unique emails whose session user is registered, the in-memory store keeps
    both properties. *)
Theorem actions_preserve_inv (acts : list Action) (st : StoreState) :
  session_inv st -> session_inv (run_mem acts st).
Proof.
  revert st. induction acts as [|a acts IH]; intros st H; [done|]. apply IH.
  destruct (step_mem_step a st) as [Hs| ->]; [by eapply store_step_inv|done].
Qed.

(** The store's defaults satisfy the invariant. *)
Lemma default_inv (C : Constants) :
  session_inv (mkStore [seed_admin] (INITIAL_SERVICES C) (INITIAL_ORDERS C)
                       (INITIAL_SETTINGS C) None).
Proof. split; [apply NoDup_singleton | done]. Qed.

(** ** The derived values *)

Lemma isAdmin_isAuthenticated (st : StoreState) :
  isAdmin st = true -> isAuthenticated st = true.
Proof.
  unfold isAdmin, isAuthenticated. destruct (currentUser st); [|done].
  intros _. by apply bool_decide_eq_true.
Qed.

(** ** The abstract registry

    What the session operations promise, stated on a [gmap] from email to
    account, with the session as the logged-in email. *)

Lemma registry_keys (us : list User) :
  ((fun u => (user_email u, u)) <$> us).*1 = user_email <$> us.
Proof. rewrite <- list_fmap_compose. done. Qed.

Lemma registry_lookup (us : list User) (e : string) (u : User) :
  NoDup (user_email <$> us) ->
  registry_of us !! e = Some u <-> u ∈ us /\ user_email u = e.
Proof.
  intros Hnd. unfold registry_of. rewrite <- elem_of_list_to_map by by rewrite registry_keys.
  rewrite list_elem_of_fmap. split.
  - intros (u' & [= -> ->] & Hin). done.
  - intros [Hin <-]. by exists u.
Qed.

Lemma registry_lookup_none (us : list User) (e : string) :
  registry_of us !! e = None <-> Forall (fun u => user_email u <> e) us.
Proof.
  unfold registry_of. rewrite <- not_elem_of_list_to_map, registry_keys, Forall_forall.
  rewrite list_elem_of_fmap. naive_solver.
Qed.

(** With unique emails, the search for matching credentials is a lookup by
    email followed by a password check. *)
Lemma find_credentials_registry (us : list User) (e p : string) :
  NoDup (user_email <$> us) ->
  List.find (credentials_are e p) us =
    match registry_of us !! e with
    | Some u => if String.eqb (user_password u) p then Some u else None
    | None => None
    end.
Proof.
  intros Hnd. destruct (registry_of us !! e) as [u|] eqn:Hr.
  - pose proof Hr as Hr'. apply (registry_lookup _ _ _ Hnd) in Hr' as [Hin He].
    destruct (List.find (credentials_are e p) us) as [u'|] eqn:Hf.
    + apply find_credentials_some in Hf as (Hin' & He' & Hp').
      assert (registry_of us !! e = Some u') as Hr2 by (by apply registry_lookup).
      rewrite Hr2 in Hr. injection Hr as ->.
      by rewrite Hp', String.eqb_refl.
    + pose proof (find_credentials_none e p us u Hf Hin He) as Hp.
      by rewrite (proj2 (String.eqb_neq _ _) Hp).
  - apply registry_lookup_none in Hr.
    destruct (List.find (credentials_are e p) us) as [u'|] eqn:Hf; [|done].
    apply find_credentials_some in Hf as (Hin' & He' & _).
    rewrite Forall_forall in Hr. by destruct (Hr u' Hin').
Qed.

(** C9: On a store with unique emails, [login] implements the registry's
    login: same result, same accounts, same session. *)
Theorem login_refines (e p : string) (st : StoreState) :
  unique_emails st ->
  ((login e p st).1.1, abs_of (login e p st).1.2) = abs_login e p (abs_of st).
Proof.
  intros Hnd. unfold abs_login, abs_of. cbn [accounts].
  pose proof (find_credentials_registry (users st) e p Hnd) as Hf.
  destruct (registry_of (users st) !! e) as [u|] eqn:Hr.
  - destruct (String.eqb (user_password u) p) eqn:Hp.
    + rewrite (login_found _ _ _ u Hf). cbn.
      apply (registry_lookup _ _ _ Hnd) in Hr as [_ <-]. done.
    + by rewrite (login_not_found _ _ _ Hf).
  - by rewrite (login_not_found _ _ _ Hf).
Qed.

(** C10: On a store with unique emails, [signup] implements the registry's
    sign-up: a fresh email adds the account and opens its session, a taken
    one changes nothing. *)
Theorem signup_refines (n e p : string) (now : Z) (st : StoreState) :
  unique_emails st ->
  ((signup n e p now st).1.1, abs_of (signup n e p now st).1.2) =
  abs_signup n e p now (abs_of st).
Proof.
  intros Hnd. unfold abs_signup, abs_of. cbn [accounts].
  destruct (registry_of (users st) !! e) as [u|] eqn:Hr.
  - apply (registry_lookup _ _ _ Hnd) in Hr as [Hin He].
    by rewrite (signup_taken _ n e p now u Hin He).
  - apply registry_lookup_none in Hr as Hfresh.
    rewrite (signup_fresh _ _ _ _ _ Hfresh). cbn. do 2 f_equal.
    unfold registry_of. rewrite fmap_app. cbn.
    apply list_to_map_snoc. rewrite registry_keys.
    rewrite list_elem_of_fmap. intros (u & -> & Hin).
    rewrite Forall_forall in Hfresh. by apply (Hfresh u).
Qed.

Theorem logout_refines (st : StoreState) :
  abs_of (logout st).1 = abs_logout (abs_of st).
Proof. reflexivity. Qed.

(** ** Progress *)

Lemma fresh_email_longer (us : list User) (u : User) :
  u ∈ us -> String.length (user_email u) < String.length (fresh_email us).
Proof.
  unfold fresh_email. rewrite string_length_app. cbn [String.length]. induction us as [|v us IH]; [by intros ?%not_elem_of_nil|].
  cbn [foldr]. rewrite string_length_app. intros [->|Hin]%elem_of_cons; [lia|].
  specialize (IH Hin). lia.
Qed.

Lemma fresh_email_fresh (us : list User) : Forall (fun u => user_email u <> fresh_email us) us.
Proof.
  apply Forall_forall. intros u Hin He. pose proof (fresh_email_longer us u Hin) as Hl.
  rewrite He in Hl. lia.
Qed.

(** C15: Signing in is always possible: from every state of the store, with
    storage available, a sign-up with an email longer than every
    registered one ([fresh_email]) succeeds and opens a session; after a
    logout, logging in with that email and password succeeds and opens the
    same account's session again. *)
Theorem session_always_reachable (st : StoreState) (n p : string) (now : Z) (w : World) :
  ls_available w = true ->
  exists w1 st1,
    dispatch (ASignup n (fresh_email (users st)) p now) st w = (w1, Normal (true, st1)) /\
    isAuthenticated st1 = true /\
    forall w2, ls_available w2 = true ->
      exists w3 st3,
        dispatch (ALogin (fresh_email (users st)) p) (logout st1).1 w2 = (w3, Normal (true, st3)) /\
        currentUser st3 = currentUser st1.
Proof.
  intros Ha. set (e := fresh_email (users st)).
  pose proof (fresh_email_fresh (users st)) as Hf.
  destruct (dispatch_memory (ASignup n e p now) st w Ha) as [w1 Hd].
  cbn [step_mem] in Hd. rewrite (signup_fresh _ _ _ _ _ Hf) in Hd. cbn in Hd.
  do 2 eexists. split; [exact Hd|]. split; [done|].
  intros w2 Ha2.
  match goal with |- context [dispatch (ALogin e p) ?s w2] =>
    destruct (dispatch_memory (ALogin e p) s w2 Ha2) as [w3 Hd3] end.
  cbn [step_mem] in Hd3. rewrite (login_found _ _ _ (mkUser (string_of_Z now) n e p visitor)) in Hd3.
  - do 2 eexists. split; [exact Hd3|done].
  - cbn. rewrite find_app_none; [cbn; unfold credentials_are; cbn; by rewrite !String.eqb_refl|].
    apply find_none_forall. eapply Forall_impl; [exact Hf|]. intros u Hu.
    unfold credentials_are. apply andb_false_intro1, String.eqb_neq. exact Hu.
Qed.

