(* ===== verification/Admin.v ===== *)
(** * The gig editor of the admin console: [src/pages/AdminDashboard.tsx]

    [ServicesManagement], the panel that lists the gigs and edits them in a
    modal, with [isVideoMedia], the media-type test of its previews.  The
    modal's state ([isModalOpen], [editingId], [activeTab],
    [isPublishing], [formData]) is changed by [handleOpenModal],
    [handleFileUpload], [removeMedia], [updateFeature], [addFeature], the
    field inputs and the gallery's Delete buttons, and written to the store
    by [handleSaveService] through [store.setServices], an [async] handler
    split at its 800 ms timer.  The modal's rendering is modelled as a view
    of that state.  The theorems: the form carries the id of the service it
    edits; a save keeps ids fresh and publishes; the Draft toggle is
    overridden by the only save button; uploads and deletions act on the
    array the code names; a save in flight is not interrupted. *)

From S2P Require Import Prelude Json Types Storage Store JsString Persistence.

(** ** Media previews *)

Definition isVideoMedia (url : string) : bool :=
  startsWith url "data:video" ||
  endsWith (toLowerCase url) ".mp4" ||
  endsWith (toLowerCase url) ".webm" ||
  endsWith (toLowerCase url) ".mov".

(** ** [ServicesManagement] *)

Module ServicesManagement.

Inductive Tab := overview | pricing | media.
Inductive MediaField := f_images | f_videos | f_pdfs.

#[global] Instance Tab_eq_dec : EqDecision Tab.
Proof. solve_decision. Defined.
#[global] Instance MediaField_eq_dec : EqDecision MediaField.
Proof. solve_decision. Defined.

(** [formData : Partial<Service>].  Every editable field is always
    present (the initial value and [{...service, ...}] both set it); the
    [id], [impressions] and [clicks] keys are present only when the form
    was opened on an existing service, which [fd_carried] records. *)
Record FormData := mkForm {
  fd_title : string;
  fd_description : string;
  fd_price : Z;
  fd_category : string;
  fd_deliveryDays : Z;
  fd_revisions : Z;
  fd_images : list string;
  fd_videos : list string;
  fd_pdfs : list string;
  fd_features : list string;
  fd_status : ServiceStatus;
  fd_carried : option (string * Z * Z) }.

Record Modal := mkModal {
  isModalOpen : bool;
  editingId : option string;
  activeTab : Tab;
  isPublishing : bool;
  formData : FormData }.

Definition initial_form : FormData :=
  mkForm "" "" 0 "Video Editing" 1 1 [] [] [] [""] published None.

Definition initial_modal : Modal := mkModal false None overview false initial_form.

Definition form_of_service (s : Service) : FormData :=
  mkForm (title s) (description s) (price s) (category s) (deliveryDays s)
    (revisions s) (images s) (videos s) (pdfs s)
    (if bool_decide (0 < length (features s)) then features s else [""])
    (service_status s) (Some (service_id s, impressions s, clicks s)).

Definition handleOpenModal (service : option Service) (m : Modal) : Modal :=
  match service with
  | Some s => mkModal true (Some (service_id s)) overview (isPublishing m) (form_of_service s)
  | None => mkModal true None overview (isPublishing m) initial_form
  end.

Definition set_media (fld : MediaField) (l : list string) (f : FormData) : FormData :=
  match fld with
  | f_images => mkForm (fd_title f) (fd_description f) (fd_price f) (fd_category f)
      (fd_deliveryDays f) (fd_revisions f) l (fd_videos f) (fd_pdfs f)
      (fd_features f) (fd_status f) (fd_carried f)
  | f_videos => mkForm (fd_title f) (fd_description f) (fd_price f) (fd_category f)
      (fd_deliveryDays f) (fd_revisions f) (fd_images f) l (fd_pdfs f)
      (fd_features f) (fd_status f) (fd_carried f)
  | f_pdfs => mkForm (fd_title f) (fd_description f) (fd_price f) (fd_category f)
      (fd_deliveryDays f) (fd_revisions f) (fd_images f) (fd_videos f) l
      (fd_features f) (fd_status f) (fd_carried f)
  end.

Definition get_media (fld : MediaField) (f : FormData) : list string :=
  match fld with f_images => fd_images f | f_videos => fd_videos f | f_pdfs => fd_pdfs f end.

Definition set_features (l : list string) (f : FormData) : FormData :=
  mkForm (fd_title f) (fd_description f) (fd_price f) (fd_category f)
    (fd_deliveryDays f) (fd_revisions f) (fd_images f) (fd_videos f) (fd_pdfs f)
    l (fd_status f) (fd_carried f).

Definition set_form (f : FormData) (m : Modal) : Modal :=
  mkModal (isModalOpen m) (editingId m) (activeTab m) (isPublishing m) f.

(** The field a loaded file goes to: PDFs stay PDFs, other uploads are
    routed by the data-URL prefix. *)
Definition actualField (field : MediaField) (base64 : string) : MediaField :=
  match field with
  | f_pdfs => f_pdfs
  | _ => if startsWith base64 "data:video" then f_videos else f_images
  end.

(** One [reader.onloadend]: the functional update of [setFormData]. *)
Definition onloadend (field : MediaField) (f : FormData) (base64 : string) : FormData :=
  let fld := actualField field base64 in
  set_media fld (get_media fld f ++ [base64]) f.

(** [handleFileUpload]: [files] is [None] when the input has no file
    list; the data URLs are given in the order the readers finish. *)
Definition handleFileUpload (files : option (list string)) (field : MediaField)
    (m : Modal) : Modal :=
  match files with
  | None => m
  | Some bs => set_form (fold_left (onloadend field) bs (formData m)) m
  end.

(** [arr.filter((_, i) => i !== index)] *)
Fixpoint remove_index {A} (index : nat) (l : list A) : list A :=
  match l, index with
  | [], _ => []
  | _ :: l', O => l'
  | x :: l', S i => x :: remove_index i l'
  end.

Definition removeMedia (type : MediaField) (index : nat) (m : Modal) : Modal :=
  let f := formData m in
  set_form (set_media type (remove_index index (get_media type f)) f) m.

(** [newFeatures[index] = value] on a copy: a write past the end extends
    the array; the holes it leaves are skipped by [filter] at save time,
    as the empty strings that stand for them here are. *)
Definition array_set (l : list string) (index : nat) (v : string) : list string :=
  if bool_decide (index < length l) then <[index:=v]> l
  else l ++ replicate (index - length l) "" ++ [v].

Definition updateFeature (index : nat) (value : string) (m : Modal) : Modal :=
  set_form (set_features (array_set (fd_features (formData m)) index value) (formData m)) m.

Definition addFeature (m : Modal) : Modal :=
  set_form (set_features (fd_features (formData m) ++ [""]) (formData m)) m.

(** The inputs and toggles that write one field:
    [setFormData({...formData, <field>: value})]. *)
Inductive FieldEdit :=
| FTitle (v : string) | FCategory (v : string) | FDescription (v : string)
| FPrice (v : Z) | FDeliveryDays (v : Z) | FRevisions (v : Z) | FStatus (v : ServiceStatus).

Definition editField (e : FieldEdit) (m : Modal) : Modal :=
  let f := formData m in
  let mk t d p c dd r st :=
    mkForm t d p c dd r (fd_images f) (fd_videos f) (fd_pdfs f) (fd_features f) st (fd_carried f) in
  let t := fd_title f in let d := fd_description f in let p := fd_price f in
  let c := fd_category f in let dd := fd_deliveryDays f in let r := fd_revisions f in
  let st := fd_status f in
  set_form (match e with
            | FTitle v => mk v d p c dd r st
            | FCategory v => mk t d p v dd r st
            | FDescription v => mk t v p c dd r st
            | FPrice v => mk t d v c dd r st
            | FDeliveryDays v => mk t d p c v r st
            | FRevisions v => mk t d p c dd v st
            | FStatus v => mk t d p c dd r v
            end) m.

Definition setActiveTab (t : Tab) (m : Modal) : Modal :=
  mkModal (isModalOpen m) (editingId m) t (isPublishing m) (formData m).

(** The close and Cancel buttons: [setIsModalOpen(false)]. *)
Definition closeModal (m : Modal) : Modal :=
  mkModal false (editingId m) (activeTab m) (isPublishing m) (formData m).

Definition placeholder_image (rand : string) : string :=
  "https://picsum.photos/seed/" +:+ rand +:+ "/800/600".

Definition finalStatus (forcedStatus : option ServiceStatus) (f : FormData) : ServiceStatus :=
  match forcedStatus with Some s => s | None => fd_status f end.

Definition finalData (forcedStatus : option ServiceStatus) (rand : string) (f : FormData) : FormData :=
  mkForm (fd_title f) (fd_description f) (fd_price f) (fd_category f)
    (fd_deliveryDays f) (fd_revisions f)
    (if bool_decide (0 < length (fd_images f)) then fd_images f else [placeholder_image rand])
    (fd_videos f) (fd_pdfs f)
    (List.filter (fun x => negb (String.eqb (trim x) "")) (fd_features f))
    (finalStatus forcedStatus f) (fd_carried f).

(** [{ ...s, ...finalData }]: the form's keys win, [id], [impressions]
    and [clicks] too when the form carries them. *)
Definition merge (s : Service) (f : FormData) : Service :=
  let '(i, imp, cl) := from_option id (service_id s, impressions s, clicks s) (fd_carried f) in
  mkService i (fd_title f) (fd_description f) (fd_price f) (fd_category f)
    (fd_deliveryDays f) (fd_revisions f) (fd_images f) (fd_videos f) (fd_pdfs f)
    (fd_features f) (fd_status f) imp cl.

Definition newService (f : FormData) (now : Z) : Service :=
  mkService (string_of_Z now) (fd_title f) (fd_description f) (fd_price f)
    (fd_category f) (fd_deliveryDays f) (fd_revisions f) (fd_images f)
    (fd_videos f) (fd_pdfs f) (fd_features f) (fd_status f) 0 0.

(** The list [handleSaveService] hands to [store.setServices]; an empty
    [editingId] is falsy and creates a service. *)
Definition saved_services (forcedStatus : option ServiceStatus) (rand : string) (now : Z)
    (m : Modal) (services : list Service) : list Service :=
  let fd := finalData forcedStatus rand (formData m) in
  match editingId m with
  | Some eid =>
      if String.eqb eid "" then services ++ [newService fd now]
      else map (fun s => if String.eqb (service_id s) eid then merge s fd else s) services
  | None => services ++ [newService fd now]
  end.

(** [handleSaveService]: the store update, then the modal closes and the
    publishing flag is cleared ([finally]).  Nothing in the [try] block
    throws, so its [catch] is unreachable. *)
Definition handleSaveService (forcedStatus : option ServiceStatus) (rand : string) (now : Z)
    (m : Modal) (st : StoreState) : Browser (Modal * StoreState) :=
  r <- dispatch (ASetServices (saved_services forcedStatus rand now m (services st))) st ;;
  st_ret (mkModal false (editingId m) (activeTab m) false (formData m), snd r).

(** The modal's only save button: [handleSaveService('published')]. *)
Definition onSaveClick (rand : string) (now : Z) (m : Modal) (st : StoreState)
    : Browser (Modal * StoreState) :=
  handleSaveService (Some published) rand now m st.

(** [handleSaveService] around its [await new Promise(r => setTimeout(r,
    400))].  The click raises [isPublishing]; the continuation the timer
    resumes holds what the handler's closure captured at the render it was
    created in: [forcedStatus], [formData], [editingId] and
    [store.services].  [save_resume] runs that continuation against the
    modal and store of the later moment: it writes the captured values and
    closes the modal of that moment. *)
Record SaveClosure := mkSaveClosure {
  sc_forced : option ServiceStatus; sc_modal : Modal; sc_services : list Service }.

Definition save_click (forcedStatus : option ServiceStatus) (m : Modal) (st : StoreState)
    : Modal * SaveClosure :=
  (mkModal (isModalOpen m) (editingId m) (activeTab m) true (formData m),
   mkSaveClosure forcedStatus m (services st)).

Definition save_resume (c : SaveClosure) (rand : string) (now : Z) (m : Modal) (st : StoreState)
    : Browser (Modal * StoreState) :=
  r <- dispatch (ASetServices (saved_services (sc_forced c) rand now (sc_modal c) (sc_services c))) st ;;
  st_ret (mkModal false (editingId m) (activeTab m) false (formData m), snd r).

(** The [×] button of a feature row:
    [features: prev.features?.filter((_, i) => i !== index)]. *)
Definition removeFeature (index : nat) (m : Modal) : Modal :=
  set_form (set_features (remove_index index (fd_features (formData m))) (formData m)) m.

(** The media tab's gallery: [[...images, ...videos]], each entry shown as
    a video when [isVideoMedia] says so. *)
Definition gallery (f : FormData) : list (string * bool) :=
  map (fun url => (url, isVideoMedia url)) (fd_images f ++ fd_videos f).

(** A gallery tile's Delete button: the target array is chosen by
    [isVideoMedia(url)], and every entry equal to [url] is dropped from it. *)
Definition deleteGalleryItem (url : string) (m : Modal) : Modal :=
  let target := if isVideoMedia url then f_videos else f_images in
  let f := formData m in
  set_form (set_media target (List.filter (fun u => negb (String.eqb u url)) (get_media target f)) f) m.

(** The PDF list's labels: [Document_{i+1}.pdf]. *)
Definition pdf_labels (f : FormData) : list string :=
  imap (fun i _ => "Document_" +:+ string_of_Z (Z.of_nat (S i)) +:+ ".pdf") (fd_pdfs f).

(** The three [TabButton]s: number, label, and whether it is active. *)
Definition tab_buttons (m : Modal) : list (string * string * bool) :=
  [("1", "Overview", bool_decide (activeTab m = overview));
   ("2", "Pricing", bool_decide (activeTab m = pricing));
   ("3", "Gallery", bool_decide (activeTab m = media))].

(** The modal's footer: the highlighted status toggle, the Cancel and
    save buttons' [disabled], and the save button's label. *)
Record Footer := mkFooter {
  toggle_on : ServiceStatus; cancel_disabled : bool; save_disabled : bool; save_label : string }.

Definition footer (m : Modal) : Footer :=
  mkFooter (fd_status (formData m)) (isPublishing m) (isPublishing m)
    (if isPublishing m then "Publishing..." else "Save & Publish Gig Live").

(** A card of the gig grid: [images[0]] ([undefined] for no image), the
    Live/Draft badge, the title, the category and the price. *)
Record ServiceCard := mkServiceCard {
  sc_image : option string; sc_badge : string; sc_title : string;
  sc_category : string; sc_price : Z }.

Definition service_card (s : Service) : ServiceCard :=
  mkServiceCard (head (images s))
    (if bool_decide (service_status s = published) then "Live" else "Draft")
    (title s) (category s) (price s).

(** ** The modal's rendering *)

(** A controlled [<select value={v}>]: React selects the first option whose
    value is [String(v)] and, when none is, the first option; the label of
    the selected option is what the admin sees.  An option is its value
    and its label. *)
Definition select_shown (value : string) (opts : list (string * string)) : option string :=
  match List.find (fun o => String.eqb o.1 value) opts with
  | Some o => Some o.2
  | None => snd <$> head opts
  end.

(** The Category select: [<option>Video Editing</option>] ..., whose value
    is its text. *)
Definition category_options : list (string * string) :=
  map (fun c => (c, c))
    ["Video Editing"; "Graphic Design"; "Copywriting"; "SEO Strategy"; "Brand Identity"].

Definition delivery_days : list Z := [1; 2; 3; 4; 5; 7; 10; 14; 21; 30]%Z.

(** [<option key={d} value={d}>{d} Days Delivery</option>]. *)
Definition delivery_options : list (string * string) :=
  map (fun d => (string_of_Z d, string_of_Z d +:+ " Days Delivery")) delivery_days.

Definition revision_counts : list Z := [0; 1; 2; 3; 5; 10; 99]%Z.

(** [{r === 99 ? 'Unlimited' : r} Revisions]. *)
Definition revision_options : list (string * string) :=
  map (fun r => (string_of_Z r,
                 (if Z.eqb r 99%Z then "Unlimited" else string_of_Z r) +:+ " Revisions"))
    revision_counts.

(** The body of the active tab.  Overview: the title input, the category
    select and the value handed to the description editor.  Pricing: the
    price input, the two selects and the feature inputs.  Gallery: the
    combined gallery's tiles and the PDF labels. *)
Inductive TabPanel :=
| OverviewPanel (title : string) (category : option string) (description : string)
| PricingPanel (price : string) (delivery revisions : option string) (features : list string)
| MediaPanel (tiles : list (string * bool)) (documents : list string).

Definition tab_panel (m : Modal) : TabPanel :=
  let f := formData m in
  match activeTab m with
  | overview => OverviewPanel (fd_title f) (select_shown (fd_category f) category_options)
                  (fd_description f)
  | pricing => PricingPanel (string_of_Z (fd_price f))
                 (select_shown (string_of_Z (fd_deliveryDays f)) delivery_options)
                 (select_shown (string_of_Z (fd_revisions f)) revision_options)
                 (fd_features f)
  | media => MediaPanel (gallery f) (pdf_labels f)
  end.

(** [{isModalOpen && ...}]: the tab bar, the active tab's body and the
    footer. *)
Record ModalView := mkModalView {
  mv_tabs : list (string * string * bool); mv_panel : TabPanel; mv_footer : Footer }.

Definition modal_view (m : Modal) : option ModalView :=
  if isModalOpen m then Some (mkModalView (tab_buttons m) (tab_panel m) (footer m)) else None.

(** The panel: the gig grid, one card per service of the store in order,
    and the modal over it. *)
Record GigsView := mkGigsView { gv_cards : list ServiceCard; gv_modal : option ModalView }.

Definition gigs_view (services : list Service) (m : Modal) : GigsView :=
  mkGigsView (map service_card services) (modal_view m).

End ServicesManagement.

(** ** The gig editor: events and invariant *)

Import ServicesManagement.

(** The events that change the editor's state, as the page wires them. *)
Inductive modal_event :=
| EOpen (service : option Service)
| EUpload (files : option (list string)) (field : MediaField)
| ERemove (type : MediaField) (index : nat)
| ERemoveFeature (index : nat)
| EDeleteMedia (url : string)
| EUpdateFeature (index : nat) (value : string)
| EAddFeature
| EEdit (e : FieldEdit)
| ETab (t : Tab)
| EClose
| ESave (forcedStatus : option ServiceStatus) (rand : string) (now : Z).

Definition modal_step (e : modal_event) (m : Modal) : Modal :=
  match e with
  | EOpen s => handleOpenModal s m
  | EUpload fs fld => handleFileUpload fs fld m
  | ERemove t i => removeMedia t i m
  | ERemoveFeature i => removeFeature i m
  | EDeleteMedia url => deleteGalleryItem url m
  | EUpdateFeature i v => updateFeature i v m
  | EAddFeature => addFeature m
  | EEdit fe => editField fe m
  | ETab t => setActiveTab t m
  | EClose => closeModal m
  | ESave _ _ _ => mkModal false (editingId m) (activeTab m) false (formData m)
  end.

(** The form carries the [id] of the service being edited, and only then. *)
Definition editing_consistent (m : Modal) : Prop :=
  match editingId m with
  | Some eid => exists imp cl, fd_carried (formData m) = Some (eid, imp, cl)
  | None => fd_carried (formData m) = None
  end.

Definition media_count (f : FormData) : nat :=
  length (fd_images f) + length (fd_videos f) + length (fd_pdfs f).

Definition is_data_video (b : string) : bool := startsWith b "data:video".

(** ** Uploads in flight

    [handleFileUpload] only starts one [FileReader] per file; each
    reader's [onloadend] runs later, as its own task, and applies its
    functional update [setFormData(prev => ...)] to the form of that
    moment.  The page below keeps the readers in flight beside the modal,
    so that their completions interleave with the other events. *)
Record UploadPage := mkUploadPage { up_modal : Modal; up_pending : list (MediaField * string) }.

(** The input's [onChange]: one reader per file, in order. *)
Definition upload_start (files : option (list string)) (field : MediaField) (p : UploadPage)
    : UploadPage :=
  match files with
  | None => p
  | Some bs => mkUploadPage (up_modal p) (up_pending p ++ map (fun b => (field, b)) bs)
  end.

(** The [i]-th reader in flight finishes. *)
Definition reader_done (i : nat) (p : UploadPage) : UploadPage :=
  match up_pending p !! i with
  | Some (field, b) =>
      mkUploadPage (set_form (onloadend field (formData (up_modal p)) b) (up_modal p))
        (remove_index i (up_pending p))
  | None => p
  end.

Inductive page_event :=
| PModal (e : modal_event)
| PUpload (files : option (list string)) (field : MediaField)
| PRead (i : nat).

Definition page_step (e : page_event) (p : UploadPage) : UploadPage :=
  match e with
  | PModal me => mkUploadPage (modal_step me (up_modal p)) (up_pending p)
  | PUpload files field => upload_start files field p
  | PRead i => reader_done i p
  end.

Definition page_run (es : list page_event) (p : UploadPage) : UploadPage :=
  fold_left (fun p e => page_step e p) es p.

(** The first [n] readers in flight finish, in the order they started. *)
Fixpoint reads_in_order (n : nat) (p : UploadPage) : UploadPage :=
  match n with O => p | S n => reads_in_order n (reader_done 0 p) end.

(** The abstract catalogue the gig list stands for: the services by id.
    [store.services] is a list, in which the editor finds a service by
    its [id]; while ids are distinct the list is this finite map. *)
Definition catalogue (ss : list Service) : gmap string Service :=
  list_to_map ((fun s => (service_id s, s)) <$> ss).

(** ** Helper lemmas *)

Lemma set_media_carried fld l f : fd_carried (set_media fld l f) = fd_carried f.
Proof. by destruct fld. Qed.

Lemma fold_onloadend_carried field bs f :
  fd_carried (fold_left (onloadend field) bs f) = fd_carried f.
Proof.
  revert f. induction bs as [|b bs IH]; intros f; [done|].
  simpl. rewrite IH. apply set_media_carried.
Qed.

Lemma modal_step_editing (e : modal_event) (m : Modal) :
  editing_consistent m -> editing_consistent (modal_step e m).
Proof.
  unfold editing_consistent.
  destruct e as [[s|]|[bs|] fld|t i|i|url|i v| |fe|t| |]; cbn; try done.
  - eauto.
  - by rewrite fold_onloadend_carried.
  - by rewrite set_media_carried.
  - destruct (isVideoMedia url); by rewrite set_media_carried.
  - by destruct fe.
Qed.

(** One upload, by the field the input was bound to. *)
Lemma fold_onloadend_media (field : MediaField) (bs : list string) (f : FormData) :
  let f' := fold_left (onloadend field) bs f in
  fd_features f' = fd_features f /\
  if bool_decide (field = f_pdfs) then
    fd_images f' = fd_images f /\ fd_videos f' = fd_videos f /\ fd_pdfs f' = fd_pdfs f ++ bs
  else
    fd_images f' = fd_images f ++ List.filter (fun b => negb (is_data_video b)) bs /\
    fd_videos f' = fd_videos f ++ List.filter is_data_video bs /\ fd_pdfs f' = fd_pdfs f.
Proof.
  cbv zeta. revert f.
  destruct field; [rewrite bool_decide_false by done..|rewrite bool_decide_true by done];
    induction bs as [|b bs IH]; intros f; cbn [fold_left]; rewrite ?app_nil_r;
    try (split_and!; done);
    edestruct IH as (-> & -> & -> & ->);
    unfold onloadend, actualField, is_data_video; cbn;
    [destruct (startsWith b "data:video")..|]; cbn; split_and!; by rewrite <- ?app_assoc.
Qed.

Lemma remove_index_length {A} (i : nat) (l : list A) :
  length (remove_index i l) = if bool_decide (i < length l) then pred (length l) else length l.
Proof.
  revert i. induction l as [|x l IH]; intros [|i]; cbn [remove_index length]; try done.
  rewrite IH. repeat case_bool_decide; lia.
Qed.

Lemma merge_id (s : Service) (f : FormData) (eid : string) imp cl :
  fd_carried f = Some (eid, imp, cl) -> service_id (merge s f) = eid.
Proof. unfold merge. by intros ->. Qed.

(** ** Theorems: the gig editor *)

(** Every sequence of editor events from the initial
    state keeps the form's carried [id] equal to [editingId]. *)
Theorem editor_events_consistent (es : list modal_event) :
  editing_consistent (fold_left (fun m e => modal_step e m) es initial_modal).
Proof.
  assert (editing_consistent initial_modal) as H0 by done.
  revert H0. generalize initial_modal.
  induction es as [|e es IH]; intros m Hm; [done|]. apply IH, modal_step_editing, Hm.
Qed.

(** Saving an edit keeps the list of service ids; saving a new gig
    appends the id taken from [Date.now()]. *)
Theorem save_service_ids (forcedStatus : option ServiceStatus) (rand : string) (now : Z)
    (m : Modal) (services : list Service) :
  editing_consistent m ->
  map service_id (saved_services forcedStatus rand now m services) =
    match editingId m with
    | Some eid => if String.eqb eid "" then map service_id services ++ [string_of_Z now]
                  else map service_id services
    | None => map service_id services ++ [string_of_Z now]
    end.
Proof.
  unfold editing_consistent, saved_services. destruct (editingId m) as [eid|]; intros Hc.
  - destruct (String.eqb eid "") eqn:He; [by rewrite map_app|].
    destruct Hc as (imp & cl & Hc). rewrite map_map. apply map_ext. intros s.
    destruct (String.eqb (service_id s) eid) eqn:Hs; [|done].
    apply String.eqb_eq in Hs. rewrite Hs. by apply (merge_id _ _ eid imp cl).
  - by rewrite map_app.
Qed.

Lemma saved_services_fresh (forcedStatus : option ServiceStatus) (rand : string) (now : Z)
    (m : Modal) (services : list Service) (s : Service) :
  s ∈ saved_services forcedStatus rand now m services -> s ∉ services ->
  images s = fd_images (finalData forcedStatus rand (formData m)) /\
  features s = fd_features (finalData forcedStatus rand (formData m)) /\
  service_status s = fd_status (finalData forcedStatus rand (formData m)).
Proof.
  assert (forall l, s ∈ l ++ [newService (finalData forcedStatus rand (formData m)) now] -> s ∉ l ->
            s = newService (finalData forcedStatus rand (formData m)) now) as Hnew.
  { intros l [Hl|Hl]%elem_of_app Hn; [done|]. by apply list_elem_of_singleton in Hl. }
  unfold saved_services.
  destruct (editingId m) as [eid|]; [destruct (String.eqb eid "")|];
    try (intros Hin Hn; rewrite (Hnew _ Hin Hn); done).
  intros Hin%list_elem_of_In Hn. apply in_map_iff in Hin as (s0 & <- & Hin).
  destruct (String.eqb (service_id s0) eid); [|by apply list_elem_of_In in Hin].
  unfold merge. by destruct (from_option _ _ _) as [[??]?].
Qed.

(** C28: What a save writes is publishable: every service it adds or changes has
    at least one image and no blank feature, and has the status the button
    forced or the form's. *)
Theorem save_service_publishable (forcedStatus : option ServiceStatus) (rand : string)
    (now : Z) (m : Modal) (services : list Service) (s : Service) :
  s ∈ saved_services forcedStatus rand now m services -> s ∉ services ->
  images s <> [] /\ Forall (fun x => trim x <> "") (features s) /\
  service_status s = finalStatus forcedStatus (formData m).
Proof.
  intros Hin Hn. destruct (saved_services_fresh _ _ _ _ _ _ Hin Hn) as (-> & -> & ->).
  cbn. split_and!; [|apply Forall_forall; intros x [_ Hx]%elem_of_filter_bool|done].
  - case_bool_decide as Hl; [|done]. intros E. rewrite E in Hl. cbn in Hl. lia.
  - by destruct (String.eqb_spec (trim x) "").
Qed.

(** C26: The Draft toggle has no effect on what is saved: the save button
    forces ['published'], so every gig it adds or changes is published. *)
Theorem draft_toggle_overridden (rand : string) (now : Z) (m m' : Modal) (st st' : StoreState)
    (w w' : World) (s : Service) :
  ls_available w = true ->
  onSaveClick rand now (modal_step (EEdit (FStatus draft)) m) st w = (w', Normal (m', st')) ->
  s ∈ services st' -> s ∉ services st -> service_status s = published.
Proof.
  intros Ha Hs Hin Hn.
  set (m1 := modal_step (EEdit (FStatus draft)) m) in Hs.
  destruct (dispatch_memory (ASetServices (saved_services (Some published) rand now m1 (services st))) st w Ha)
    as [w1 Hd].
  unfold onSaveClick, handleSaveService in Hs. rewrite (st_bind_normal _ _ _ _ _ Hd) in Hs.
  injection Hs as _ _ <-. cbn in Hin.
  by destruct (saved_services_fresh _ _ _ _ _ _ Hin Hn) as (_ & _ & ->).
Qed.

(** An upload appends every loaded file: PDFs to [pdfs], the others to
    [videos] or [images] by their data-URL prefix, in the order the readers
    finish; nothing else in the form changes. *)
Theorem upload_routes_media (files : list string) (field : MediaField) (m : Modal) :
  let f := formData m in
  let f' := formData (handleFileUpload (Some files) field m) in
  media_count f' = media_count f + length files /\
  fd_features f' = fd_features f /\ editingId (handleFileUpload (Some files) field m) = editingId m /\
  (field = f_pdfs -> fd_pdfs f' = fd_pdfs f ++ files) /\
  (field <> f_pdfs -> fd_videos f' = fd_videos f ++ List.filter is_data_video files).
Proof.
  cbn. destruct (fold_onloadend_media field files (formData m)) as [Hf Hm].
  unfold media_count. split_and!; try done.
  - case_bool_decide as Hp; destruct Hm as (-> & -> & ->); rewrite !length_app; [lia|].
    pose proof (filter_partition_length is_data_video files). lia.
  - intros ->. rewrite bool_decide_true in Hm by done. apply Hm.
  - intros Hp. rewrite bool_decide_false in Hm by done. apply Hm.
Qed.

(** Removing a preview drops exactly one entry when the index is in range,
    and nothing otherwise. *)
Theorem removeMedia_length (type : MediaField) (index : nat) (m : Modal) :
  length (get_media type (formData (removeMedia type index m))) =
    if bool_decide (index < length (get_media type (formData m)))
    then pred (length (get_media type (formData m)))
    else length (get_media type (formData m)).
Proof.
  unfold removeMedia. cbn. rewrite <- remove_index_length.
  by destruct type.
Qed.

Lemma filter_from_keep {A} (p : A -> nat -> bool) (i : nat) (l : list A) :
  (forall x j, i <= j -> p x j = true) -> filter_from p i l = l.
Proof.
  revert i. induction l as [|x l IH]; intros i Hp; [done|]. cbn.
  rewrite Hp by lia. f_equal. apply IH. intros y j ?. apply Hp. lia.
Qed.

Lemma filter_from_remove_index {A} (k n : nat) (l : list A) :
  filter_from (fun _ i => negb (i =? n + k)) n l = remove_index k l.
Proof.
  revert k n. induction l as [|x l IH]; intros [|k] n; cbn [filter_from remove_index]; [done..| |].
  - rewrite Nat.add_0_r, Nat.eqb_refl. apply filter_from_keep.
    intros y j Hj. apply negb_true_iff, Nat.eqb_neq. lia.
  - replace (n =? n + S k) with false by (symmetry; apply Nat.eqb_neq; lia). cbn.
    rewrite <- (IH k (S n)). by replace (S n + k) with (n + S k) by lia.
Qed.

Lemma gallery_urls (f : FormData) : map fst (gallery f) = fd_images f ++ fd_videos f.
Proof. unfold gallery. rewrite map_map. apply map_id. Qed.

Lemma elem_of_filter_neq (url u : string) (l : list string) :
  u ∈ List.filter (fun v => negb (String.eqb v url)) l <-> u ∈ l /\ u <> url.
Proof.
  rewrite elem_of_filter_bool. destruct (String.eqb_spec u url); naive_solver.
Qed.

(** The index-based removal the editor uses for media and features is the
    literal [arr.filter((_, i) => i !== index)]: the element at [index] is
    dropped, the others keep their order. *)
Theorem remove_index_array_filter {A} (index : nat) (l : list A) :
  remove_index index l = array_filter (fun _ i => negb (i =? index)) l.
Proof. symmetry. apply (filter_from_remove_index index 0). Qed.

(** C32: Deleting a gallery tile drops [url] from the array [isVideoMedia(url)]
    designates, every copy of it, and nothing else: the url stays in the
    gallery exactly when it also sits in the other array, so an image whose
    URL looks like a video (or the converse) cannot be deleted. *)
Theorem gallery_delete_spec (url u : string) (m : Modal) :
  let f := formData m in
  let f' := formData (deleteGalleryItem url m) in
  (u ∈ map fst (gallery f') <->
     u ∈ map fst (gallery f) /\
     (u <> url \/ u ∈ (if isVideoMedia url then fd_images f else fd_videos f))) /\
  fd_pdfs f' = fd_pdfs f /\ fd_features f' = fd_features f /\ fd_carried f' = fd_carried f.
Proof.
  cbn zeta. rewrite !gallery_urls. unfold deleteGalleryItem.
  destruct (isVideoMedia url); cbn; (split_and!; [|done..]);
    rewrite !elem_of_app, elem_of_filter_neq; destruct (String.eqb_spec u url); naive_solver.
Qed.

(** C24: A save writes what the form held when the button was pressed.  While
    the 400 ms timer runs, the button reads "Publishing..."; whatever
    happens to the modal and the store in that time, the continuation
    stores the services computed from the captured form and list, and
    closes the modal with the form as it then is: edits made while
    publishing are not saved. *)
Theorem save_in_flight (forcedStatus : option ServiceStatus) (rand : string) (now : Z)
    (m m2 : Modal) (st st2 : StoreState) (w : World) :
  ls_available w = true ->
  save_label (footer (fst (save_click forcedStatus m st))) = "Publishing..." /\
  exists w' st',
    save_resume (snd (save_click forcedStatus m st)) rand now m2 st2 w =
      (w', Normal (mkModal false (editingId m2) (activeTab m2) false (formData m2), st')) /\
    services st' = saved_services forcedStatus rand now m (services st) /\
    orders st' = orders st2 /\ users st' = users st2.
Proof.
  intros Ha. split; [done|].
  destruct (dispatch_memory (ASetServices (saved_services forcedStatus rand now m (services st))) st2 w Ha)
    as [w' Hd].
  exists w'. eexists. unfold save_resume. cbn [snd save_click sc_forced sc_modal sc_services].
  rewrite (st_bind_normal _ _ _ _ _ Hd). split_and!; reflexivity.
Qed.

(** An uninterrupted save is [handleSaveService] as one step. *)
Lemma save_uninterrupted (forcedStatus : option ServiceStatus) (rand : string) (now : Z)
    (m : Modal) (st : StoreState) :
  save_resume (snd (save_click forcedStatus m st)) rand now (fst (save_click forcedStatus m st)) st =
    handleSaveService forcedStatus rand now m st.
Proof. reflexivity. Qed.

(** ** Theorems: the modal's rendering *)

(** The option a controlled select built by [map] selects, when the option
    values identify the items. *)
Lemma find_map_label {A} `{EqDecision A} (val lab : A -> string) (xs : list A) (x : A) :
  (forall y, val y = val x -> y = x) ->
  snd <$> List.find (fun o => String.eqb o.1 (val x)) (map (fun y => (val y, lab y)) xs) =
    if bool_decide (x ∈ xs) then Some (lab x) else None.
Proof.
  intros Hinj. induction xs as [|y xs IH]; [done|]. cbn.
  destruct (String.eqb_spec (val y) (val x)) as [E|E].
  - apply Hinj in E as ->. rewrite bool_decide_true; [done|by left].
  - rewrite IH. assert (y <> x) by congruence.
    repeat case_bool_decide; set_solver.
Qed.

Lemma select_shown_map {A} `{EqDecision A} (val lab : A -> string) (xs : list A) (x : A) :
  (forall y, val y = val x -> y = x) ->
  select_shown (val x) (map (fun y => (val y, lab y)) xs) =
    if bool_decide (x ∈ xs) then Some (lab x) else lab <$> head xs.
Proof.
  intros Hinj. unfold select_shown. pose proof (find_map_label val lab xs x Hinj) as H.
  destruct (List.find _ _) as [o|]; cbn in H; case_bool_decide; try done.
  by destruct xs.
Qed.

(** The Pricing tab's delivery select, for each value of the form's
    [deliveryDays]: its label when the value is one of the ten options,
    the first option's label otherwise. *)
Lemma delivery_shown (d : Z) :
  select_shown (string_of_Z d) delivery_options =
    Some (if bool_decide (d ∈ delivery_days) then string_of_Z d +:+ " Days Delivery"
          else "1 Days Delivery").
Proof.
  unfold delivery_options.
  rewrite (select_shown_map string_of_Z (fun d => string_of_Z d +:+ " Days Delivery"));
    [by case_bool_decide | intros y; apply string_of_Z_inj].
Qed.

(** C33: On the Pricing tab of the open gig modal, the Delivery Time select
    shows the form's [deliveryDays] when it is one of the ten options and
    "1 Days Delivery" otherwise, while the save writes the form's value:
    a gig with another delivery time is shown as a one-day gig and saved
    unchanged. *)
Theorem pricing_delivery_shown (forcedStatus : option ServiceStatus) (rand : string) (m : Modal) :
  isModalOpen m = true -> activeTab m = pricing ->
  (exists price revisions features,
     modal_view m = Some (mkModalView (tab_buttons m)
       (PricingPanel price
          (Some (if bool_decide (fd_deliveryDays (formData m) ∈ delivery_days)
                 then string_of_Z (fd_deliveryDays (formData m)) +:+ " Days Delivery"
                 else "1 Days Delivery"))
          revisions features)
       (footer m))) /\
  fd_deliveryDays (finalData forcedStatus rand (formData m)) = fd_deliveryDays (formData m).
Proof.
  intros Ho Ht. split; [|done].
  unfold modal_view, tab_panel. rewrite Ho, Ht, delivery_shown. by do 3 eexists.
Qed.

(** ** Theorems: the save against the abstract catalogue *)

(** Rewriting the entries with one id, keeping their ids, is [alter] on
    the catalogue. *)
Lemma catalogue_map_alter (f : Service -> Service) (eid : string) (ss : list Service) :
  NoDup (service_id <$> ss) -> (forall s, service_id s = eid -> service_id (f s) = eid) ->
  catalogue (map (fun s => if String.eqb (service_id s) eid then f s else s) ss) =
    alter f eid (catalogue ss).
Proof.
  intros Hnd Hf. unfold catalogue. induction ss as [|x ss IH]; [done|].
  rewrite fmap_cons, NoDup_cons in Hnd. destruct Hnd as [Hx Hnd].
  cbn [map fmap list_fmap]. rewrite !list_to_map_cons, IH by done.
  assert ((list_to_map ((fun s => (service_id s, s)) <$> ss) : gmap string Service) !! service_id x = None)
    as Hnone.
  { apply not_elem_of_list_to_map_1. by rewrite <- list_fmap_compose. }
  destruct (String.eqb_spec (service_id x) eid) as [<-|Hne]; cbn [fst snd].
  - rewrite (Hf x eq_refl), alter_insert, !alter_alt, Hnone. by case_decide.
  - rewrite alter_insert_ne; [done|congruence].
Qed.

Lemma catalogue_snoc (ss : list Service) (n : Service) :
  service_id n ∉ service_id <$> ss -> catalogue (ss ++ [n]) = <[service_id n := n]> (catalogue ss).
Proof.
  intros Hn. unfold catalogue. rewrite fmap_app, list_to_map_app. cbn [fmap list_fmap].
  rewrite list_to_map_cons, list_to_map_nil, insert_empty, insert_union_singleton_r; [done|].
  apply not_elem_of_list_to_map_1. by rewrite <- list_fmap_compose.
Qed.

(** C29: Against the abstract catalogue (services by id), a save is the
    map operation it means, provided ids are distinct and the timestamp
    [Date.now()] is not already an id: an edit of a stored service
    replaces that entry by the merged form (and leaves the catalogue
    alone when the service was deleted meanwhile), a new gig is inserted
    at the timestamp; ids stay distinct. *)
Theorem save_refines_catalogue (forcedStatus : option ServiceStatus) (rand : string) (now : Z)
    (m : Modal) (services : list Service) :
  NoDup (service_id <$> services) -> editing_consistent m ->
  string_of_Z now ∉ service_id <$> services ->
  let fd := finalData forcedStatus rand (formData m) in
  catalogue (saved_services forcedStatus rand now m services) =
    match editingId m with
    | Some eid =>
        if String.eqb eid "" then <[string_of_Z now := newService fd now]> (catalogue services)
        else alter (fun s => merge s fd) eid (catalogue services)
    | None => <[string_of_Z now := newService fd now]> (catalogue services)
    end /\
  NoDup (service_id <$> saved_services forcedStatus rand now m services).
Proof.
  intros Hnd Hc Hnow fd. split.
  - unfold saved_services. fold fd. destruct (editingId m) as [eid|] eqn:He;
      [destruct (String.eqb eid "")|]; try by apply catalogue_snoc.
    apply catalogue_map_alter; [done|]. intros s _.
    unfold editing_consistent in Hc. rewrite He in Hc. destruct Hc as (imp & cl & Hc).
    by apply (merge_id _ _ eid imp cl).
  - assert (NoDup (map service_id services ++ [string_of_Z now])) as Hs.
    { apply NoDup_app. rewrite <- fmap_list_map. split_and!; [done| |apply NoDup_singleton].
      intros x Hx ->%list_elem_of_singleton. done. }
    rewrite fmap_list_map, save_service_ids by done.
    destruct (editingId m) as [eid|]; [destruct (String.eqb eid "")|]; try done.
Qed.

(** ** Theorems: a save that overflows the storage quota *)

Lemma setServices_quota (l : list Service) (st : StoreState) (w : World) :
  ls_available w = true ->
  (ls_quota w < usage (<[SERVICES DB_KEYS := encode l]> (ls_items w)))%N ->
  dispatch (ASetServices l) st w =
    (quota_recovery w,
     Normal (true, mkStore (users st) l (orders st) (settings st) (currentUser st))).
Proof.
  intros Ha Hq. unfold dispatch, commit. cbn [step_mem setServices effects d_users d_services
    d_orders d_settings d_session app services run_effects].
  change (run_effect (effect_save (SERVICES DB_KEYS) (encode l))) with (saveToDB (SERVICES DB_KEYS) l).
  st_unfold. rewrite saveToDB_exceeds by done. reflexivity.
Qed.

(** After the quota handler, storage still holds the tables of before and
    no session. *)
Lemma quota_recovery_synced (st : StoreState) (w : World) :
  wf_world w -> synced st (ls_items w) ->
  wf_world (quota_recovery w) /\
  synced (mkStore (users st) (services st) (orders st) (settings st) None) (ls_items (quota_recovery w)).
Proof.
  intros Hwf (Hu & Hs & Ho & Hse & _). split.
  - unfold wf_world, quota_recovery in *. cbn [ls_items ls_quota].
    pose proof (usage_delete (SESSION DB_KEYS) (ls_items w)). lia.
  - cbn. unfold synced, session_blob. cbn. rewrite !lookup_delete_ne by (vm_compute; discriminate).
    by rewrite lookup_delete.
Qed.

(** C14: Saving a gig whose media no longer fit in [localStorage] (media are
    stored inline as data URLs): the modal closes as after any save and
    the admin sees the new catalogue, with one alert; but the next load of
    the store brings back the catalogue of before the save, with nobody
    signed in, since the quota handler erased the session entry. *)
Theorem save_overflow_lost (C : Constants) (forcedStatus : option ServiceStatus) (rand : string)
    (now : Z) (m m' : Modal) (st st' : StoreState) (w w' : World) :
  ls_available w = true -> wf_world w -> synced st (ls_items w) ->
  (ls_quota w < usage (<[SERVICES DB_KEYS :=
     encode (saved_services forcedStatus rand now m (services st))]> (ls_items w)))%N ->
  handleSaveService forcedStatus rand now m st w = (w', Normal (m', st')) ->
  isModalOpen m' = false /\ services st' = saved_services forcedStatus rand now m (services st) /\
  alerts w' = alerts w ++ [storage_full_alert] /\
  useStore C w' = (w', Normal (mkStore (users st) (services st) (orders st) (settings st) None)).
Proof.
  intros Ha Hwf Hs Hq Hh. unfold handleSaveService in Hh.
  rewrite (st_bind_normal _ _ _ _ _ (setServices_quota _ st w Ha Hq)) in Hh.
  injection Hh as <- <- <-. destruct (quota_recovery_synced st w Hwf Hs) as [Hwf' Hs'].
  split_and!; [done..|]. by apply reload.
Qed.

(** ** Theorems: uploads in flight *)

Lemma set_form_set_form (f g : FormData) (m : Modal) : set_form f (set_form g m) = set_form f m.
Proof. done. Qed.

Lemma reads_in_order_fold (field : MediaField) (bs : list string) (m : Modal)
    (rest : list (MediaField * string)) :
  reads_in_order (length bs) (mkUploadPage m (map (fun b => (field, b)) bs ++ rest)) =
    mkUploadPage (set_form (fold_left (onloadend field) bs (formData m)) m) rest.
Proof.
  revert m. induction bs as [|b bs IH]; intros m; [by destruct m|].
  cbn [length reads_in_order map app]. unfold reader_done. cbn [up_pending up_modal lookup list_lookup].
  cbn [remove_index]. rewrite IH. cbn [fold_left]. by rewrite set_form_set_form.
Qed.

(** With nothing in between, an upload whose readers finish in order is
    the one-step [handleFileUpload]. *)
Lemma upload_then_reads (bs : list string) (field : MediaField) (m : Modal) :
  reads_in_order (length bs) (upload_start (Some bs) field (mkUploadPage m [])) =
    mkUploadPage (handleFileUpload (Some bs) field m) [].
Proof. cbn [upload_start up_modal up_pending app]. by rewrite <- (app_nil_r (map _ bs)), reads_in_order_fold. Qed.

(** C25: A file picked while editing gig [a] whose reader finishes after the
    admin has closed that modal and opened gig [b] is added to [b]'s
    form: [onloadend] updates whatever form is open.  Saving [b] then
    stores the file among [b]'s images. *)
Theorem upload_lands_in_next_gig (a b : Service) (m : Modal) (field : MediaField) (data : string)
    (forcedStatus : option ServiceStatus) (rand : string) (now : Z) (services : list Service) :
  actualField field data = f_images -> b ∈ services -> service_id b <> "" ->
  let p := page_run [PModal (EOpen (Some a)); PUpload (Some [data]) field; PModal EClose;
                     PModal (EOpen (Some b)); PRead 0] (mkUploadPage m []) in
  editingId (up_modal p) = Some (service_id b) /\ up_pending p = [] /\
  exists b', b' ∈ saved_services forcedStatus rand now (up_modal p) services /\
    service_id b' = service_id b /\ images b' = images b ++ [data].
Proof.
  intros Hf Hb Hid p. subst p. cbn. unfold onloadend. rewrite Hf. cbn.
  split_and!; [done..|]. unfold saved_services. cbn. rewrite (proj2 (String.eqb_neq _ _) Hid).
  eexists. split_and!.
  - apply list_elem_of_In, in_map_iff. exists b. rewrite String.eqb_refl.
    split; [reflexivity|by apply list_elem_of_In].
  - done.
  - cbn. rewrite bool_decide_true; [done|]. rewrite length_app. cbn. lia.
Qed.
