(* ===== verification/AdminPanels.v ===== *)
(** * The admin console's panels: [src/pages/AdminDashboard.tsx]

    The panels of the dashboard other than the gig editor (which is in
    [Admin.v]), each a Module:
    - [Stats]: [StatsOverview], its active-order count, revenue, stat cards
      and the recent-orders list;
    - [OrdersManagement]: [handleStatusUpdate], which rewrites the status of
      the orders with the given id through [store.setOrders] and posts a
      notification, the [updatingId] lock, [getStatusStyle] and the table;
    - [Console]: the sidebar links and the nested [Routes] of
      [AdminDashboard];
    - [SiteEditor]: [handleUpdate] and [handleSeoUpdate], which replace the
      settings through [store.setSettings], and the "Changes Saved" flag
      with its timers.
    The store calls are [Store.dispatch] on the corresponding action, so the
    handlers run against the browser model and inherit its persistence. *)

From S2P Require Import Prelude Json Types Storage Store JsString Persistence Admin.


(** ** [OrdersManagement] *)

Module OrdersManagement.

(** The string an [Order['status']] value is. *)
Definition status_string (s : OrderStatus) : string :=
  match order_status_to_json s with JStr x => x | _ => "" end.

Definition set_status (o : Order) (s : OrderStatus) : Order :=
  mkOrder (order_id o) (serviceId o) (clientName o) (clientEmail o) s
    (totalAmount o) (createdAt o) (details o).

(** [store.orders.map(o => o.id === orderId ? {...o, status} : o)] *)
Definition updatedOrders (orderId : string) (newStatus : OrderStatus) (orders : list Order) : list Order :=
  map (fun o => if String.eqb (order_id o) orderId then set_status o newStatus else o) orders.

(** The body of the notification request. *)
Definition notification (o : Order) (newStatus : OrderStatus) : json :=
  let up := toUpperCase (status_string newStatus) in
  JObj [("subject", JStr ("Order Status Update: " +:+ order_id o));
        ("clientName", JStr (clientName o));
        ("clientEmail", JStr (clientEmail o));
        ("newStatus", JStr up);
        ("message", JStr ("Hello " +:+ clientName o +:+ ", your order for " +:+ order_id o +:+
                          " has been marked as " +:+ up +:+ "."))].

(** [handleStatusUpdate]: the store update first, then, when the order
    exists in the snapshot the handler closed over, the notification;
    [fetch_ok = false] is a rejected [fetch], caught and logged.  The
    result is the request body that was posted, if any. *)
Definition handleStatusUpdate (fetch_ok : bool) (orderId : string) (newStatus : OrderStatus)
    (st : StoreState) : Browser (option string * StoreState) :=
  r <- dispatch (ASetOrders (updatedOrders orderId newStatus (orders st))) st ;;
  match List.find (fun o => String.eqb (order_id o) orderId) (orders st) with
  | Some o =>
      (if fetch_ok then st_ret tt else console_error "Failed to send notification email") ;;;
      st_ret (Some (stringify (notification o newStatus)), snd r)
  | None => st_ret (None, snd r)
  end.

Definition getStatusStyle (status : OrderStatus) : string :=
  match status with
  | completed => "bg-green-100 text-green-700 border-green-200"
  | active => "bg-blue-100 text-blue-700 border-blue-200"
  | cancelled => "bg-red-100 text-red-700 border-red-200"
  | _ => "bg-slate-100 text-slate-700 border-slate-200"
  end.

(** One row of the order table; [new Date(createdAt).toLocaleDateString()]
    is kept as the stored timestamp.  The status select is disabled
    while an update of an order with that id is in flight. *)
Record OrderRow := mkOrderRow {
  row_id : string; row_createdAt : string; row_client : string; row_email : string;
  row_amount : Z; row_status : string; row_style : string; row_select : OrderStatus;
  row_disabled : bool }.

#[global] Instance OrderRow_eq_dec : EqDecision OrderRow.
Proof. solve_decision. Defined.

Definition order_row (updatingId : option string) (o : Order) : OrderRow :=
  mkOrderRow (order_id o) (createdAt o) (clientName o) (clientEmail o) (totalAmount o)
    (status_string (order_status o)) (getStatusStyle (order_status o)) (order_status o)
    (bool_decide (updatingId = Some (order_id o))).

(** The panel: the order count, the rows, and the empty-state block. *)
Record OrdersView := mkOrdersView { total_orders : nat; rows : list OrderRow; empty_state : bool }.

Definition orders_view (updatingId : option string) (orders : list Order) : OrdersView :=
  mkOrdersView (length orders) (map (order_row updatingId) orders) (bool_decide (length orders = 0)).

(** The page's [updatingId] and the notification requests in flight (the
    ids of their orders, in the order they were sent). *)
Record OrdersPage := mkOrdersPage { updating : option string; in_flight : list string }.

Definition orders_page0 : OrdersPage := mkOrdersPage None [].

(** A status select's change, up to the handler's [await]:
    [setUpdatingId(orderId)], the store update of [handleStatusUpdate],
    and, when the order was found, the request; when it was not, the
    handler runs on to [setUpdatingId(null)] in the same turn. *)
Definition select_change (orderId : string) (found : bool) (p : OrdersPage) : OrdersPage :=
  if found then mkOrdersPage (Some orderId) (in_flight p ++ [orderId])
  else mkOrdersPage None (in_flight p).

(** The [k]-th request in flight settles, resolved or rejected; its
    continuation runs [setUpdatingId(null)]. *)
Definition request_settles (k : nat) (p : OrdersPage) : OrdersPage :=
  mkOrdersPage None (ServicesManagement.remove_index k (in_flight p)).

End OrdersManagement.

(** ** [StatsOverview] *)

Module Stats.

Definition activeOrders (orders : list Order) : nat :=
  length (List.filter (fun o => bool_decide (order_status o = active)) orders).

Definition totalRevenue (orders : list Order) : Z :=
  fold_left (fun acc o => (acc + totalAmount o)%Z) orders 0%Z.

Definition recentOrders (orders : list Order) : list Order := take 4 orders.

(** A [StatCard]: its title, the value shown, the change badge and the
    colour class of that badge, green when the change starts with "+". *)
Record StatCard := mkStatCard {
  card_title : string; card_value : string; card_change : string; card_change_class : string }.

Definition stat_card (title value change : string) : StatCard :=
  mkStatCard title value change
    (if startsWith change "+" then "text-green-500" else "text-red-500").

(** The four cards of the snapshot: two computed from the orders, two
    fixed figures. *)
Definition stat_cards (orders : list Order) : list StatCard :=
  [stat_card "Total Revenue" ("$" +:+ toLocaleString (totalRevenue orders)) "+12%";
   stat_card "Active Orders" (string_of_Z (Z.of_nat (activeOrders orders))) "+2";
   stat_card "Impressions" "12.4K" "+1.2K";
   stat_card "Avg. Ticket" "$82" "-3%"].

(** The class of a recent order's status badge: green for completed,
    blue for every other status. *)
Definition recent_badge (o : Order) : string :=
  if bool_decide (order_status o = completed) then "bg-green-100 text-green-700"
  else "bg-blue-100 text-blue-700".

(** A row of Recent Orders: the client's name,
    [new Date(order.createdAt).toLocaleDateString()], [${order.totalAmount}],
    the status and its badge.  [toLocaleDateString] depends on the
    browser's locale and time zone; it is a parameter. *)
Record RecentRow := mkRecentRow {
  rr_client : string; rr_date : string; rr_amount : string; rr_status : string; rr_badge : string }.

Definition recent_row (toLocaleDateString : string -> string) (o : Order) : RecentRow :=
  mkRecentRow (clientName o) (toLocaleDateString (createdAt o))
    ("$" +:+ string_of_Z (totalAmount o))
    (OrdersManagement.status_string (order_status o)) (recent_badge o).

(** The panel: the four cards and the rows of [store.orders.slice(0, 4)].
    The Revenue Trend chart plots the fixed [MOCK_ANALYTICS] series, which
    does not depend on the store. *)
Record Overview := mkOverview { ov_cards : list StatCard; ov_recent : list RecentRow }.

Definition overview (toLocaleDateString : string -> string) (orders : list Order) : Overview :=
  mkOverview (stat_cards orders) (map (recent_row toLocaleDateString) (recentOrders orders)).

End Stats.

(** ** [FullAnalytics] *)

Module Analytics.

(** A [ProgressRow]: the label, the [{percent}%] text, the bar's class and
    its [width] style. *)
Record ProgressRow := mkProgressRow {
  pr_label : string; pr_text : string; pr_class : string; pr_width : string }.

Definition progress_row (label : string) (percent : Z) (color : string) : ProgressRow :=
  mkProgressRow label (string_of_Z percent +:+ "%") ("h-full " +:+ color)
    (string_of_Z percent +:+ "%").

(** The Traffic Sources card; the Order Volume chart plots [MOCK_ANALYTICS]. *)
Definition traffic_sources : list ProgressRow :=
  [progress_row "Search Engine" 65 "bg-blue-600"; progress_row "Direct Visit" 20 "bg-indigo-600"].

End Analytics.

(** ** The console's router and sidebar *)

Module Console.

Inductive Panel := PStats | PServices | POrders | PAnalytics | PSettings.

#[global] Instance Panel_eq_dec : EqDecision Panel.
Proof. solve_decision. Defined.

(** [SidebarLink]s: the [to] prop, the label, and the panel its route shows. *)
Definition sidebarLinks : list (string * string * Panel) :=
  [("/", "Dashboard", PStats); ("/services", "Gigs / Services", PServices);
   ("/orders", "Order Queue", POrders); ("/analytics", "Deep Insights", PAnalytics);
   ("/settings", "Site Settings", PSettings)].

Definition link_to (to : string) : string := "/admin" +:+ to.

Definition isActive (pathname to : string) : bool :=
  String.eqb pathname ("/admin" +:+ (if String.eqb to "/" then "" else to)).

Definition strip_trailing_slash (s : string) : string :=
  if endsWith s "/" then String.substring 0 (String.length s - 1) s else s.

(** The nested [<Routes>] under the console's [/admin] mount: React
    Router matches case-insensitively and ignores one trailing slash. *)
Definition route (pathname : string) : option Panel :=
  let p := strip_trailing_slash (toLowerCase pathname) in
  if String.eqb p "/admin" then Some PStats
  else if String.eqb p "/admin/services" then Some PServices
  else if String.eqb p "/admin/orders" then Some POrders
  else if String.eqb p "/admin/analytics" then Some PAnalytics
  else if String.eqb p "/admin/settings" then Some PSettings
  else None.

End Console.

(** ** [SiteEditor] *)

Module SiteEditor.

(** The objects the inputs pass: [{ name }], [{ logo }] and, for the SEO
    block, [{ metaTitle }], [{ metaDescription }]. *)
Inductive Update := UName (v : string) | ULogo (v : string).
Inductive SeoUpdate := UMetaTitle (v : string) | UMetaDescription (v : string).

Definition apply_update (s : SiteSettings) (u : Update) : SiteSettings :=
  match u with
  | UName v => mkSiteSettings v (logo s) (socialLinks s) (seo s)
  | ULogo v => mkSiteSettings (site_name s) v (socialLinks s) (seo s)
  end.

Definition apply_seo_update (s : SiteSettings) (u : SeoUpdate) : SiteSettings :=
  let so := seo s in
  mkSiteSettings (site_name s) (logo s) (socialLinks s)
    match u with
    | UMetaTitle v => mkSeo v (metaDescription so)
    | UMetaDescription v => mkSeo (metaTitle so) v
    end.

(** [handleUpdate] and [handleSeoUpdate]; the [success] flag they raise
    is the boolean returned (cleared by a timer two seconds later). *)
Definition handleUpdate (u : Update) (st : StoreState) : Browser (bool * StoreState) :=
  r <- dispatch (ASetSettings (apply_update (settings st) u)) st ;; st_ret (true, snd r).

Definition handleSeoUpdate (u : SeoUpdate) (st : StoreState) : Browser (bool * StoreState) :=
  r <- dispatch (ASetSettings (apply_seo_update (settings st) u)) st ;; st_ret (true, snd r).

(** The "Changes Saved" flag over time: [success], and the due times (in
    ms) of the pending [setTimeout(() => setSuccess(false), 2000)]
    callbacks, one per update, none cancelled. *)
Record Banner := mkBanner { success : bool; timers : list Z }.

Definition banner0 : Banner := mkBanner false [].

(** An update at time [now]: [setSuccess(true)], and a timer due 2000 ms
    later. *)
Definition on_update (now : Z) (b : Banner) : Banner :=
  mkBanner true (timers b ++ [(now + 2000)%Z]).

(** The clock reaches [now]: every timer due by then fires, each clearing
    the flag. *)
Definition advance (now : Z) (b : Banner) : Banner :=
  let due := List.filter (fun t => (t <=? now)%Z) (timers b) in
  mkBanner (if bool_decide (due = []) then success b else false)
    (List.filter (fun t => negb (t <=? now)%Z) (timers b)).

(** An input's [onChange] at time [now]: the handler for its object, then
    [setSuccess(true)] and the timer.  The branding inputs call
    [handleUpdate], the SEO inputs [handleSeoUpdate]. *)
Inductive Input := IBranding (u : Update) | ISeo (u : SeoUpdate).

Definition input_change (i : Input) (now : Z) (b : Banner) (st : StoreState)
    : Browser (Banner * StoreState) :=
  r <- match i with IBranding u => handleUpdate u st | ISeo u => handleSeoUpdate u st end ;;
  st_ret (on_update now b, snd r).

(** The panel: the "Changes Saved" badge while [success] holds, and the
    four controlled inputs, whose values are read from [store.settings]. *)
Record EditorView := mkEditorView {
  ev_badge : option string; ev_name : string; ev_logo : string;
  ev_metaTitle : string; ev_metaDescription : string }.

Definition editor_view (b : Banner) (s : SiteSettings) : EditorView :=
  mkEditorView (if success b then Some "Changes Saved" else None)
    (site_name s) (logo s) (metaTitle (seo s)) (metaDescription (seo s)).

End SiteEditor.

(** ** Theorems: orders and statistics *)

(** One [updatingId] serves every row: when two status changes overlap,
    the first request to settle clears it, and the row whose request is
    still in flight is enabled again. *)
Lemma status_lock_released_early (a b : string) (orders : list Order) (o : Order) :
  o ∈ orders -> order_id o = b ->
  let p := OrdersManagement.request_settles 0
             (OrdersManagement.select_change b true
                (OrdersManagement.select_change a true OrdersManagement.orders_page0)) in
  OrdersManagement.in_flight p = [b] /\
  OrdersManagement.order_row (OrdersManagement.updating p) o ∈
    OrdersManagement.rows (OrdersManagement.orders_view (OrdersManagement.updating p) orders) /\
  OrdersManagement.row_disabled (OrdersManagement.order_row (OrdersManagement.updating p) o) = false.
Proof.
  intros Hin Hb. cbn. split_and!; [done| |done].
  apply list_elem_of_In, in_map, list_elem_of_In, Hin.
Qed.

Import OrdersManagement Stats.

Lemma updatedOrders_length orderId s os : length (updatedOrders orderId s os) = length os.
Proof. apply length_map. Qed.

Lemma updatedOrders_status orderId s os :
  Forall (fun o => order_id o = orderId -> order_status o = s) (updatedOrders orderId s os).
Proof.
  apply Forall_forall. intros o (o0 & <- & _)%list_elem_of_In%in_map_iff.
  destruct (String.eqb_spec (order_id o0) orderId); [done|]. by intros.
Qed.

Lemma updatedOrders_others orderId s os :
  List.filter (fun o => negb (String.eqb (order_id o) orderId)) (updatedOrders orderId s os) =
  List.filter (fun o => negb (String.eqb (order_id o) orderId)) os.
Proof.
  unfold updatedOrders. induction os as [|o os IH]; [done|]. cbn.
  destruct (String.eqb (order_id o) orderId) eqn:E; cbn; rewrite E; cbn; by rewrite IH.
Qed.

(** [handleStatusUpdate] returns, with the store's orders updated. *)
Lemma handleStatusUpdate_orders (fetch_ok : bool) (orderId : string) (newStatus : OrderStatus)
    (st : StoreState) (w : World) :
  ls_available w = true ->
  exists w' st' body,
    handleStatusUpdate fetch_ok orderId newStatus st w = (w', Normal (body, st')) /\
    orders st' = updatedOrders orderId newStatus (orders st).
Proof.
  intros Ha. destruct (dispatch_memory (ASetOrders (updatedOrders orderId newStatus (orders st))) st w Ha)
    as [w1 Hd].
  unfold handleStatusUpdate. rewrite (st_bind_normal _ _ _ _ _ Hd).
  destruct (List.find _ (orders st)); [destruct fetch_ok|]; st_unfold; eauto.
Qed.

(** C27: [handleStatusUpdate] sets the new status on every order with the given
    id (all of them, when two orders share it), leaves the other orders as
    they were, and posts a notification exactly when such an order exists. *)
Theorem status_update_spec (fetch_ok : bool) (orderId : string) (newStatus : OrderStatus)
    (st : StoreState) (w : World) :
  ls_available w = true ->
  exists w' st' body,
    handleStatusUpdate fetch_ok orderId newStatus st w = (w', Normal (body, st')) /\
    length (orders st') = length (orders st) /\
    Forall (fun o => order_id o = orderId -> order_status o = newStatus) (orders st') /\
    List.filter (fun o => negb (String.eqb (order_id o) orderId)) (orders st') =
      List.filter (fun o => negb (String.eqb (order_id o) orderId)) (orders st) /\
    (body = None <-> Forall (fun o => order_id o <> orderId) (orders st)).
Proof.
  intros Ha. destruct (dispatch_memory (ASetOrders (updatedOrders orderId newStatus (orders st))) st w Ha)
    as [w1 Hd].
  unfold handleStatusUpdate. rewrite (st_bind_normal _ _ _ _ _ Hd). cbn [step_mem setOrders fst snd].
  assert (Forall (fun o => order_id o <> orderId) (orders st) <->
          List.find (fun o => String.eqb (order_id o) orderId) (orders st) = None) as Hnone.
  { rewrite find_none_forall. apply Forall_iff. intros o. by rewrite String.eqb_neq. }
  pose proof (updatedOrders_length orderId newStatus (orders st)).
  pose proof (updatedOrders_status orderId newStatus (orders st)).
  pose proof (updatedOrders_others orderId newStatus (orders st)).
  destruct (List.find _ (orders st)) as [o|]; [destruct fetch_ok|]; st_unfold;
    do 3 eexists; (split; [reflexivity|]); cbn; split_and!; try done;
    rewrite Hnone; split; congruence.
Qed.

(** Revenue counts every order whatever its status: a status change,
    cancellation included, leaves it unchanged. *)
Theorem revenue_status_independent (orderId : string) (s : OrderStatus) (os : list Order) :
  totalRevenue (updatedOrders orderId s os) = totalRevenue os.
Proof.
  unfold totalRevenue, updatedOrders. generalize 0%Z.
  induction os as [|o os IH]; intros acc; [done|]. cbn.
  destruct (String.eqb (order_id o) orderId); apply IH.
Qed.

(** Orders appended once four are stored do not reach the recent list. *)
Lemma overview_recent_app (ds : string -> string) (l k : list Order) :
  4 <= length l -> ov_recent (overview ds (l ++ k)) = ov_recent (overview ds l).
Proof. intros H. cbn. unfold recentOrders. by rewrite take_app_le. Qed.

Lemma totalRevenue_app (l k : list Order) :
  totalRevenue (l ++ k) = (totalRevenue l + totalRevenue k)%Z.
Proof.
  unfold totalRevenue. rewrite fold_left_app.
  generalize (fold_left (fun acc o => (acc + totalAmount o)%Z) l 0%Z) as a.
  induction k as [|o k IH]; intros a; cbn; [lia|].
  rewrite IH, (IH (0 + totalAmount o)%Z). lia.
Qed.

(** The figures of the overview depend on the orders as a multiset: a
    reordering of [store.orders] leaves the revenue and the active count
    as they were, so these functions respect permutation. *)
#[global] Instance totalRevenue_perm : Proper ((≡ₚ) ==> (=)) totalRevenue.
Proof.
  intros l k Hp. unfold totalRevenue. generalize 0%Z.
  induction Hp as [|o l k _ IH|o o' l|l1 l2 l3 _ IH1 _ IH2]; intros a; cbn; [done|apply IH| |].
  - f_equal. lia.
  - by rewrite IH1, IH2.
Qed.

#[global] Instance activeOrders_perm : Proper ((≡ₚ) ==> (=)) activeOrders.
Proof.
  intros l k Hp. unfold activeOrders. apply Permutation_length.
  induction Hp as [|o l k _ IH|o o' l|l1 l2 l3 _ IH1 _ IH2]; cbn.
  - done.
  - by case_bool_decide; [apply perm_skip|].
  - do 2 case_bool_decide; try done; [apply perm_swap|apply perm_skip..]; done.
  - by etrans.
Qed.

#[global] Instance stat_cards_perm : Proper ((≡ₚ) ==> (=)) stat_cards.
Proof. intros l k Hp. unfold stat_cards. by rewrite Hp. Qed.

(** The Active Orders figure after a status change: the orders with
    another id as they were, and every order with that id counted when the
    new status is ['active']. *)
Lemma activeOrders_updated (orderId : string) (s : OrderStatus) (os : list Order) :
  activeOrders (updatedOrders orderId s os) =
  activeOrders (List.filter (fun o => negb (String.eqb (order_id o) orderId)) os) +
  (if bool_decide (s = active)
   then length (List.filter (fun o => String.eqb (order_id o) orderId) os) else 0).
Proof.
  unfold activeOrders, updatedOrders. induction os as [|o os IH]; [by case_bool_decide|].
  cbn [map List.filter]. destruct (String.eqb (order_id o) orderId);
    cbn beta iota delta [negb set_status order_status List.filter];
    destruct (bool_decide (s = active)), (bool_decide (order_status o = active)); cbn [length]; lia.
Qed.

(** C23: A status change made in the order queue moves the overview's
    Active Orders card by exactly the orders with that id that enter or
    leave ['active'], and leaves Total Revenue where it was: revenue counts
    every order, a cancelled one included. *)
Theorem status_update_cards (fetch_ok : bool) (orderId : string) (newStatus : OrderStatus)
    (st : StoreState) (w : World) :
  ls_available w = true ->
  exists w' st' body,
    handleStatusUpdate fetch_ok orderId newStatus st w = (w', Normal (body, st')) /\
    totalRevenue (orders st') = totalRevenue (orders st) /\
    activeOrders (orders st') =
      activeOrders (List.filter (fun o => negb (String.eqb (order_id o) orderId)) (orders st)) +
      (if bool_decide (newStatus = active)
       then length (List.filter (fun o => String.eqb (order_id o) orderId) (orders st)) else 0).
Proof.
  intros Ha. destruct (handleStatusUpdate_orders fetch_ok orderId newStatus st w Ha)
    as (w' & st' & body & Hh & Ho).
  exists w', st', body. rewrite Ho. split_and!; [done|apply revenue_status_independent|apply activeOrders_updated].
Qed.

(** ** Theorems: the site editor *)

Import SiteEditor.

(** C35: An edit of the site name or logo in the site editor changes
    that field only, and survives a reload of the store (when no quota
    alert was raised). *)
Theorem site_edit_persists (C : Constants) (u : Update) (st st' : StoreState) (ok : bool)
    (w w' : World) :
  ls_available w = true -> wf_world w -> synced st (ls_items w) ->
  handleUpdate u st w = (w', Normal (ok, st')) -> alerts w' = alerts w ->
  settings st' = apply_update (settings st) u /\
  seo (settings st') = seo (settings st) /\ socialLinks (settings st') = socialLinks (settings st) /\
  useStore C w' = (w', Normal st').
Proof.
  intros Ha Hwf Hs Hu Hal.
  destruct (dispatch_memory (ASetSettings (apply_update (settings st) u)) st w Ha) as [w1 Hd].
  unfold handleUpdate in Hu. rewrite (st_bind_normal _ _ _ _ _ Hd) in Hu.
  injection Hu as Hw Hok Hst. subst w' ok st'. cbn in Hd |- *.
  split_and!; [done|by destruct u..|].
  eapply (reload_after_dispatch C (ASetSettings _)); [exact Ha|exact Hwf|exact Hs|exact Hd|exact Hal].
Qed.

(** C36: The "Changes Saved" flag disappears 2000 ms after the first of two
    quick edits, not after the last: between the second edit and its own
    timer, the flag is shown exactly until the first edit's timer fires,
    because each edit starts a timer and none is cancelled. *)
Theorem saved_flag_first_timer (t1 t2 T : Z) :
  (t1 <= t2 < t1 + 2000)%Z -> (t2 <= T < t2 + 2000)%Z ->
  SiteEditor.success (SiteEditor.advance T (SiteEditor.on_update t2 (SiteEditor.on_update t1 SiteEditor.banner0))) =
    bool_decide (T < t1 + 2000)%Z.
Proof.
  intros H1 H2. cbn.
  destruct (Z.leb_spec (t1 + 2000) T); destruct (Z.leb_spec (t2 + 2000) T); cbn; try lia.
  - rewrite bool_decide_false by lia. done.
  - rewrite bool_decide_true by lia. done.
Qed.

(** Every field of the site editor is controlled by [store.settings]: after
    an input, the panel shows the value typed in that field and the
    "Changes Saved" badge, and every other field as it was. *)
Theorem site_input_shown (i : Input) (now : Z) (b : Banner) (st : StoreState) (w : World) :
  ls_available w = true ->
  exists w' b' st', input_change i now b st w = (w', Normal (b', st')) /\
    editor_view b' (settings st') =
      let v := editor_view b (settings st) in
      match i with
      | IBranding (UName x) => mkEditorView (Some "Changes Saved") x (ev_logo v) (ev_metaTitle v) (ev_metaDescription v)
      | IBranding (ULogo x) => mkEditorView (Some "Changes Saved") (ev_name v) x (ev_metaTitle v) (ev_metaDescription v)
      | ISeo (UMetaTitle x) => mkEditorView (Some "Changes Saved") (ev_name v) (ev_logo v) x (ev_metaDescription v)
      | ISeo (UMetaDescription x) => mkEditorView (Some "Changes Saved") (ev_name v) (ev_logo v) (ev_metaTitle v) x
      end.
Proof.
  intros Ha. unfold input_change, handleUpdate, handleSeoUpdate.
  destruct i as [u|u];
    [destruct (dispatch_memory (ASetSettings (apply_update (settings st) u)) st w Ha) as [w1 Hd]
    |destruct (dispatch_memory (ASetSettings (apply_seo_update (settings st) u)) st w Ha) as [w1 Hd]];
    rewrite st_bind_assoc, (st_bind_normal _ _ _ _ _ Hd); cbn; do 3 eexists; (split; [reflexivity|]);
    by destruct u.
Qed.

(** ** Theorems: the console's navigation and order table *)

Import Console.

(** While the status of an order is being updated, the table disables the
    select of exactly the rows with that id: of every order sharing it. *)
Theorem orders_rows_disabled (orderId : string) (os : list Order) (r : OrderRow) :
  r ∈ rows (orders_view (Some orderId) os) -> (row_disabled r = true <-> row_id r = orderId).
Proof.
  cbn. intros (o & <- & _)%list_elem_of_In%in_map_iff. cbn.
  rewrite bool_decide_eq_true. split; [by intros [=]|by intros ->].
Qed.
