(* ===== verification/RichText.v ===== *)
(** * The description editor: [RichTextEditor] of [AdminDashboard.tsx]

    A [contentEditable] div whose [innerHTML] is the browser's state, kept
    in step with the gig form's [description] in two directions: every
    input, blur and toolbar command reports [innerHTML] through
    [onChange], which is [setFormData({...formData, description: val})];
    and an effect with dependencies [[value]] writes [value] into the div
    when it differs from [innerHTML].  The editor is mounted while the
    modal is open on the Overview tab, and unmounted (its ref cleared)
    otherwise.

    [document.execCommand] edits the DOM under the user's selection; it is
    the Section variable [execCommand], a function of the command and the
    current [innerHTML].  The main theorems: from the closed modal, every
    sequence of editor and modal events leaves the mounted editor showing
    the form's description; the user's own edits never trigger the
    effect's rewrite (which would move the caret). *)

From S2P Require Import Prelude Json Types Storage Store JsString Persistence Admin.

Import ServicesManagement.

Module RichText.

(** The mounted editor: the div's [innerHTML], the dependency value the
    effect last ran with, and how many times the effect assigned
    [innerHTML]. *)
Record Editor := mkEditor { ed_html : string; ed_deps : string; ed_writes : nat }.

(** The toolbar: each button's [title] and the command it runs. *)
Definition toolbar : list (string * string) :=
  [("Bold", "bold"); ("Italic", "italic");
   ("Bullet List", "insertUnorderedList"); ("Numbered List", "insertOrderedList")].

(** The editor is rendered inside [activeTab === 'overview'] of the open
    modal. *)
Definition visible (m : Modal) : bool :=
  isModalOpen m && bool_decide (activeTab m = overview).

(** The effect's body on a mounted div: [if (innerHTML !== value)
    innerHTML = value || ''] ([value] is a string, so [value || ''] is
    [value]). *)
Definition sync_effect (value : string) (ed : Editor) : Editor :=
  if String.eqb (ed_html ed) value then mkEditor (ed_html ed) value (ed_writes ed)
  else mkEditor value value (S (ed_writes ed)).

(** The commit after a render with the form [m]: an editor that appears is
    mounted on an empty div and runs its effect; a mounted one runs it only
    when [value] changed since its last run; a hidden one is unmounted. *)
Definition commit_editor (m : Modal) (e : option Editor) : option Editor :=
  let value := fd_description (formData m) in
  if visible m then
    match e with
    | None => Some (sync_effect value (mkEditor "" "" 0))
    | Some ed => if String.eqb (ed_deps ed) value then Some ed else Some (sync_effect value ed)
    end
  else None.

(** [onChange(val)] followed by the re-render it causes. *)
Definition onChange (val : string) (m : Modal) (e : option Editor) : Modal * option Editor :=
  let m' := editField (FDescription val) m in (m', commit_editor m' e).

Section Editor.

(** [document.execCommand(command, false)] on the div's content. *)
Variable execCommand : string -> string -> string.

Inductive editor_event :=
| EdInput (html : string)
| EdCommand (command : string)
| EdBlur
| EdModal (e : modal_event).

(** One event on the page state: the gig modal and its editor.  DOM events
    reach the editor only while it is mounted; [onInput] carries the div's
    content after the user's edit; [handleCommand] runs the command and
    reports [editorRef.current.innerHTML]. *)
Definition editor_step (ev : editor_event) (s : Modal * option Editor) : Modal * option Editor :=
  let '(m, e) := s in
  match ev, e with
  | EdInput html, Some ed => onChange html m (Some (mkEditor html (ed_deps ed) (ed_writes ed)))
  | EdCommand c, Some ed =>
      let html := execCommand c (ed_html ed) in
      onChange html m (Some (mkEditor html (ed_deps ed) (ed_writes ed)))
  | EdBlur, Some ed => onChange (ed_html ed) m e
  | EdModal me, _ => let m' := modal_step me m in (m', commit_editor m' e)
  | _, None => s
  end.

Definition run_editor (evs : list editor_event) (s : Modal * option Editor) : Modal * option Editor :=
  fold_left (fun s ev => editor_step ev s) evs s.

End Editor.

(** The page is in sync: the editor is mounted exactly when visible, and
    then its div shows the form's description, which is also the value its
    effect last ran with. *)
Definition in_sync (s : Modal * option Editor) : Prop :=
  match s.2 with
  | Some ed => visible s.1 = true /\ ed_html ed = fd_description (formData s.1) /\
               ed_deps ed = fd_description (formData s.1)
  | None => visible s.1 = false
  end.

Definition writes (e : option Editor) : nat := from_option ed_writes 0 e.

(** ** Lemmas *)

Lemma sync_effect_synced (value : string) (ed : Editor) :
  ed_html (sync_effect value ed) = value /\ ed_deps (sync_effect value ed) = value.
Proof. unfold sync_effect. by destruct (String.eqb_spec (ed_html ed) value). Qed.

(** A commit establishes the sync, given that a mounted editor whose
    dependencies did not change already shows them. *)
Lemma commit_editor_in_sync (m : Modal) (e : option Editor) :
  (forall ed, e = Some ed -> ed_deps ed = fd_description (formData m) ->
     ed_html ed = fd_description (formData m)) ->
  in_sync (m, commit_editor m e).
Proof.
  intros He. unfold commit_editor, in_sync. cbn.
  destruct (visible m) eqn:Hv; [|done].
  destruct e as [ed|]; [destruct (String.eqb_spec (ed_deps ed) (fd_description (formData m))) as [Hd|Hd]|].
  - cbn. split_and!; auto.
  - cbn. pose proof (sync_effect_synced (fd_description (formData m)) ed). naive_solver.
  - cbn. pose proof (sync_effect_synced (fd_description (formData m)) (mkEditor "" "" 0)).
    naive_solver.
Qed.

Lemma editField_description (v : string) (m : Modal) :
  fd_description (formData (editField (FDescription v) m)) = v.
Proof. reflexivity. Qed.

Lemma onChange_in_sync (val : string) (m : Modal) (ed : Editor) :
  ed_html ed = val -> in_sync (onChange val m (Some ed)).
Proof. intros Hh. apply commit_editor_in_sync. by intros ? [= <-]. Qed.

Lemma editor_step_in_sync (exec : string -> string -> string) (ev : editor_event)
    (s : Modal * option Editor) :
  in_sync s -> in_sync (editor_step exec ev s).
Proof.
  destruct s as [m [ed|]]; unfold in_sync; cbn; intros Hs;
    destruct ev as [html|c| |me]; cbn; try (apply onChange_in_sync; done); try done.
  - apply commit_editor_in_sync. intros ed0 E Hd0. injection E as ->. destruct Hs as (_ & Hh & Hd). congruence.
  - apply commit_editor_in_sync. done.
Qed.

(** A change the user made in the div reaches the form, and the effect
    that the re-render schedules finds nothing to write. *)
Lemma onChange_no_write (val : string) (m : Modal) (ed : Editor) :
  ed_html ed = val -> visible m = true ->
  (onChange val m (Some ed)).2 = Some (mkEditor val val (ed_writes ed)) \/
  (onChange val m (Some ed)).2 = Some ed /\ ed_deps ed = val.
Proof.
  intros Hh Hv. unfold onChange, commit_editor. cbn -[visible].
  assert (visible (editField (FDescription val) m) = true) as -> by (by destruct m).
  destruct (String.eqb_spec (ed_deps ed) val) as [Hd|Hd]; [by right|left].
  unfold sync_effect. rewrite Hh, String.eqb_refl. by destruct ed; cbn in *; subst.
Qed.

Lemma run_editor_in_sync (exec : string -> string -> string) (evs : list editor_event)
    (s : Modal * option Editor) :
  in_sync s -> in_sync (run_editor exec evs s).
Proof.
  revert s. induction evs as [|ev evs IH]; intros s Hs; [done|].
  apply IH, editor_step_in_sync, Hs.
Qed.

(** ** Theorems *)

(** C30: From the closed modal, after any sequence of typing, blurs, toolbar
    commands and gig-editor events, the description editor is mounted
    exactly when the modal is open on the Overview tab, and its div then
    shows the form's [description]: what the admin sees is what a save
    writes. *)
Theorem editor_shows_description (execCommand : string -> string -> string)
    (evs : list editor_event) :
  in_sync (run_editor execCommand evs (initial_modal, None)).
Proof. by apply run_editor_in_sync. Qed.

(** C31: An edit made in the div itself (typing, a toolbar command, a blur)
    never makes the effect assign [innerHTML], so the caret is not reset,
    and the page stays in sync. *)
Theorem dom_edit_not_rewritten (execCommand : string -> string -> string)
    (ev : editor_event) (s : Modal * option Editor) :
  in_sync s -> (forall me, ev <> EdModal me) ->
  writes (editor_step execCommand ev s).2 = writes s.2 /\
  in_sync (editor_step execCommand ev s).
Proof.
  intros Hs Hev. split; [|by apply editor_step_in_sync].
  destruct s as [m [ed|]]; [|destruct ev as [| | |me]; [done..|by destruct (Hev me)]].
  unfold in_sync in Hs. cbn in Hs. destruct Hs as (Hv & Hh & Hd).
  destruct ev as [html|c| |me]; [| | |by destruct (Hev me)]; cbn -[onChange].
  - by destruct (onChange_no_write html m (mkEditor html (ed_deps ed) (ed_writes ed)) eq_refl Hv)
      as [->|[-> _]].
  - by destruct (onChange_no_write (execCommand c (ed_html ed)) m
                   (mkEditor (execCommand c (ed_html ed)) (ed_deps ed) (ed_writes ed)) eq_refl Hv)
      as [->|[-> _]].
  - by destruct (onChange_no_write (ed_html ed) m ed eq_refl Hv) as [->|[-> _]].
Qed.

End RichText.
