(* ===== verification/ServiceDetail.v ===== *)
(** * The service page: [src/pages/ServiceDetail.tsx]

    [ServiceDetail] looks the route's [id] up in [store.services] and shows
    the gig: the breadcrumb, the title, a gallery stage with the selected
    medium, a strip of thumbnails that select it ([setActiveMediaIndex]),
    the overview text, the fixed advantages, the deliverables, the pricing
    sidebar with the revision count (99 meaning unlimited), the link to
    the checkout, and the PDF downloads.  The only state is
    [activeMediaIndex], set by the thumbnails; the page is a function of
    the store's services, the route and that index ([Detail.render]).
    The theorems say which medium the stage shows for a clicked thumbnail
    and that the stage never shows anything outside the gig's media. *)

From S2P Require Import Prelude Json Types Storage Store JsString.

Module Detail.

Definition find_service (id : string) (services : list Service) : option Service :=
  List.find (fun s => String.eqb (service_id s) id) services.

Definition isVideo (url : string) : bool :=
  startsWith url "data:video" ||
  endsWith (toLowerCase url) ".mp4" ||
  endsWith (toLowerCase url) ".webm" ||
  endsWith (toLowerCase url) ".mov".

Definition allMedia (s : Service) : list string := images s ++ videos s.

(** [allMedia[activeMediaIndex] || allMedia[0]]: an empty URL is falsy. *)
Definition activeMediaUrl (s : Service) (activeMediaIndex : nat) : option string :=
  match allMedia s !! activeMediaIndex with
  | Some u => if String.eqb u "" then head (allMedia s) else Some u
  | None => head (allMedia s)
  end.

Definition activeIsVideo (s : Service) (activeMediaIndex : nat) : bool :=
  match activeMediaUrl s activeMediaIndex with
  | Some u => if String.eqb u "" then false else isVideo u
  | None => false
  end.

(** A button of the thumbnail strip: its URL, whether it previews as a
    video, and whether it is highlighted ([activeMediaIndex === idx]). *)
Record Thumb := mkThumb { th_url : string; th_video : bool; th_active : bool }.

(** The strip is rendered when [allMedia.length > 1]. *)
Definition thumbnails (s : Service) (activeMediaIndex : nat) : option (list Thumb) :=
  if bool_decide (1 < length (allMedia s)) then
    Some (imap (fun idx url => mkThumb url (isVideo url) (bool_decide (activeMediaIndex = idx)))
            (allMedia s))
  else None.

(** The fixed "Expert Advantage" list. *)
Definition perks : list string :=
  ["Direct Artist Communication"; "Fast 48h Turnaround"; "Premium Visual Quality";
   "Tailored Strategy"].

(** [service.revisions === 99 ? word : service.revisions]: 99 stands for
    unlimited revisions; the sentence uses "unlimited", the table
    "Unlimited". *)
Definition revisions_text (unlimited : string) (r : Z) : string :=
  if (r =? 99)%Z then unlimited else string_of_Z r.

(** The "Portfolio Docs" block, rendered when [pdfs.length > 0]: each link's
    [href] and its [download] name [asset_{idx+1}.pdf]. *)
Definition docs (s : Service) : option (list (string * string)) :=
  if bool_decide (0 < length (pdfs s)) then
    Some (imap (fun idx pdf => (pdf, "asset_" +:+ string_of_Z (Z.of_nat (S idx)) +:+ ".pdf")) (pdfs s))
  else None.

(** What the page shows for a service.  [overview_text] is the text
    content of the "Gig Overview" block: [{service.description}] is a
    string child, which React renders as a text node, so markup in it is
    shown as characters. *)
Record View := mkView {
  crumb : string; heading : string; stage : option string; stage_video : bool;
  thumbs : option (list Thumb); overview_text : string; advantages : list string;
  deliverables : list string; price_tag : string; revisions_note : string;
  revisions_value : string; delivery : string; checkout_link : string;
  documents : option (list (string * string)) }.

Definition view (s : Service) (activeMediaIndex : nat) : View :=
  mkView (category s) (title s) (activeMediaUrl s activeMediaIndex)
    (activeIsVideo s activeMediaIndex) (thumbnails s activeMediaIndex)
    (description s) perks (features s) ("$" +:+ string_of_Z (price s))
    (revisions_text "unlimited" (revisions s)) (revisions_text "Unlimited" (revisions s))
    (string_of_Z (deliveryDays s) +:+ " Days") ("/checkout/" +:+ service_id s) (docs s).

Inductive Screen := NotFound | Found (v : View).

(** The page for the route's [id]: "Service not found" when no service has
    it. *)
Definition render (id : string) (services : list Service) (activeMediaIndex : nat) : Screen :=
  match find_service id services with
  | None => NotFound
  | Some s => Found (view s activeMediaIndex)
  end.

End Detail.

Import Detail.

(** ** Lemmas *)

Lemma thumbnails_urls (s : Service) (i : nat) (ts : list Thumb) :
  thumbnails s i = Some ts -> th_url <$> ts = allMedia s.
Proof.
  unfold thumbnails. case_bool_decide; intros; simplify_eq.
  rewrite fmap_imap. apply list_eq. intros j. rewrite list_lookup_imap.
  by destruct (allMedia s !! j).
Qed.

Lemma thumbnails_active (s : Service) (i j : nat) (ts : list Thumb) (t : Thumb) :
  thumbnails s i = Some ts -> ts !! j = Some t -> th_active t = true <-> j = i.
Proof.
  unfold thumbnails. case_bool_decide; intros; simplify_eq.
  rewrite list_lookup_imap in *. destruct (allMedia s !! j); simplify_eq/=.
  rewrite bool_decide_eq_true. lia.
Qed.

(** The gallery shows a URL of the service's media whenever it has any,
    whatever the selected index, and nothing otherwise. *)
Theorem activeMedia_in_gallery (s : Service) (activeMediaIndex : nat) :
  match activeMediaUrl s activeMediaIndex with
  | Some u => u ∈ allMedia s
  | None => allMedia s = []
  end.
Proof.
  unfold activeMediaUrl.
  assert (match head (allMedia s) with Some u => u ∈ allMedia s | None => allMedia s = [] end) as Hh
    by (destruct (allMedia s); cbn; [done|left]).
  destruct (allMedia s !! activeMediaIndex) as [u|] eqn:E; [|done].
  destruct (String.eqb u ""); [done|]. by apply list_elem_of_lookup_2 in E.
Qed.

(** Clicking the thumbnail at [idx] of a gig with more than one medium
    puts its URL on the stage, as a video exactly when [isVideo] says so,
    and highlights that thumbnail and no other. *)
Theorem thumbnail_selects (s : Service) (idx : nat) (url : string) :
  allMedia s !! idx = Some url -> url <> "" -> 1 < length (allMedia s) ->
  stage (view s idx) = Some url /\ stage_video (view s idx) = isVideo url /\
  exists ts, thumbs (view s idx) = Some ts /\ th_url <$> ts = allMedia s /\
    forall j t, ts !! j = Some t -> th_active t = true <-> j = idx.
Proof.
  intros Hu Hne Hl. cbn.
  assert (activeMediaUrl s idx = Some url) as Ha.
  { unfold activeMediaUrl. rewrite Hu. by destruct (String.eqb_spec url ""). }
  split_and!; [done|unfold activeIsVideo; rewrite Ha; by destruct (String.eqb_spec url "")|].
  destruct (thumbnails s idx) as [ts|] eqn:Ht.
  - exists ts. split_and!; [done|by eapply thumbnails_urls|]. intros j t. by apply (thumbnails_active s idx).
  - unfold thumbnails in Ht. by rewrite bool_decide_true in Ht.
Qed.
