(* ===== verification/Storefront.v ===== *)
(** * The visitor pages and the mount script

    - [src/index.tsx]: the mount sequence, with its console messages, the
      missing-root error and the render fallback ([mount]);
    - [src/components/Navbar.tsx]: the navigation links, the mobile menu
      and the logout buttons ([Navbar]);
    - [src/pages/Home.tsx] and [src/pages/Services.tsx]: which services the
      catalogue shows ([Catalogue]);
    - [src/pages/Checkout.tsx]: the order form, its synchronisation with
      the session, its inputs and validation, [handleOrder] and what each
      screen shows ([Checkout]);
    - [src/pages/Login.tsx], [src/pages/SignUp.tsx]: the redirects and
      [handleSubmit] ([Auth]);
    - [src/pages/Contact.tsx]: [handleSubmit], the inputs and the view
      ([Contact]).
    The forms run the submit cycle of [Forms].
    A [fetch] to the form relay is modelled by its outcome, [FetchResult]:
    a response with its [ok] flag, or a rejection; the request body is
    returned so that the theorems can say what was posted. *)

From S2P Require Import Prelude Json Types Storage Store JsString Persistence Session Admin AdminPanels ServiceDetail Forms.
From Stdlib Require Import QArith Qround.
Close Scope Q_scope.

Inductive FetchResult := Resolved (ok : bool) | Rejected.

(** ** [index.tsx] *)

Inductive Page := AppPage | FallbackPage.

(** [root_found]: [document.getElementById('root')] is not null;
    [render_ok]: [createRoot] and [root.render] return without throwing. *)
Definition mount (root_found render_ok : bool) : Browser Page :=
  console_log "[Prithvi Creation] Initializing Marketplace Engine..." ;;;
  if negb root_found then
    console_error "[Prithvi Creation] FATAL: Mount point #root not found in HTML." ;;;
    st_throw (JSError "Could not find root element to mount to")
  else if render_ok then
    console_log "[Prithvi Creation] App Mounted Successfully." ;;; st_ret AppPage
  else
    console_error "[Prithvi Creation] FATAL: React failed to render." ;;; st_ret FallbackPage.

(** ** [Navbar] *)

Module Navbar.

Definition navLinks : list (string * string) :=
  [("Home", "/"); ("Services", "/services"); ("About Us", "/about"); ("Contact Us", "/contact")].

Definition toggleMenu (isMobileMenuOpen : bool) : bool := negb isMobileMenuOpen.

Inductive NavAction := NavLogout | NavLink (label href : string).

(** What the bar shows: the desktop links with their highlight, the
    account actions, and the mobile menu when it is open. *)
Record NavView := mkNavView {
  desktop_links : list (string * string * bool);
  actions : list NavAction;
  mobile_menu : option (list (string * string) * list NavAction) }.

Definition account_actions (isAuthenticated : bool) : list NavAction :=
  if isAuthenticated then [NavLogout]
  else [NavLink "Visitor Login" "/login"; NavLink "Sign Up" "/signup"].

Definition view (pathname : string) (isAuthenticated isMobileMenuOpen : bool) : NavView :=
  mkNavView
    (map (fun l => (fst l, snd l, String.eqb pathname (snd l))) navLinks)
    (account_actions isAuthenticated)
    (if isMobileMenuOpen then Some (navLinks, account_actions isAuthenticated) else None).

(** A mobile link: [setIsMobileMenuOpen(false)]. *)
Definition mobileLinkClick (isMobileMenuOpen : bool) : bool := false.

(** The mobile logout button: [logout(); setIsMobileMenuOpen(false)]. *)
Definition mobileLogout (st : StoreState) : Browser (bool * StoreState) :=
  r <- dispatch ALogout st ;; st_ret (false, snd r).

End Navbar.

(** ** [Footer] *)

Module Footer.

(** [settings.socialLinks.<key>]: the entries model the object's
    properties. *)
Definition social (key : string) (s : SiteSettings) : option string :=
  snd <$> List.find (fun kv => String.eqb (fst kv) key) (socialLinks s).

(** [x && <a .../>]: an absent or empty link renders nothing. *)
Definition icon (label : string) (link : option string) : list (string * string) :=
  match link with
  | Some u => if String.eqb u "" then [] else [(label, u)]
  | None => []
  end.

Definition socials (s : SiteSettings) : list (string * string) :=
  icon "YT" (social "youtube" s) ++ icon "IG" (social "instagram" s).

Definition title (s : SiteSettings) : string := site_name s.

End Footer.

(** ** [Home] and [Services] *)

Module Catalogue.

Definition featured (services : list Service) : list Service := take 3 services.

Definition listed (services : list Service) : list Service :=
  List.filter (fun s => bool_decide (service_status s = published)) services.

(** A card of either grid: the [Link to={`/service/${service.id}`}] it
    wraps, [images[0]], the title, the category and the price. *)
Record Card := mkCard {
  card_link : string; card_image : option string; card_title : string;
  card_category : string; card_price : string }.

Definition card (s : Service) : Card :=
  mkCard ("/service/" +:+ service_id s) (head (images s)) (title s) (category s)
    ("$" +:+ string_of_Z (price s)).

(** The "Featured Services" grid of Home and the grid of Services. *)
#[global] Instance Card_eq_dec : EqDecision Card.
Proof. solve_decision. Defined.

Definition home_cards (services : list Service) : list Card := map card (featured services).
Definition services_cards (services : list Service) : list Card := map card (listed services).
End Catalogue.

(** ** [Checkout] *)

Module Checkout.

Record CheckoutForm := mkCheckoutForm { cf_name : string; cf_email : string; cf_details : string }.

Record View := mkView { isSuccess : bool; isSubmitting : bool; error : string }.

Inductive Screen := NotFound | Success | OrderForm.

(** The lazy initialiser of [formData]. *)
Definition initial_form (currentUser : option User) : CheckoutForm :=
  match currentUser with
  | Some u => mkCheckoutForm (user_name u) (user_email u) ""
  | None => mkCheckoutForm "" "" ""
  end.

(** The effect on [[currentUser]]: the session's name and email replace
    what the form holds. *)
Definition sync_form (currentUser : option User) (f : CheckoutForm) : CheckoutForm :=
  match currentUser with
  | Some u => mkCheckoutForm (user_name u) (user_email u) (cf_details f)
  | None => f
  end.

Definition screen (id : string) (services : list Service) (v : View) : Screen :=
  match Detail.find_service id services with
  | None => NotFound
  | Some _ => if isSuccess v then Success else OrderForm
  end.

Definition order_request (s : Service) (f : CheckoutForm) : json :=
  JObj [("subject", JStr ("New Order: " +:+ title s));
        ("serviceTitle", JStr (title s));
        ("servicePrice", JNum (price s));
        ("clientName", JStr (cf_name f));
        ("clientEmail", JStr (cf_email f));
        ("projectDetails", JStr (cf_details f))].

(** [Math.floor(Math.random() * 10000)], for the value [random] of
    [Math.random()], the product taken exactly. *)
Definition draw (random : Q) : Z := Qfloor (random * inject_Z 10000)%Q.

(** [random] is the value of [Math.random()], [createdAt] the ISO
    timestamp of the response's arrival. *)
Definition newOrder (s : Service) (f : CheckoutForm) (random : Q) (createdAt : string) : Order :=
  mkOrder ("ORD-" +:+ string_of_Z (draw random)) (service_id s) (cf_name f) (cf_email f) pending
    (price s) createdAt (cf_details f).

(** [handleOrder]: the order is recorded only on an [ok] response, by
    appending to [snapshot], the [store.orders] the handler closed over
    when the page rendered.  The result is the view, the request body
    posted and the store. *)
Definition handleOrder (resp : FetchResult) (r : Q) (createdAt : string) (s : Service)
    (f : CheckoutForm) (snapshot : list Order) (st : StoreState)
    : Browser (View * string * StoreState) :=
  let body := stringify (order_request s f) in
  match resp with
  | Resolved true =>
      x <- dispatch (ASetOrders (snapshot ++ [newOrder s f r createdAt])) st ;;
      st_ret (mkView true false "", body, snd x)
  | Resolved false =>
      st_ret (mkView false false "Order processing failed. Please check your network.", body, st)
  | Rejected =>
      st_ret (mkView false false "Connection error. Could not reach server.", body, st)
  end.

(** The three inputs: [setFormData({...formData, <field>: e.target.value})]. *)
Inductive Field := FName | FEmail | FDetails.

Definition set_field (fld : Field) (v : string) (f : CheckoutForm) : CheckoutForm :=
  match fld with
  | FName => mkCheckoutForm v (cf_email f) (cf_details f)
  | FEmail => mkCheckoutForm (cf_name f) v (cf_details f)
  | FDetails => mkCheckoutForm (cf_name f) (cf_email f) v
  end.

(** Constraint validation: the three fields are [required], the email
    input is [type="email"] ([email_valid] is the browser's check). *)
Definition valid (email_valid : string -> bool) (f : CheckoutForm) : bool :=
  negb (String.eqb (cf_name f) "") && negb (String.eqb (cf_email f) "") &&
  email_valid (cf_email f) && negb (String.eqb (cf_details f) "").

(** The order summary: [images[0]], title, category, package price, the
    fixed processing fee and the total. *)
Record Summary := mkSummary {
  sum_image : option string; sum_title : string; sum_category : string;
  sum_price : string; sum_processing : string; sum_total : string }.

Definition summary (s : Service) : Summary :=
  mkSummary (head (images s)) (title s) (category s) ("$" +:+ string_of_Z (price s)) "$0.00"
    ("$" +:+ string_of_Z (price s)).

(** The idle label of the pay button.  The JSX text
    [Pay & Start Project ($${service.price})] is not a template literal:
    both dollar signs are text and [{service.price}] follows them. *)
Definition pay_label (s : Service) : string :=
  "Pay & Start Project ($$" +:+ string_of_Z (price s) +:+ ")".

(** The page: not found, the success screen (its receipt line names
    [formData.email]), or the form with its banner, button and summary. *)
Inductive Rendered :=
| RNotFound
| RSuccess (receipt_to : string)
| RForm (fields : CheckoutForm) (banner : option string) (button : bool * string) (sum : Summary).

Definition render (id : string) (services : list Service) (isSuccess : bool)
    (p : Forms.FormPage CheckoutForm) : Rendered :=
  match Detail.find_service id services with
  | None => RNotFound
  | Some s =>
      if isSuccess then RSuccess (cf_email (Forms.values p))
      else RForm (Forms.values p) (Forms.banner p)
             (Forms.button (pay_label s) "Authenticating Payment..." p)
             (summary s)
  end.

(** The end of [handleOrder], run when the response arrives: the order
    with the values [f] and the [snapshot] captured at the click, then the
    page's flags set on the page as it is at that moment. *)
Definition order_settle (resp : FetchResult) (r : Q) (createdAt : string) (s : Service)
    (f : CheckoutForm) (snapshot : list Order) (p : Forms.FormPage CheckoutForm)
    (st : StoreState) : Browser (bool * Forms.FormPage CheckoutForm * StoreState) :=
  x <- handleOrder resp r createdAt s f snapshot st ;;
  let '(v, _, st') := x in st_ret (isSuccess v, Forms.settle (error v) p, st').

End Checkout.

(** ** [Login] and [SignUp] *)

Module Auth.

Definition login_redirect (isAuthenticated isAdmin : bool) : option string :=
  if isAuthenticated then Some (if isAdmin then "/admin" else "/") else None.

Definition signup_redirect (isAuthenticated : bool) : option string :=
  if isAuthenticated then Some "/" else None.

Definition login_audit (email timestamp : string) : json :=
  JObj [("subject", JStr "Login Access Attempt"); ("emailAttempted", JStr email);
        ("timestamp", JStr timestamp)].

Definition signup_audit (name email timestamp : string) : json :=
  JObj [("subject", JStr "New User Registration Attempt"); ("userName", JStr name);
        ("userEmail", JStr email); ("timestamp", JStr timestamp)].

(** [Login.handleSubmit]: the audit post, then [login] in the [try] when
    the post settles and in the [catch] when it is rejected.  Result: the
    body posted, the error shown and the store. *)
Definition login_handleSubmit (resp : FetchResult) (timestamp email password : string)
    (st : StoreState) : Browser (string * string * StoreState) :=
  r <- dispatch (ALogin email password) st ;;
  let msg := match resp with
             | Rejected => "Invalid email or password."
             | Resolved _ => "Invalid email or password. Please try again."
             end in
  st_ret (stringify (login_audit email timestamp), if fst r then "" else msg, snd r).

(** [SignUp.handleSubmit], the same shape around [signup]; [now] is the
    [Date.now()] that [signup] reads. *)
Definition signup_handleSubmit (resp : FetchResult) (timestamp name email password : string)
    (now : Z) (st : StoreState) : Browser (string * string * StoreState) :=
  r <- dispatch (ASignup name email password now) st ;;
  let msg := match resp with
             | Rejected => "Registration failed. Please try again."
             | Resolved _ => "Email already exists. Try logging in."
             end in
  st_ret (stringify (signup_audit name email timestamp), if fst r then "" else msg, snd r).

Record LoginForm := mkLoginForm { lf_email : string; lf_password : string }.
Record SignupForm := mkSignupForm { sf_name : string; sf_email : string; sf_password : string }.

(** Constraint validation of the login form: both inputs [required], the
    email [type="email"]. *)
Definition login_valid (email_valid : string -> bool) (f : LoginForm) : bool :=
  negb (String.eqb (lf_email f) "") && email_valid (lf_email f) &&
  negb (String.eqb (lf_password f) "").

(** The sign-up form adds [minLength={6}] on the password. *)
Definition signup_valid (email_valid : string -> bool) (f : SignupForm) : bool :=
  negb (String.eqb (sf_name f) "") && negb (String.eqb (sf_email f) "") &&
  email_valid (sf_email f) && negb (String.eqb (sf_password f) "") &&
  (6 <=? String.length (sf_password f)).

Definition login_button (p : Forms.FormPage LoginForm) : bool * string :=
  Forms.button "Sign In" "Verifying..." p.

Definition signup_button (p : Forms.FormPage SignupForm) : bool * string :=
  Forms.button "Create Account" "Creating Account..." p.

(** The sign-up page's submit and, when the audit post settles, the
    handler on the values captured at the click. *)
Definition signup_page (email_valid : string -> bool) (resp : FetchResult) (timestamp : string)
    (now : Z) (p : Forms.FormPage SignupForm) (st : StoreState)
    : Browser (option (Forms.FormPage SignupForm * StoreState)) :=
  match Forms.submit (signup_valid email_valid) p with
  | None => st_ret None
  | Some (p1, f) =>
      x <- signup_handleSubmit resp timestamp (sf_name f) (sf_email f) (sf_password f) now st ;;
      let '(_, msg, st') := x in st_ret (Some (Forms.settle msg p1, st'))
  end.

End Auth.

(** ** [Contact] *)

Module Contact.

Record ContactForm := mkContactForm { ct_name : string; ct_email : string; ct_details : string }.

Record ContactView := mkContactView { submitted : bool; ct_isSubmitting : bool; ct_error : string }.

(** [{ subject, ...formData }] *)
Definition contact_request (f : ContactForm) : json :=
  JObj [("subject", JStr "New Contact Inquiry - Prithvi Creation");
        ("name", JStr (ct_name f)); ("email", JStr (ct_email f));
        ("details", JStr (ct_details f))].

Definition handleSubmit (resp : FetchResult) (f : ContactForm) (v : ContactView)
    : ContactView * string :=
  let body := stringify (contact_request f) in
  match resp with
  | Resolved true => (mkContactView true false "", body)
  | Resolved false =>
      (mkContactView (submitted v) false "Something went wrong. Please try again later.", body)
  | Rejected =>
      (mkContactView (submitted v) false "Connection error. Please check your internet.", body)
  end.

Inductive Field := CName | CEmail | CDetails.

Definition set_field (fld : Field) (v : string) (f : ContactForm) : ContactForm :=
  match fld with
  | CName => mkContactForm v (ct_email f) (ct_details f)
  | CEmail => mkContactForm (ct_name f) v (ct_details f)
  | CDetails => mkContactForm (ct_name f) (ct_email f) v
  end.

Definition valid (email_valid : string -> bool) (f : ContactForm) : bool :=
  negb (String.eqb (ct_name f) "") && negb (String.eqb (ct_email f) "") &&
  email_valid (ct_email f) && negb (String.eqb (ct_details f) "").

(** The thank-you block names [formData.name] and [formData.email]; the
    form shows its banner and the button. *)
Inductive Rendered :=
| CThanks (name email : string)
| CForm (fields : ContactForm) (banner : option string) (button : bool * string).

Definition render (submitted : bool) (p : Forms.FormPage ContactForm) : Rendered :=
  if submitted then CThanks (ct_name (Forms.values p)) (ct_email (Forms.values p))
  else CForm (Forms.values p) (Forms.banner p) (Forms.button "Send Inquiry" "Sending..." p).

End Contact.

(** ** Theorems: mounting *)

(** The three ways [index.tsx] ends: the missing root throws after logging
    the fatal error, a render that throws shows the fallback after logging,
    otherwise the app is mounted.  Storage is not touched by the script. *)
Theorem mount_spec (root_found render_ok : bool) (w : World) :
  ls_items (run_state (mount root_found render_ok) w) = ls_items w /\
  console (run_state (mount root_found render_ok) w) =
    console w ++ Log "[Prithvi Creation] Initializing Marketplace Engine..." ::
      (if root_found then
         (if render_ok then [Log "[Prithvi Creation] App Mounted Successfully."]
          else [Error "[Prithvi Creation] FATAL: React failed to render."])
       else [Error "[Prithvi Creation] FATAL: Mount point #root not found in HTML."]) /\
  run_outcome (mount root_found render_ok) w =
    (if root_found then Normal (if render_ok then AppPage else FallbackPage)
     else Thrown (JSError "Could not find root element to mount to")).
Proof.
  destruct root_found, render_ok; st_unfold; cbn; split_and!; try done; by rewrite <- app_assoc.
Qed.

(** ** Theorems: checkout *)

Import Checkout.

Lemma handleOrder_ok (r : Q) (ca : string) (s : Service) (f : CheckoutForm)
    (snapshot : list Order) (st : StoreState) (w : World) :
  ls_available w = true ->
  exists w', dispatch (ASetOrders (snapshot ++ [newOrder s f r ca])) st w =
               (w', Normal (true, mkStore (users st) (services st) (snapshot ++ [newOrder s f r ca])
                                          (settings st) (currentUser st))) /\
    handleOrder (Resolved true) r ca s f snapshot st w =
      (w', Normal (mkView true false "", stringify (order_request s f),
                   mkStore (users st) (services st) (snapshot ++ [newOrder s f r ca])
                           (settings st) (currentUser st))).
Proof.
  intros Ha. destruct (dispatch_memory (ASetOrders (snapshot ++ [newOrder s f r ca])) st w Ha)
    as [w1 Hd]. exists w1. split; [done|].
  unfold handleOrder. by rewrite (st_bind_normal _ _ _ _ _ Hd).
Qed.

(** C22: The gig editor's price input ([type="number"], no [min]) accepts a
    negative [Number(e.target.value)]: a new gig saved with it is
    published at that price, a checkout of it records an order of that
    negative amount, and the overview's revenue goes down. *)
Theorem negative_price_published (v : Z) (m : ServicesManagement.Modal) (rand : string) (now : Z)
    (services : list Service) (f : CheckoutForm) (r : Q) (ca : string) (os : list Order) :
  (v < 0)%Z -> ServicesManagement.editingId m = None ->
  let m' := ServicesManagement.editField (ServicesManagement.FPrice v) m in
  exists s, s ∈ ServicesManagement.saved_services (Some published) rand now m' services /\
    service_status s = published /\ price s = v /\
    Catalogue.card s = Catalogue.mkCard ("/service/" +:+ service_id s) (head (images s)) (title s)
                         (category s) ("$" +:+ string_of_Z v) /\
    totalAmount (newOrder s f r ca) = v /\
    (Stats.totalRevenue (os ++ [newOrder s f r ca]) < Stats.totalRevenue os)%Z.
Proof.
  intros Hv Hid m'. unfold ServicesManagement.saved_services. subst m'. cbn. rewrite Hid.
  eexists. split; [apply elem_of_app; right; by left|].
  cbn. split_and!; try done. rewrite totalRevenue_app. cbn. lia.
Qed.

(** C16: An accepted order is appended to the orders and, when no quota alert
    was raised, survives a reload of the store. *)
Theorem checkout_order_persists (C : Constants) (r : Q) (ca : string) (s : Service)
    (f : CheckoutForm) (st st' : StoreState) (v : View) (body : string) (w w' : World) :
  ls_available w = true -> wf_world w -> synced st (ls_items w) ->
  handleOrder (Resolved true) r ca s f (orders st) st w = (w', Normal (v, body, st')) ->
  alerts w' = alerts w ->
  orders st' = orders st ++ [newOrder s f r ca] /\ isSuccess v = true /\
  order_status (newOrder s f r ca) = pending /\ totalAmount (newOrder s f r ca) = price s /\
  useStore C w' = (w', Normal st').
Proof.
  intros Ha Hwf Hs Hh Hal. destruct (handleOrder_ok r ca s f (orders st) st w Ha) as (w1 & Hd & Hh1).
  rewrite Hh1 in Hh. injection Hh as <- <- <- <-. cbn. split_and!; try done.
  eapply (reload_after_dispatch C (ASetOrders _)); [exact Ha|exact Hwf|exact Hs|exact Hd|exact Hal].
Qed.

(** C21: The admin's "Recent Orders" list never shows an order placed once
    four orders are stored: checkout appends the order to [orders] and the
    overview lists [orders.slice(0, 4)], the four oldest.  The revenue
    card does count it. *)
Theorem checkout_not_recent (ds : string -> string) (r : Q) (ca : string) (s : Service)
    (f : CheckoutForm) (st st' : StoreState) (v : View) (body : string) (w w' : World) :
  ls_available w = true -> 4 <= length (orders st) ->
  handleOrder (Resolved true) r ca s f (orders st) st w = (w', Normal (v, body, st')) ->
  Stats.ov_recent (Stats.overview ds (orders st')) = Stats.ov_recent (Stats.overview ds (orders st)) /\
  Stats.totalRevenue (orders st') = (Stats.totalRevenue (orders st) + price s)%Z.
Proof.
  intros Ha H4 Hh. destruct (handleOrder_ok r ca s f (orders st) st w Ha) as (w1 & _ & Hh1).
  rewrite Hh1 in Hh. injection Hh as <- <- <- <-. cbn [orders].
  split; [by apply overview_recent_app|].
  rewrite totalRevenue_app. cbn. lia.
Qed.

(** C17: An order is recorded only when the relay answers [ok]: after a
    rejected request or a non-[ok] response, storage and the store are as
    they were and an error is shown. *)
Theorem checkout_failure_drops_order (resp : FetchResult) (r : Q) (ca : string) (s : Service)
    (f : CheckoutForm) (snapshot : list Order) (st : StoreState) (w : World) :
  resp <> Resolved true ->
  exists msg, msg <> "" /\
    handleOrder resp r ca s f snapshot st w =
      (w, Normal (mkView false false msg, stringify (order_request s f), st)).
Proof.
  intros Hr. destruct resp as [[]|]; [done| |]; eexists; split; try reflexivity; discriminate.
Qed.

(** C18: The order list written is the snapshot the page rendered with: an
    order added to the store after that render, and not in the snapshot,
    is lost. *)
Theorem checkout_stale_snapshot (r : Q) (ca : string) (s : Service) (f : CheckoutForm)
    (snapshot : list Order) (st st' : StoreState) (v : View) (body : string) (w w' : World)
    (o : Order) :
  ls_available w = true ->
  handleOrder (Resolved true) r ca s f snapshot st w = (w', Normal (v, body, st')) ->
  o ∈ orders st -> o ∉ snapshot -> o <> newOrder s f r ca -> o ∉ orders st'.
Proof.
  intros Ha Hh _ Hs Hn. destruct (handleOrder_ok r ca s f snapshot st w Ha) as (w1 & _ & Hh1).
  rewrite Hh1 in Hh. injection Hh as _ _ _ <-. cbn.
  rewrite elem_of_app, list_elem_of_singleton. tauto.
Qed.

(** [Math.random()] lies in [0, 1), so a draw is one of 10000 numbers. *)
Lemma draw_range (random : Q) : (0 <= random < 1)%Q -> (0 <= draw random < 10000)%Z.
Proof.
  intros [H0 H1]. unfold draw. split.
  - change 0%Z with (Qfloor 0). apply Qfloor_resp_le.
    rewrite <- (Qmult_0_l (inject_Z 10000)). apply Qmult_le_compat_r; [done|discriminate].
  - rewrite Zlt_Qlt. eapply Qle_lt_trans; [apply Qfloor_le|].
    rewrite <- (Qmult_1_l (inject_Z 10000)) at 2. apply Qmult_lt_compat_r; [reflexivity|done].
Qed.

(** C20: An order's id is ["ORD-"] followed by
    [Math.floor(Math.random() * 10000)]: ids are distinct exactly when the
    draws are, and since [Math.random()] lies in [0, 1), among more than
    10000 orders two share an id. *)
Theorem order_ids_not_unique (s : Service) (f : CheckoutForm) (ca : string) (rs : list Q) :
  (NoDup (map (fun r => order_id (newOrder s f r ca)) rs) <-> NoDup (map draw rs)) /\
  (Forall (fun r => 0 <= r < 1)%Q rs -> (10000 < Z.of_nat (length rs))%Z ->
   ~ NoDup (map (fun r => order_id (newOrder s f r ca)) rs)).
Proof.
  assert (forall z1 z2, "ORD-" +:+ string_of_Z z1 = "ORD-" +:+ string_of_Z z2 -> z1 = z2)
    as Hinj by (intros z1 z2 H; by apply string_of_Z_inj, (string_app_inj_l "ORD-")).
  assert (NoDup (map (fun r => order_id (newOrder s f r ca)) rs) <-> NoDup (map draw rs)) as Hiff.
  { replace (map (fun r => order_id (newOrder s f r ca)) rs)
      with (map (fun z => "ORD-" +:+ string_of_Z z) (map draw rs)) by (by rewrite map_map).
    rewrite !NoDup_ListNoDup. split; [apply NoDup_map_inv|].
    intros H. apply Finite.Injective_map_NoDup; [intros ??; apply Hinj|done]. }
  split; [done|]. intros Hb Hl Hnd%Hiff%NoDup_ListNoDup.
  assert (incl (map draw rs) (map Z.of_nat (seq 0 (Z.to_nat 10000)))) as Hinc.
  { intros z (r & <- & Hr)%in_map_iff. rewrite Forall_forall in Hb.
    destruct (draw_range r (Hb r (proj2 (list_elem_of_In _ _) Hr))).
    apply in_map_iff. exists (Z.to_nat (draw r)). split; [lia|]. apply in_seq. lia. }
  pose proof (NoDup_incl_length Hnd Hinc) as Hle.
  rewrite !length_map, length_seq in Hle. lia.
Qed.

(** C19: An order placed from the checkout form records the values of the
    click, whatever is typed while the request is in flight; the success
    screen then names the email the form holds when the response arrives,
    so an email edited in between is shown on the receipt line although the
    order (and the relay's copy) carry the old one. *)
Theorem checkout_receipt_in_flight (email_valid : string -> bool) (s : Service) (id : string)
    (p p1 : Forms.FormPage CheckoutForm) (f : CheckoutForm)
    (us : list (CheckoutForm -> CheckoutForm)) (r : Q) (ca : string) (st : StoreState) (w : World) :
  ls_available w = true -> Detail.find_service id (services st) = Some s ->
  Forms.submit (valid email_valid) p = Some (p1, f) ->
  exists w' st',
    order_settle (Resolved true) r ca s f (orders st) (Forms.inputs us p1) st w =
      (w', Normal (true, Forms.settle "" (Forms.inputs us p1), st')) /\
    orders st' = orders st ++ [newOrder s (Forms.values p) r ca] /\
    clientEmail (newOrder s (Forms.values p) r ca) = cf_email (Forms.values p) /\
    render id (services st') true (Forms.settle "" (Forms.inputs us p1)) =
      RSuccess (cf_email (fold_left (fun f u => u f) us (Forms.values p))).
Proof.
  intros Ha Hf Hs. destruct (Forms.submit_some _ _ _ _ Hs) as (_ & _ & -> & ->).
  destruct (handleOrder_ok r ca s (Forms.values p) (orders st) st w Ha) as (w1 & _ & Hh).
  exists w1. eexists. unfold order_settle. rewrite (st_bind_normal _ _ _ _ _ Hh).
  split_and!; [reflexivity..|]. unfold render. cbn [services]. rewrite Hf. cbn.
  by rewrite Forms.inputs_values.
Qed.

(** The pay button of the order form shows the price after two dollar
    signs while idle, and is disabled with "Authenticating Payment..."
    from the click until the response settles. *)
Lemma pay_button_states (email_valid : string -> bool) (id : string) (services : list Service)
    (s : Service) (p p1 : Forms.FormPage CheckoutForm) (f : CheckoutForm) :
  Detail.find_service id services = Some s -> Forms.isSubmitting p = false ->
  Forms.submit (valid email_valid) p = Some (p1, f) ->
  (exists b, render id services false p = RForm (Forms.values p) b
               (false, "Pay & Start Project ($$" +:+ string_of_Z (price s) +:+ ")") (summary s)) /\
  render id services false p1 = RForm (Forms.values p) None (true, "Authenticating Payment...") (summary s).
Proof.
  intros Hf Hp Hs. destruct (Forms.submit_some _ _ _ _ Hs) as (_ & _ & _ & ->).
  unfold render. rewrite Hf. split; [|done].
  eexists. unfold Forms.button. by rewrite Hp.
Qed.

(** ** Theorems: login and sign-up pages *)

Import Auth.

(** Login with matching credentials signs the user in, whatever became of
    the audit post, shows no error, and the page then redirects by role. *)
Theorem login_submit_success (resp : FetchResult) (ts e p : string) (u : User)
    (st : StoreState) (w : World) :
  ls_available w = true -> List.find (credentials_are e p) (users st) = Some u ->
  exists w' st',
    login_handleSubmit resp ts e p st w = (w', Normal (stringify (login_audit e ts), "", st')) /\
    currentUser st' = Some u /\ users st' = users st /\
    login_redirect (isAuthenticated st') (isAdmin st') =
      Some (if bool_decide (user_role u = admin) then "/admin" else "/").
Proof.
  intros Ha Hf. destruct (dispatch_memory (ALogin e p) st w Ha) as [w1 Hd].
  cbn [step_mem] in Hd. rewrite (login_found _ _ _ _ Hf) in Hd. cbn in Hd.
  do 2 eexists. unfold login_handleSubmit. rewrite (st_bind_normal _ _ _ _ _ Hd).
  split; [reflexivity|]. cbn. split_and!; try done.
Qed.

(** Failed credentials leave storage and the store as they were and show
    the error of the branch the audit post took. *)
Theorem login_submit_failure (resp : FetchResult) (ts e p : string) (st : StoreState) (w : World) :
  List.find (credentials_are e p) (users st) = None ->
  login_handleSubmit resp ts e p st w =
    (w, Normal (stringify (login_audit e ts),
                match resp with
                | Rejected => "Invalid email or password."
                | Resolved _ => "Invalid email or password. Please try again."
                end, st)).
Proof.
  intros Hf. pose proof (login_not_found st e p Hf) as Hl.
  unfold login_handleSubmit.
  rewrite (st_bind_normal _ _ _ _ _ (dispatch_clean (ALogin e p) st w ltac:(cbn [step_mem]; by rewrite Hl))).
  cbn [step_mem]. by rewrite Hl.
Qed.

(** Signing up with an email already registered fails without writing,
    and the page says so. *)
Theorem signup_submit_duplicate (resp : FetchResult) (ts n e p : string) (now : Z)
    (st : StoreState) (w : World) (u : User) :
  u ∈ users st -> user_email u = e ->
  signup_handleSubmit resp ts n e p now st w =
    (w, Normal (stringify (signup_audit n e ts),
                match resp with
                | Rejected => "Registration failed. Please try again."
                | Resolved _ => "Email already exists. Try logging in."
                end, st)).
Proof.
  intros Hin He. pose proof (signup_taken st n e p now u Hin He) as Hs.
  unfold signup_handleSubmit.
  rewrite (st_bind_normal _ _ _ _ _
             (dispatch_clean (ASignup n e p now) st w ltac:(cbn [step_mem]; by rewrite Hs))).
  cbn [step_mem]. by rewrite Hs.
Qed.

(** Signing up with a fresh email appends one visitor, signs it in and
    redirects home; the result does not depend on the audit post. *)
Theorem signup_submit_fresh (resp : FetchResult) (ts n e p : string) (now : Z)
    (st : StoreState) (w : World) :
  ls_available w = true -> Forall (fun u => user_email u <> e) (users st) ->
  exists w' st',
    signup_handleSubmit resp ts n e p now st w = (w', Normal (stringify (signup_audit n e ts), "", st')) /\
    users st' = users st ++ [mkUser (string_of_Z now) n e p visitor] /\
    isAdmin st' = false /\ signup_redirect (isAuthenticated st') = Some "/".
Proof.
  intros Ha Hf. destruct (dispatch_memory (ASignup n e p now) st w Ha) as [w1 Hd].
  cbn [step_mem] in Hd. rewrite (signup_fresh _ _ _ _ _ Hf) in Hd. cbn in Hd.
  do 2 eexists. unfold signup_handleSubmit. rewrite (st_bind_normal _ _ _ _ _ Hd).
  split; [reflexivity|]. cbn. split_and!; try done.
Qed.

(** C34: Every account the sign-up page creates has a password of at least six
    characters: [store.signup] checks nothing but the email, and the
    page's [minLength={6}] is what keeps shorter passwords out. *)
Theorem signup_page_password (email_valid : string -> bool) (resp : FetchResult) (ts : string)
    (now : Z) (p p' : Forms.FormPage SignupForm) (st st' : StoreState) (w w' : World) (u : User) :
  signup_page email_valid resp ts now p st w = (w', Normal (Some (p', st'))) ->
  u ∈ users st' -> u ∉ users st -> 6 <= String.length (user_password u).
Proof.
  unfold signup_page. destruct (Forms.submit _ p) as [[p1 f]|] eqn:Hs; [|by intros [=]].
  destruct (Forms.submit_some _ _ _ _ Hs) as (Hv & _ & -> & _).
  intros (w1 & [[body msg] st1] & Hh & Hr)%st_bind_normal_inv.
  cbn in Hr. injection Hr as _ _ Hst. subst st'.
  unfold signup_handleSubmit in Hh.
  apply st_bind_normal_inv in Hh as (w2 & [r st2] & Hd & Hr).
  cbn in Hr. injection Hr as _ _ _ Hst. subst st1.
  apply dispatch_normal_mem in Hd. cbn [step_mem] in Hd.
  pose proof (signup_users st (sf_name (Forms.values p)) (sf_email (Forms.values p))
    (sf_password (Forms.values p)) now) as Hu.
  destruct (signup _ _ _ _ st) as [[r0 st0] d]. cbn in Hu, Hd. injection Hd as _ Hst. subst st2.
  unfold signup_valid in Hv. apply andb_true_iff in Hv as [_ Hlen%Nat.leb_le].
  destruct Hu as [-> | ->]; intros Hin Hn; [done|].
  apply elem_of_app in Hin as [Hin|Hin%list_elem_of_singleton]; [done|]. by subst u.
Qed.

(** ** Theorems: contact form *)

Import Contact.

(** The inquiry is marked sent exactly when the relay answers [ok]; every
    outcome clears the submitting flag, and a failure shows an error and
    keeps the form on screen. *)
Theorem contact_submit_spec (resp : FetchResult) (f : ContactForm) (v : ContactView) :
  submitted v = false ->
  let v' := fst (handleSubmit resp f v) in
  snd (handleSubmit resp f v) = stringify (contact_request f) /\
  ct_isSubmitting v' = false /\
  (submitted v' = true <-> resp = Resolved true) /\
  (ct_error v' = "" <-> resp = Resolved true).
Proof. intros Hv. destruct resp as [[]|]; cbn; rewrite ?Hv; split_and!; done. Qed.

(** ** Theorems: catalogue and gallery *)

Import Catalogue Detail.

(** The Services page lists exactly the published services. *)
Theorem listed_published (services : list Service) (s : Service) :
  s ∈ listed services <-> s ∈ services /\ service_status s = published.
Proof. unfold listed. rewrite elem_of_filter_bool. by rewrite bool_decide_eq_true. Qed.

(** C37: A draft among the first three services is hidden from the Services
    page, yet featured on the home page, found by its detail page and
    offered by the checkout. *)
Theorem draft_still_reachable (services : list Service) (i : nat) (s : Service) (v : Checkout.View) :
  services !! i = Some s -> i < 3 -> service_status s = draft ->
  Forall (fun s' => service_id s' <> service_id s) (take i services) ->
  s ∉ listed services /\ s ∈ featured services /\
  find_service (service_id s) services = Some s /\
  Checkout.screen (service_id s) services v <> Checkout.NotFound.
Proof.
  intros Hi Hlt Hd Hbefore.
  assert (find_service (service_id s) services = Some s) as Hf.
  { unfold find_service. rewrite <- (take_drop i services), (drop_S _ _ _ Hi), find_app_none.
    - cbn. by rewrite String.eqb_refl.
    - rewrite find_none_forall. eapply Forall_impl; [exact Hbefore|]. intros x. apply String.eqb_neq. }
  split_and!; [|unfold featured; apply (list_elem_of_lookup_2 _ i); by rewrite lookup_take_lt| done |].
  - unfold listed. rewrite elem_of_filter_bool, bool_decide_eq_true. intros [_ Hp]. congruence.
  - unfold Checkout.screen. rewrite Hf. by destruct (Checkout.isSuccess v).
Qed.

Lemma find_service_unique (services : list Service) (s : Service) :
  NoDup (service_id <$> services) -> s ∈ services ->
  Detail.find_service (service_id s) services = Some s.
Proof.
  induction services as [|s0 ss IH]; [by intros _ ?%not_elem_of_nil|].
  rewrite fmap_cons, NoDup_cons. intros [Hn Hnd] Hin. cbn.
  destruct (String.eqb_spec (service_id s0) (service_id s)) as [He|He].
  - apply elem_of_cons in Hin as [->|Hin]; [done|].
    exfalso. apply Hn. rewrite He. by apply list_elem_of_fmap_2.
  - apply elem_of_cons in Hin as [->|Hin]; [done|]. by apply IH.
Qed.

Lemma featured_subset (services : list Service) (s : Service) :
  s ∈ featured services -> s ∈ services.
Proof. unfold featured. apply subseteq_take. Qed.

(** Every card of Home's featured grid and of the Services grid links to
    [/service/:id] of its own service, and with distinct service ids that
    route shows that service's page: title, price and category on the
    card are those of the page it opens. *)
Theorem catalogue_links_resolve (services : list Service) (c : Card) (i : nat) :
  NoDup (service_id <$> services) ->
  c ∈ home_cards services ++ services_cards services ->
  exists s, s ∈ services /\ c = card s /\ card_link c = "/service/" +:+ service_id s /\
    Detail.render (service_id s) services i = Detail.Found (Detail.view s i).
Proof.
  intros Hnd Hc. assert (exists s, s ∈ services /\ c = card s) as (s & Hs & ->).
  { unfold home_cards, services_cards in Hc.
    apply elem_of_app in Hc as [Hc|Hc]; apply list_elem_of_In, in_map_iff in Hc as (s & <- & Hs);
      apply list_elem_of_In in Hs; exists s; split; try done.
    - by apply featured_subset.
    - unfold listed in Hs. by apply elem_of_filter_bool in Hs as [? _]. }
  exists s. split_and!; [done..|]. unfold Detail.render. by rewrite find_service_unique.
Qed.

(** ** Theorems: navigation bar and footer *)

Import Navbar.

(** The bar offers Logout exactly to a signed-in visitor, shows the mobile
    menu exactly when it is open, and highlights exactly the link of the
    current path. *)
Theorem navbar_view_spec (pathname : string) (isAuthenticated isMobileMenuOpen : bool) :
  let v := view pathname isAuthenticated isMobileMenuOpen in
  (NavLogout ∈ actions v <-> isAuthenticated = true) /\
  (is_Some (mobile_menu v) <-> isMobileMenuOpen = true) /\
  (forall n h act, (n, h, act) ∈ desktop_links v -> (act = true <-> h = pathname)).
Proof.
  cbn. split_and!.
  - destruct isAuthenticated; cbn; [split; [done|left]|].
    split; [|done]. intros H%list_elem_of_In. cbn in H. by repeat destruct H as [H|H].
  - destruct isMobileMenuOpen; cbn; [split; eauto|split; [by intros []|done]].
  - intros n h act H%list_elem_of_In. cbn in H.
    repeat destruct H as [H|H]; try done; injection H as _ <- <-;
      rewrite String.eqb_eq; split; congruence.
Qed.

(** After the mobile Logout button, the menu is closed and the bar offers
    the login and sign-up links again. *)
Theorem navbar_mobile_logout (pathname : string) (st st' : StoreState) (w w' : World) (open : bool) :
  ls_available w = true ->
  mobileLogout st w = (w', Normal (open, st')) ->
  currentUser st' = None /\ open = false /\
  actions (view pathname (isAuthenticated st') open) =
    [NavLink "Visitor Login" "/login"; NavLink "Sign Up" "/signup"] /\
  mobile_menu (view pathname (isAuthenticated st') open) = None.
Proof.
  intros Ha Hm. unfold mobileLogout in Hm.
  rewrite (st_bind_normal _ _ _ _ _ (dispatch_logout st w Ha)) in Hm.
  injection Hm as _ <- <-. cbn. split_and!; done.
Qed.

(** The footer shows a social icon exactly for a link that is set and not
    empty, YouTube first. *)
Theorem footer_socials_spec (s : SiteSettings) (label u : string) :
  (label, u) ∈ Footer.socials s <->
    (label = "YT" /\ Footer.social "youtube" s = Some u \/
     label = "IG" /\ Footer.social "instagram" s = Some u) /\ u <> "".
Proof.
  unfold Footer.socials, Footer.icon. rewrite elem_of_app.
  destruct (Footer.social "youtube" s) as [y|], (Footer.social "instagram" s) as [i|];
    repeat case_match; rewrite ?String.eqb_eq, ?String.eqb_neq in *; subst;
    rewrite ?list_elem_of_singleton; set_solver.
Qed.
