(* ===== verification/Site.v ===== *)
(** * The visitor pages' content and the links between pages

    Every page renders [Link]s to other routes.  This file gathers them
    with the content they sit in: [Home.tsx] (hero, featured grid, teasers),
    [Services.tsx], [About.tsx], the bottom links of [Login.tsx] and
    [SignUp.tsx], the summary aside of [Checkout.tsx], the back links of
    [Contact.tsx], the crumbs and order button of [ServiceDetail.tsx], the
    brand of [Navbar.tsx] and the link columns of [Footer.tsx].  A page is
    one of the constructors of [Page]; [page_targets] lists where it can
    send the visitor: its links, or the [<Navigate>] a signed-in visitor
    gets on the login and sign-up pages.

    The routes themselves are declared in [App.tsx], which is not under
    [src/]: this file models what each page renders and where its links
    point, and states no property of the routing. *)

From S2P Require Import Prelude Json Types Storage Store JsString Persistence Session Admin AdminPanels ServiceDetail Forms Storefront.

Module Site.

(** A [<Link to=...>]: its text and its target. *)
Record Link := mkLink { link_text : string; link_to : string }.

#[global] Instance Link_eq_dec : EqDecision Link.
Proof. solve_decision. Defined.

(** ** [Home.tsx] *)

(** The links of the hero, the teaser headers and the closing call to
    action, in page order (the featured cards come between the third and
    fourth). *)
Definition home_links : list Link :=
  [mkLink "View All Services" "/services"; mkLink "Book a Consultation" "/contact";
   mkLink "See All Services" "/services"; mkLink "Read our story" "/about";
   mkLink "Start a Project" "/contact"].

(** The fixed figures of the "Why Us" teaser. *)
Definition home_figures : list (string * string) := [("98%", "Satisfaction"); ("1.2K", "Projects")].

Record HomeView := mkHomeView {
  hv_links : list Link; hv_cards : list Catalogue.Card; hv_figures : list (string * string) }.

Definition home (services : list Service) : HomeView :=
  mkHomeView home_links (Catalogue.home_cards services) home_figures.

(** ** [Services.tsx] and [About.tsx] *)

Definition back_home : Link := mkLink "Back to Home" "/".

Record ServicesView := mkServicesView { sv_back : Link; sv_cards : list Catalogue.Card }.

Definition services_page (services : list Service) : ServicesView :=
  mkServicesView back_home (Catalogue.services_cards services).

(** The About page: its back link, the three figures and the team photo. *)
Record AboutView := mkAboutView {
  ab_back : Link; ab_figures : list (string * string); ab_image : string }.

Definition about : AboutView :=
  mkAboutView back_home [("10+", "Years Active"); ("1.2K", "Clients"); ("50M+", "Views Driven")]
    "https://images.unsplash.com/photo-1542744173-8e7e53415bb0?auto=format&fit=crop&q=80&w=1000".

(** ** [Login.tsx] and [SignUp.tsx] *)

(** A card of either page: its heading, the error banner, the submit
    button ([disabled] and label) and the links under the form. *)
Record AuthView := mkAuthView {
  av_heading : string; av_banner : option string; av_button : bool * string; av_links : list Link }.

Definition login_links : list Link :=
  [mkLink "Create an Account" "/signup"; mkLink "Contact Support" "/contact"].

Definition signup_links : list Link := [mkLink "Log In" "/login"].

Definition login_view (p : Forms.FormPage Auth.LoginForm) : AuthView :=
  mkAuthView "Welcome Back" (Forms.banner p) (Auth.login_button p) login_links.

Definition signup_view (p : Forms.FormPage Auth.SignupForm) : AuthView :=
  mkAuthView "Join Prithvi" (Forms.banner p) (Auth.signup_button p) signup_links.

(** ** The links of [Checkout.tsx], [Contact.tsx] and [ServiceDetail.tsx] *)

(** The success screen's "Return to Dashboard", which goes to the home
    page, and the aside's "Apply for Partnership". *)
Definition checkout_links (sc : Checkout.Screen) : list Link :=
  match sc with
  | Checkout.NotFound => []
  | Checkout.Success => [mkLink "Return to Dashboard" "/"]
  | Checkout.OrderForm => [mkLink "Apply for Partnership" "/contact"]
  end.

(** The back link, and "Return Home" on the thank-you block. *)
Definition contact_links (submitted : bool) : list Link :=
  back_home :: (if submitted then [mkLink "Return Home" "/"] else []).

(** The crumbs ([Home] / the category, linking to the catalogue) and
    "Continue to Order"; "Service not found" has no link. *)
Definition detail_links (sc : Detail.Screen) : list Link :=
  match sc with
  | Detail.NotFound => []
  | Detail.Found v =>
      [mkLink "Home" "/"; mkLink (Detail.crumb v) "/services";
       mkLink "Continue to Order" (Detail.checkout_link v)]
  end.

(** ** [Navbar.tsx] and [Footer.tsx] *)

(** The brand: a link home showing [settings.logo] and [settings.name]. *)
Definition brand (s : SiteSettings) : Link * string := (mkLink (site_name s) "/", logo s).

(** Every link the bar renders: the brand, the desktop links, the account
    links and those of the open mobile menu. *)
Definition navbar_links (s : SiteSettings) (v : Navbar.NavView) : list Link :=
  let acts a := match a with Navbar.NavLink l h => [mkLink l h] | Navbar.NavLogout => [] end in
  (brand s).1 :: map (fun l => mkLink l.1.1 l.1.2) (Navbar.desktop_links v) ++
  mbind acts (Navbar.actions v) ++
  from_option (fun m => map (fun l => mkLink l.1 l.2) m.1 ++ mbind acts m.2) [] (Navbar.mobile_menu v).

Record FooterView := mkFooterView {
  fv_title : string; fv_services : list Link; fv_support : list Link;
  fv_socials : list (string * string); fv_copyright : string; fv_admin : Link }.

Definition footer (s : SiteSettings) : FooterView :=
  mkFooterView (Footer.title s)
    (map (fun l => mkLink l "/services")
       ["Video Editing"; "Graphic Design"; "SEO Writing"; "Brand Consulting"])
    [mkLink "Contact Us" "/contact"; mkLink "About Us" "/about";
     mkLink "Login" "/login"; mkLink "Sign Up" "/signup"]
    (Footer.socials s)
    ("© 2024 " +:+ site_name s +:+ ". All rights reserved.")
    (mkLink "Admin Login" "/login").

Definition footer_links (s : SiteSettings) : list Link :=
  fv_services (footer s) ++ fv_support (footer s) ++ [fv_admin (footer s)].

(** ** Pages and where they lead *)

Inductive Page :=
| PHome | PServices | PAbout | PContact (submitted : bool) | PLogin | PSignup
| PDetail (id : string) | PCheckout (id : string) (isSuccess : bool).

(** The targets a page offers for the store state [st]: the [<Navigate>]
    of a signed-in visitor on the login and sign-up pages, or the page's
    links (the cards' included). *)
Definition page_targets (pg : Page) (st : StoreState) : list string :=
  match pg with
  | PHome => map link_to (hv_links (home (services st))) ++
             map Catalogue.card_link (hv_cards (home (services st)))
  | PServices => link_to (sv_back (services_page (services st))) ::
                 map Catalogue.card_link (sv_cards (services_page (services st)))
  | PAbout => [link_to (ab_back about)]
  | PContact submitted => map link_to (contact_links submitted)
  | PLogin => match Auth.login_redirect (isAuthenticated st) (isAdmin st) with
              | Some p => [p]
              | None => map link_to login_links
              end
  | PSignup => match Auth.signup_redirect (isAuthenticated st) with
               | Some p => [p]
               | None => map link_to signup_links
               end
  | PDetail id => map link_to (detail_links (Detail.render id (services st) 0))
  | PCheckout id ok =>
      map link_to (checkout_links (Checkout.screen id (services st) (Checkout.mkView ok false "")))
  end.

(** The "View All" link of the overview's Recent Orders card. *)
Definition recent_view_all : Link := mkLink "View All" "/admin/orders".

End Site.
