(* ===== verification/AuthApi.v ===== *)
(** * The account pages against the props they are given

    [Login.tsx] and [SignUp.tsx] do not import the store: they receive
    it through their props, [interface LoginProps { login; isAuthenticated;
    isAdmin }] and [interface SignUpProps { signup; isAuthenticated }].
    This file states those props as the class [AuthProps] over an abstract
    state, what the pages rely on as the class [AuthLaws], and the pages'
    handlers over any implementation.  The page theorems are proved in the
    Section [Pages] from the laws alone; the instance [store_auth_props]
    gives the props of [useStore] and [store_auth_laws] proves that the
    store keeps the laws, so the theorems hold of the running
    application, whose handlers in [Storefront.Auth] are these at that
    instance. *)

From S2P Require Import Prelude Json Types Storage Store JsString Persistence Session Admin AdminPanels ServiceDetail Forms Storefront.

(** ** The interface *)

(** The props: [login(email, pass)] and [signup(name, email, pass)], which
    run against the browser and return whether they succeeded with the
    re-rendered state ([signup] also reads the clock, [now]), and the two
    flags. *)
Class AuthProps (S : Type) := {
  props_login : string -> string -> S -> Browser (bool * S);
  props_signup : string -> string -> string -> Z -> S -> Browser (bool * S);
  props_isAuthenticated : S -> bool;
  props_isAdmin : S -> bool }.

(** What the pages need of them, while storage is available: each call
    returns; a success leaves a signed-in state (a visitor after a
    sign-up); a failure changes neither the state nor the browser; an
    administrator is signed in. *)
Class AuthLaws (S : Type) `{AuthProps S} : Prop := {
  login_returns : forall e p s w, ls_available w = true ->
    exists w' b s', props_login e p s w = (w', Normal (b, s')) /\
      (if b then props_isAuthenticated s' = true else s' = s /\ w' = w);
  signup_returns : forall n e p now s w, ls_available w = true ->
    exists w' b s', props_signup n e p now s w = (w', Normal (b, s')) /\
      (if b then props_isAuthenticated s' = true /\ props_isAdmin s' = false
       else s' = s /\ w' = w);
  admin_authenticated : forall s, props_isAdmin s = true -> props_isAuthenticated s = true }.

(** ** The pages' handlers over the props *)

Section Handlers.

Context {S : Type} `{AuthProps S}.

(** The message of a failed [login], by the branch of the audit post. *)
Definition login_error (resp : FetchResult) : string :=
  match resp with
  | Rejected => "Invalid email or password."
  | Resolved _ => "Invalid email or password. Please try again."
  end.

Definition signup_error (resp : FetchResult) : string :=
  match resp with
  | Rejected => "Registration failed. Please try again."
  | Resolved _ => "Email already exists. Try logging in."
  end.

(** [Login.handleSubmit] after its audit post: the body posted, the error
    shown and the state. *)
Definition login_submit (resp : FetchResult) (timestamp email password : string) (s : S)
    : Browser (string * string * S) :=
  r <- props_login email password s ;;
  st_ret (stringify (Auth.login_audit email timestamp), if fst r then "" else login_error resp, snd r).

Definition signup_submit (resp : FetchResult) (timestamp name email password : string) (now : Z)
    (s : S) : Browser (string * string * S) :=
  r <- props_signup name email password now s ;;
  st_ret (stringify (Auth.signup_audit name email timestamp),
          if fst r then "" else signup_error resp, snd r).

End Handlers.

(** ** The store as the pages' props *)

#[global] Instance store_auth_props : AuthProps StoreState := {
  props_login e p st := dispatch (ALogin e p) st;
  props_signup n e p now st := dispatch (ASignup n e p now) st;
  props_isAuthenticated := isAuthenticated;
  props_isAdmin := isAdmin }.

(** ** The store keeps the laws *)

(** The handlers of [Storefront.Auth] are the generic ones at the store. *)
Lemma login_handleSubmit_props (resp : FetchResult) (ts e p : string) (st : StoreState) :
  Auth.login_handleSubmit resp ts e p st = login_submit resp ts e p st.
Proof. by destruct resp. Qed.

Lemma signup_handleSubmit_props (resp : FetchResult) (ts n e p : string) (now : Z) (st : StoreState) :
  Auth.signup_handleSubmit resp ts n e p now st = signup_submit resp ts n e p now st.
Proof. by destruct resp. Qed.

(** A call of the store that fails marks nothing, so it touches no entry. *)
Lemma dispatch_failed (a : Action) (st : StoreState) (w : World) :
  step_mem a st = (false, st, clean) -> dispatch a st w = (w, Normal (false, st)).
Proof. intros Hs. rewrite dispatch_clean; rewrite Hs; done. Qed.

#[global] Instance store_auth_laws : AuthLaws StoreState.
Proof.
  split.
  - intros e p st w Ha. cbn.
    destruct (List.find (credentials_are e p) (users st)) as [u|] eqn:Hf.
    + destruct (dispatch_memory (ALogin e p) st w Ha) as [w1 Hd].
      cbn [step_mem] in Hd. rewrite (login_found _ _ _ _ Hf) in Hd.
      do 3 eexists. split; [exact Hd|done].
    + do 3 eexists. split; [apply dispatch_failed; cbn; by rewrite login_not_found|done].
  - intros n e p now st w Ha. cbn.
    destruct (List.find (email_is e) (users st)) as [u|] eqn:Hf.
    + apply find_some_in in Hf as [Hin He%String.eqb_eq].
      do 3 eexists. split; [apply dispatch_failed; cbn; by erewrite signup_taken|done].
    + apply find_email_none in Hf.
      destruct (dispatch_memory (ASignup n e p now) st w Ha) as [w1 Hd].
      cbn [step_mem] in Hd. rewrite (signup_fresh _ _ _ _ _ Hf) in Hd.
      do 3 eexists. split; [exact Hd|done].
  - apply isAdmin_isAuthenticated.
Qed.

(** ** The pages, from the laws alone *)

Section Pages.

Context {S : Type} `{AuthLaws S}.

(** C11: Whatever implements the props lawfully, a login submitted on the
    page (which shows its form only to a visitor who is not signed in)
    ends in one of two ways: no error and a redirect to [/admin] for an
    administrator or to [/] otherwise; or the error of the audit post's
    branch, with the state and the browser as they were and the form
    still shown. *)
Theorem login_page_outcome (resp : FetchResult) (ts e p : string) (s : S) (w : World) :
  ls_available w = true -> props_isAuthenticated s = false ->
  exists w' msg s',
    login_submit resp ts e p s w = (w', Normal (stringify (Auth.login_audit e ts), msg, s')) /\
    ((msg = "" /\
      Auth.login_redirect (props_isAuthenticated s') (props_isAdmin s') =
        Some (if props_isAdmin s' then "/admin" else "/")) \/
     (msg = login_error resp /\ s' = s /\ w' = w /\
      Auth.login_redirect (props_isAuthenticated s') (props_isAdmin s') = None)).
Proof.
  intros Ha Hn. destruct (login_returns e p s w Ha) as (w' & b & s' & Hl & Hb).
  unfold login_submit. rewrite (st_bind_normal _ _ _ _ _ Hl). do 3 eexists. split; [reflexivity|].
  destruct b; cbn; [left|right].
  - unfold Auth.login_redirect. by rewrite Hb.
  - destruct Hb as [-> ->]. unfold Auth.login_redirect. by rewrite Hn.
Qed.

(** A sign-up either lands a signed-in visitor on [/] with no error, or
    shows the branch's error with nothing changed. *)
Theorem signup_page_outcome (resp : FetchResult) (ts n e p : string) (now : Z) (s : S) (w : World) :
  ls_available w = true -> props_isAuthenticated s = false ->
  exists w' msg s',
    signup_submit resp ts n e p now s w =
      (w', Normal (stringify (Auth.signup_audit n e ts), msg, s')) /\
    ((msg = "" /\ props_isAdmin s' = false /\
      Auth.signup_redirect (props_isAuthenticated s') = Some "/") \/
     (msg = signup_error resp /\ s' = s /\ w' = w /\
      Auth.signup_redirect (props_isAuthenticated s') = None)).
Proof.
  intros Ha Hn. destruct (signup_returns n e p now s w Ha) as (w' & b & s' & Hl & Hb).
  unfold signup_submit. rewrite (st_bind_normal _ _ _ _ _ Hl). do 3 eexists. split; [reflexivity|].
  destruct b; cbn; [left|right].
  - destruct Hb as [Ha' Hd]. unfold Auth.signup_redirect. by rewrite Ha'.
  - destruct Hb as [-> ->]. unfold Auth.signup_redirect. by rewrite Hn.
Qed.

End Pages.
