(* ===== verification/Witnesses.v ===== *)
(** * Concrete runs

    Small data sets in the shape of the repository's seed data, and, for
    each theorem of the development with hypotheses, a run of the modelled
    code on them where the hypotheses hold: every hypothesis is settled by
    evaluating the definitions. *)

From S2P Require Import Prelude Json Types Storage Store JsString Persistence Session Forms Admin AdminPanels RichText ServiceDetail Storefront AuthApi.
From Stdlib Require Import QArith.
Close Scope Q_scope.

(** ** Data *)

Definition settings0 : SiteSettings :=
  mkSiteSettings "Prithvi Creation" "PC" [("instagram", "https://instagram.com/prithvi")]
    (mkSeo "Prithvi Creation" "Video editing and design").

Definition service0 : Service :=
  mkService "svc-1" "Reel edit" "<p>Short-form edits</p>" 50 "Video Editing" 2 1
    ["https://picsum.photos/seed/1/800/600"] [] [] ["4K export"] published 120 7.

Definition draft0 : Service :=
  mkService "svc-2" "Logo pack" "" 30 "Design" 3 2 [] [] [] [] draft 0 0.

Definition C0 : Constants := mkConstants [service0; draft0] [] settings0.

Definition w_empty : World := mkWorld ∅ 100000 true [] [].

(** The browser after the first mount on empty storage, and the store. *)
Definition w_mounted : World := run_state (useStore C0) w_empty.
Definition st_mounted : StoreState := default_state C0.

Definition userA : User := mkUser "1700000000000" "A" "dup@x.com" "pw" visitor.

Definition st_signed : StoreState :=
  mkStore [seed_admin; userA] [service0; draft0] [] settings0 (Some userA).

Definition w_signed : World :=
  run_state (dispatch (ASignup "A" "dup@x.com" "pw" 1700000000000) st_mounted) w_mounted.

Definition form0 : Checkout.CheckoutForm := Checkout.mkCheckoutForm "A" "dup@x.com" "A 30s teaser".

Definition order0 : Order := Checkout.newOrder service0 form0 (Qmake 42 10000) "2026-01-01T00:00:00.000Z".

Definition acts0 : list Action := [ASignup "A" "dup@x.com" "pw" 1700000000000; ASetOrders [order0]].

Definition st_ordered : StoreState :=
  mkStore [seed_admin; userA] [service0; draft0] [order0] settings0 (Some userA).

Definition order0_twin : Order :=
  mkOrder "ORD-42" "svc-1" "B" "b@x.com" pending 80 "2026-01-02T00:00:00.000Z" "logo".

Definition modal_new : ServicesManagement.Modal :=
  ServicesManagement.updateFeature 0 "Color grade"
    (ServicesManagement.addFeature (ServicesManagement.handleOpenModal None ServicesManagement.initial_modal)).

Definition st_renamed : StoreState :=
  mkStore [seed_admin] [service0; draft0] [] (SiteEditor.apply_update settings0 (SiteEditor.UName "Prithvi Studio")) None.

Definition w_renamed : World :=
  run_state (SiteEditor.handleUpdate (SiteEditor.UName "Prithvi Studio") st_mounted) w_mounted.

Definition view_ok : Checkout.View := Checkout.mkView true false "".

Definition w_ordered : World :=
  run_state (Checkout.handleOrder (Resolved true) (Qmake 42 10000) "2026-01-01T00:00:00.000Z" service0 form0
               [] st_signed) w_signed.

(** [Math.random()] values: 0, and the ten-thousandths below 1. *)
Definition draws : list Q := Qmake 0 1 :: map (fun n => Qmake (Z.of_nat n) 10000) (seq 0 (Z.to_nat 10000)).

Definition m_draft : ServicesManagement.Modal :=
  modal_step (EEdit (ServicesManagement.FStatus draft))
    (ServicesManagement.handleOpenModal None ServicesManagement.initial_modal).

Definition save_result : World * outcome exn (ServicesManagement.Modal * StoreState) :=
  ServicesManagement.onSaveClick "0.42" 1700000000000 m_draft st_mounted w_mounted.

Definition saved_modal : ServicesManagement.Modal :=
  match snd save_result with Normal x => fst x | _ => m_draft end.

Definition saved_store : StoreState :=
  match snd save_result with Normal x => snd x | _ => st_mounted end.

Definition saved_gig : Service :=
  ServicesManagement.newService
    (ServicesManagement.finalData (Some published) "0.42" (ServicesManagement.formData m_draft))
    1700000000000.

(** A browser's [type="email"] check, as far as the witnesses need it. *)
Definition email_ok (e : string) : bool := negb (String.eqb e "").

Definition checkout_page0 : Forms.FormPage Checkout.CheckoutForm := Forms.initial form0.

Definition checkout_edits : list (Checkout.CheckoutForm -> Checkout.CheckoutForm) :=
  [Checkout.set_field Checkout.FEmail "new@x.com"].

Definition signup_p0 : Forms.FormPage Auth.SignupForm :=
  Forms.initial (Auth.mkSignupForm "B" "b@x.com" "secret1").

Definition signup_result : World * outcome exn (option (Forms.FormPage Auth.SignupForm * StoreState)) :=
  Auth.signup_page email_ok (Resolved true) "2026-01-01T00:00:00.000Z" 1700000000001 signup_p0
    st_mounted w_mounted.

Definition signup_after : Forms.FormPage Auth.SignupForm * StoreState :=
  match snd signup_result with Normal (Some x) => x | _ => (signup_p0, st_mounted) end.

Definition userB : User := mkUser "1700000000001" "B" "b@x.com" "secret1" visitor.

Definition gallery_svc : Service :=
  mkService "svc-3" "Promo" "" 90 "Video Editing" 4 99 ["cover.jpg"] ["clip.mp4"]
    ["brief.pdf"] [] published 0 0.

Definition bold (c html : string) : string := "<b>" +:+ html +:+ "</b>".

Definition editor_open : ServicesManagement.Modal * option RichText.Editor :=
  (ServicesManagement.handleOpenModal None ServicesManagement.initial_modal,
   Some (RichText.mkEditor "" "" 1)).

(** A storage whose quota holds the session blob of a new account but not
    the users table with it. *)
Definition userC : User := mkUser "1700000000003" "C" "c@x.com" "pw" visitor.

Definition w_tight : World :=
  mkWorld ∅ (usage {[SESSION DB_KEYS := encode userC]}) true [] [].

Definition st_four : StoreState :=
  mkStore [] [service0] [order0; order0; order0; order0] settings0 None.

Definition four_run : World * outcome exn (Checkout.View * string * StoreState) :=
  Checkout.handleOrder (Resolved true) (Qmake 43 10000) "2026-01-02T00:00:00.000Z" service0 form0
    (orders st_four) st_four w_empty.

Definition four_after : Checkout.View * string * StoreState :=
  match four_run.2 with Normal x => x | _ => (Checkout.mkView false false "", "", st_four) end.

Definition m_edit0 : ServicesManagement.Modal :=
  ServicesManagement.handleOpenModal (Some service0) ServicesManagement.initial_modal.

Definition w_full : World :=
  mkWorld (ls_items w_mounted) (usage (ls_items w_mounted)) true [] [].

Definition overflow_run : World * outcome exn (ServicesManagement.Modal * StoreState) :=
  ServicesManagement.handleSaveService (Some published) "0.42" 1700000000005 modal_new st_mounted w_full.

Definition overflow_after : ServicesManagement.Modal * StoreState :=
  match overflow_run.2 with Normal x => x | _ => (modal_new, st_mounted) end.

Definition gig6 : Service :=
  mkService "svc-6" "Documentary cut" "" 400 "Video Editing" 6 2 [] [] [] ["Color grade"] published 0 0.

Definition m_pricing6 : ServicesManagement.Modal :=
  ServicesManagement.setActiveTab ServicesManagement.pricing
    (ServicesManagement.handleOpenModal (Some gig6) ServicesManagement.initial_modal).

(** ** The store *)

Lemma loadFromDB_malformed_witness :
  loadFromDB (USERS DB_KEYS) [seed_admin] (mkWorld {[USERS DB_KEYS := "[{oops"]} 1000 true [] []) =
  (discard_entry (mkWorld {[USERS DB_KEYS := "[{oops"]} 1000 true [] []) (USERS DB_KEYS),
   Normal [seed_admin]).
Proof.
  apply (loadFromDB_malformed _ _ _ "[{oops"); [reflexivity|reflexivity|discriminate|discriminate|].
  vm_compute. reflexivity.
Defined.

Definition w_mistyped : World := mkWorld {[USERS DB_KEYS := "42"]} 1000 true [] [].

Lemma loadFromDB_json_kept_witness :
  loadFromDB (USERS DB_KEYS) [seed_admin] w_mistyped = (w_mistyped, Stuck).
Proof. rewrite (loadFromDB_json_kept _ _ _ "42"); vm_compute; reflexivity. Defined.

Lemma loadFromDB_blank_witness :
  loadFromDB (ORDERS DB_KEYS) ([] : list Order) (mkWorld {[ORDERS DB_KEYS := "undefined"]} 1000 true [] []) =
  (mkWorld {[ORDERS DB_KEYS := "undefined"]} 1000 true [] [], Normal []).
Proof. apply (loadFromDB_blank _ _ _ "undefined"); [reflexivity|reflexivity|right; reflexivity]. Defined.

Lemma signup_quota_session_witness :
  exists w' st', dispatch (ASignup "C" "c@x.com" "pw" 1700000000003) st_mounted w_tight = (w', Normal (true, st')) /\
    users st' = users st_mounted ++ [userC] /\ currentUser st' = Some userC /\
    ls_items w' !! SESSION DB_KEYS = Some (encode userC) /\
    ls_items w' !! USERS DB_KEYS = ls_items w_tight !! USERS DB_KEYS /\
    alerts w' = alerts w_tight ++ [storage_full_alert].
Proof.
  apply (signup_quota_session "C" "c@x.com" "pw" 1700000000003 st_mounted w_tight).
  - reflexivity.
  - decide_by_eval.
  - decide_by_eval.
  - decide_by_eval.
Defined.

(** ** Persistence *)

Lemma reload_after_actions_witness :
  synced st_ordered (ls_items (run_state (dispatch_all acts0 st_mounted) w_mounted)) /\
  useStore C0 (run_state (dispatch_all acts0 st_mounted) w_mounted) =
  (run_state (dispatch_all acts0 st_mounted) w_mounted,
   Normal st_ordered).
Proof.
  apply (reload_after_actions C0 acts0 st_mounted st_ordered w_mounted).
  - vm_compute. reflexivity.
  - decide_by_eval.
  - vm_compute. split_and!; reflexivity.
  - vm_compute. reflexivity.
  - vm_compute. reflexivity.
Defined.

Lemma setOrders_quota_witness :
  dispatch (ASetOrders [order0]) st_mounted (mkWorld ∅ 64 true [] []) =
    (quota_recovery (mkWorld ∅ 64 true [] []),
     Normal (true, mkStore (users st_mounted) (services st_mounted) [order0]
                           (settings st_mounted) (currentUser st_mounted))).
Proof. apply setOrders_quota; vm_compute; reflexivity. Defined.

Definition w_corrupt : World := mkWorld {[USERS DB_KEYS := "[{oops"]} 100000 true [] [].

Lemma useStore_synced_witness :
  exists w' st, useStore C0 w_corrupt = (w', Normal st) /\
    ls_available w' = true /\ (wf_world w_corrupt -> wf_world w') /\
    (alerts w' = alerts w_corrupt -> synced st (ls_items w')).
Proof. apply useStore_synced; vm_compute; reflexivity. Defined.

Lemma useStore_unavailable_witness :
  run_outcome (useStore C0) (mkWorld ∅ 100000 false [] []) = Thrown SecurityError.
Proof. apply useStore_unavailable. reflexivity. Defined.


Lemma logout_reload_witness :
  ls_items (run_state (dispatch ALogout st_signed) w_signed) !! SESSION DB_KEYS = None /\
  useStore C0 (run_state (dispatch ALogout st_signed) w_signed) =
    (run_state (dispatch ALogout st_signed) w_signed,
     Normal (mkStore [seed_admin; userA] [service0; draft0] [] settings0 None)) /\
  isAuthenticated (mkStore [seed_admin; userA] [service0; draft0] [] settings0 None) = false.
Proof.
  apply (logout_reload C0 st_signed _ true w_signed).
  - vm_compute. reflexivity.
  - decide_by_eval.
  - vm_compute. split_and!; reflexivity.
  - vm_compute. reflexivity.
Defined.

(** ** Accounts and the session *)

Lemma login_refines_witness :
  ((login "dup@x.com" "pw" st_signed).1.1, abs_of (login "dup@x.com" "pw" st_signed).1.2) =
  abs_login "dup@x.com" "pw" (abs_of st_signed).
Proof. apply login_refines. decide_by_eval. Defined.

Lemma signup_refines_witness :
  ((signup "B" "dup@x.com" "pw2" 1700000000001 st_signed).1.1,
   abs_of (signup "B" "dup@x.com" "pw2" 1700000000001 st_signed).1.2) =
  abs_signup "B" "dup@x.com" "pw2" 1700000000001 (abs_of st_signed).
Proof. apply signup_refines. decide_by_eval. Defined.

Lemma actions_preserve_inv_witness :
  session_inv (run_mem (acts0 ++ [ASignup "B" "dup@x.com" "pw2" 1700000000001; ALogout]) st_mounted).
Proof.
  apply actions_preserve_inv. split; [decide_by_eval|]. intros u Hu. discriminate Hu.
Defined.

(** ** The JSON platform *)

Lemma parse_stringify_padded_witness :
  parse (" " +:+ stringify (to_json [order0]) +:+ String (Ascii.ascii_of_nat 10) "") =
  Some (to_json [order0]).
Proof. apply parse_stringify_padded; reflexivity. Defined.

(** ** The admin console *)

Lemma status_update_spec_witness :
  exists w' st' body,
    OrdersManagement.handleStatusUpdate false "ORD-42" completed
      (mkStore [seed_admin] [service0] [order0; order0_twin] settings0 None) w_mounted =
      (w', Normal (body, st')) /\
    length (orders st') = 2 /\
    Forall (fun o => order_id o = "ORD-42" -> order_status o = completed) (orders st') /\
    List.filter (fun o => negb (String.eqb (order_id o) "ORD-42")) (orders st') =
      List.filter (fun o => negb (String.eqb (order_id o) "ORD-42")) [order0; order0_twin] /\
    (body = None <-> Forall (fun o => order_id o <> "ORD-42") [order0; order0_twin]).
Proof. apply status_update_spec. reflexivity. Defined.

Lemma status_update_cards_witness :
  exists w' st' body,
    OrdersManagement.handleStatusUpdate false "ORD-42" active
      (mkStore [seed_admin] [service0] [order0; order0_twin] settings0 None) w_mounted =
      (w', Normal (body, st')) /\
    Stats.totalRevenue (orders st') = Stats.totalRevenue [order0; order0_twin] /\
    Stats.activeOrders (orders st') =
      Stats.activeOrders (List.filter (fun o => negb (String.eqb (order_id o) "ORD-42")) [order0; order0_twin]) +
      (if bool_decide (active = active)
       then length (List.filter (fun o => String.eqb (order_id o) "ORD-42") [order0; order0_twin]) else 0).
Proof. apply status_update_cards. reflexivity. Defined.

Lemma save_service_publishable_witness :
  let s := ServicesManagement.newService
             (ServicesManagement.finalData None "0.42" (ServicesManagement.formData modal_new))
             1700000000000 in
  images s <> [] /\ Forall (fun x => trim x <> "") (features s) /\
  service_status s = ServicesManagement.finalStatus None (ServicesManagement.formData modal_new).
Proof.
  apply (save_service_publishable None "0.42" 1700000000000 modal_new [service0]); decide_by_eval.
Defined.

Lemma save_refines_catalogue_witness :
  catalogue (ServicesManagement.saved_services (Some published) "0.42" 1700000000000 m_edit0
               [service0; draft0]) =
    alter (fun s => ServicesManagement.merge s
             (ServicesManagement.finalData (Some published) "0.42" (ServicesManagement.formData m_edit0)))
      "svc-1" (catalogue [service0; draft0]) /\
  NoDup (service_id <$> ServicesManagement.saved_services (Some published) "0.42" 1700000000000 m_edit0
                          [service0; draft0]).
Proof.
  refine (save_refines_catalogue (Some published) "0.42" 1700000000000 m_edit0 [service0; draft0] _ _ _).
  - decide_by_eval.
  - vm_compute. eauto.
  - decide_by_eval.
Defined.

Lemma draft_toggle_overridden_witness : service_status saved_gig = published.
Proof.
  apply (draft_toggle_overridden "0.42" 1700000000000 (ServicesManagement.handleOpenModal None
           ServicesManagement.initial_modal) saved_modal st_mounted saved_store w_mounted (fst save_result)).
  - vm_compute. reflexivity.
  - vm_compute. reflexivity.
  - decide_by_eval.
  - decide_by_eval.
Defined.


Lemma site_edit_persists_witness :
  settings st_renamed = SiteEditor.apply_update (settings st_mounted) (SiteEditor.UName "Prithvi Studio") /\
  seo (settings st_renamed) = seo (settings st_mounted) /\
  socialLinks (settings st_renamed) = socialLinks (settings st_mounted) /\
  useStore C0 w_renamed = (w_renamed, Normal st_renamed).
Proof.
  apply (site_edit_persists C0 (SiteEditor.UName "Prithvi Studio") st_mounted st_renamed true w_mounted).
  - vm_compute. reflexivity.
  - decide_by_eval.
  - vm_compute. split_and!; reflexivity.
  - vm_compute. reflexivity.
  - vm_compute. reflexivity.
Defined.

(** ** The visitor pages *)

Lemma checkout_order_persists_witness :
  orders st_ordered = orders st_signed ++ [order0] /\ Checkout.isSuccess view_ok = true /\
  order_status order0 = pending /\ totalAmount order0 = price service0 /\
  useStore C0 w_ordered = (w_ordered, Normal st_ordered).
Proof.
  apply (checkout_order_persists C0 (Qmake 42 10000) "2026-01-01T00:00:00.000Z" service0 form0 st_signed st_ordered
           view_ok (stringify (Checkout.order_request service0 form0)) w_signed w_ordered).
  - vm_compute. reflexivity.
  - decide_by_eval.
  - vm_compute. split_and!; reflexivity.
  - vm_compute. reflexivity.
  - vm_compute. reflexivity.
Defined.

Lemma checkout_failure_drops_order_witness :
  exists msg, msg <> "" /\
    Checkout.handleOrder Rejected (Qmake 42 10000) "2026-01-01T00:00:00.000Z" service0 form0 [] st_signed w_signed =
      (w_signed, Normal (Checkout.mkView false false msg,
                         stringify (Checkout.order_request service0 form0), st_signed)).
Proof. apply checkout_failure_drops_order. discriminate. Defined.

Lemma checkout_stale_snapshot_witness :
  order0_twin ∉ orders (mkStore [seed_admin; userA] [service0; draft0] [order0] settings0 (Some userA)).
Proof.
  apply (checkout_stale_snapshot (Qmake 42 10000) "2026-01-01T00:00:00.000Z" service0 form0 []
           (mkStore [seed_admin; userA] [service0; draft0] [order0_twin] settings0 (Some userA))
           _ view_ok (stringify (Checkout.order_request service0 form0)) w_signed
           (run_state (Checkout.handleOrder (Resolved true) (Qmake 42 10000) "2026-01-01T00:00:00.000Z" service0 form0
              [] (mkStore [seed_admin; userA] [service0; draft0] [order0_twin] settings0 (Some userA))) w_signed)).
  - vm_compute. reflexivity.
  - vm_compute. reflexivity.
  - decide_by_eval.
  - decide_by_eval.
  - decide_by_eval.
Defined.

Lemma order_ids_not_unique_witness :
  ~ NoDup (map (fun r => order_id (Checkout.newOrder service0 form0 r "2026-01-01T00:00:00.000Z")) draws).
Proof.
  apply (order_ids_not_unique service0 form0 "2026-01-01T00:00:00.000Z" draws).
  - constructor; [unfold Qle, Qlt; cbn; lia|].
    apply Forall_forall. intros x (n & <- & Hn%in_seq)%list_elem_of_In%in_map_iff. unfold Qle, Qlt; cbn; lia.
  - vm_compute. reflexivity.
Defined.


Lemma draft_still_reachable_witness :
  draft0 ∉ Catalogue.listed [service0; draft0] /\ draft0 ∈ Catalogue.featured [service0; draft0] /\
  Detail.find_service (service_id draft0) [service0; draft0] = Some draft0 /\
  Checkout.screen (service_id draft0) [service0; draft0] (Checkout.mkView false false "") <> Checkout.NotFound.
Proof. apply (draft_still_reachable _ 1); [reflexivity|lia|reflexivity|decide_by_eval]. Defined.


Lemma session_always_reachable_witness :
  exists w1 st1,
    dispatch (ASignup "C" (fresh_email (users st_signed)) "pw" 1700000000002) st_signed w_signed =
      (w1, Normal (true, st1)) /\
    isAuthenticated st1 = true /\
    forall w2, ls_available w2 = true ->
      exists w3 st3,
        dispatch (ALogin (fresh_email (users st_signed)) "pw") (logout st1).1 w2 = (w3, Normal (true, st3)) /\
        currentUser st3 = currentUser st1.
Proof. apply session_always_reachable. vm_compute. reflexivity. Defined.


Lemma checkout_receipt_in_flight_witness :
  exists w' st',
    Checkout.order_settle (Resolved true) (Qmake 42 10000) "2026-01-01T00:00:00.000Z" service0 form0
      (orders st_signed) (Forms.inputs checkout_edits (Forms.mkFormPage form0 true "")) st_signed w_signed =
      (w', Normal (true, Forms.settle "" (Forms.inputs checkout_edits (Forms.mkFormPage form0 true "")), st')) /\
    orders st' = orders st_signed ++ [Checkout.newOrder service0 (Forms.values checkout_page0) (Qmake 42 10000) "2026-01-01T00:00:00.000Z"] /\
    clientEmail (Checkout.newOrder service0 (Forms.values checkout_page0) (Qmake 42 10000) "2026-01-01T00:00:00.000Z") =
      Checkout.cf_email (Forms.values checkout_page0) /\
    Checkout.render "svc-1" (services st') true
      (Forms.settle "" (Forms.inputs checkout_edits (Forms.mkFormPage form0 true ""))) =
      Checkout.RSuccess (Checkout.cf_email (fold_left (fun f u => u f) checkout_edits (Forms.values checkout_page0))).
Proof.
  apply (checkout_receipt_in_flight email_ok service0 "svc-1" checkout_page0).
  - vm_compute. reflexivity.
  - vm_compute. reflexivity.
  - vm_compute. reflexivity.
Defined.

Lemma save_in_flight_witness :
  ServicesManagement.save_label
    (ServicesManagement.footer (fst (ServicesManagement.save_click None m_draft st_mounted))) =
    "Publishing..." /\
  exists w' st',
    ServicesManagement.save_resume (snd (ServicesManagement.save_click None m_draft st_mounted))
      "0.42" 1700000000000
      (ServicesManagement.editField (ServicesManagement.FTitle "Late title")
         (fst (ServicesManagement.save_click None m_draft st_mounted))) st_mounted w_mounted =
      (w', Normal (ServicesManagement.mkModal false None ServicesManagement.overview false
                     (ServicesManagement.formData (ServicesManagement.editField
                        (ServicesManagement.FTitle "Late title")
                        (fst (ServicesManagement.save_click None m_draft st_mounted)))), st')) /\
    services st' = ServicesManagement.saved_services None "0.42" 1700000000000 m_draft (services st_mounted) /\
    orders st' = orders st_mounted /\ users st' = users st_mounted.
Proof. apply save_in_flight. vm_compute. reflexivity. Defined.

Lemma dom_edit_not_rewritten_witness :
  RichText.writes (RichText.editor_step bold (RichText.EdCommand "bold") editor_open).2 =
    RichText.writes editor_open.2 /\
  RichText.in_sync (RichText.editor_step bold (RichText.EdCommand "bold") editor_open).
Proof.
  apply RichText.dom_edit_not_rewritten.
  - vm_compute. split_and!; reflexivity.
  - intros me. discriminate.
Defined.

Lemma signup_page_password_witness : 6 <= String.length (user_password userB).
Proof.
  apply (signup_page_password email_ok (Resolved true) "2026-01-01T00:00:00.000Z" 1700000000001
           signup_p0 signup_after.1 st_mounted signup_after.2 w_mounted (fst signup_result)).
  - vm_compute. reflexivity.
  - decide_by_eval.
  - decide_by_eval.
Defined.

Lemma thumbnail_selects_witness :
  Detail.stage (Detail.view gallery_svc 1) = Some "clip.mp4" /\
  Detail.stage_video (Detail.view gallery_svc 1) = Detail.isVideo "clip.mp4" /\
  exists ts, Detail.thumbs (Detail.view gallery_svc 1) = Some ts /\
    Detail.th_url <$> ts = Detail.allMedia gallery_svc /\
    forall j t, ts !! j = Some t -> Detail.th_active t = true <-> j = 1.
Proof.
  apply thumbnail_selects.
  - reflexivity.
  - discriminate.
  - cbn. lia.
Defined.

Lemma catalogue_links_resolve_witness :
  exists s, s ∈ [service0; draft0] /\ Catalogue.card service0 = Catalogue.card s /\
    Catalogue.card_link (Catalogue.card service0) = "/service/" +:+ service_id s /\
    Detail.render (service_id s) [service0; draft0] 0 = Detail.Found (Detail.view s 0).
Proof.
  apply catalogue_links_resolve.
  - decide_by_eval.
  - decide_by_eval.
Defined.

Lemma saved_flag_first_timer_witness :
  SiteEditor.success (SiteEditor.advance 2100 (SiteEditor.on_update 1500 (SiteEditor.on_update 0 SiteEditor.banner0))) =
    bool_decide (2100 < 0 + 2000)%Z.
Proof. apply saved_flag_first_timer; lia. Defined.


Lemma pricing_delivery_shown_witness :
  bool_decide (6%Z ∈ ServicesManagement.delivery_days) = false /\
  (exists price revisions features,
     ServicesManagement.modal_view m_pricing6 =
       Some (ServicesManagement.mkModalView (ServicesManagement.tab_buttons m_pricing6)
         (ServicesManagement.PricingPanel price
            (Some (if bool_decide (ServicesManagement.fd_deliveryDays (ServicesManagement.formData m_pricing6)
                                   ∈ ServicesManagement.delivery_days)
                   then string_of_Z (ServicesManagement.fd_deliveryDays (ServicesManagement.formData m_pricing6))
                          +:+ " Days Delivery"
                   else "1 Days Delivery"))
            revisions features)
         (ServicesManagement.footer m_pricing6))) /\
  ServicesManagement.fd_deliveryDays
    (ServicesManagement.finalData (Some published) "r" (ServicesManagement.formData m_pricing6)) =
    ServicesManagement.fd_deliveryDays (ServicesManagement.formData m_pricing6).
Proof.
  split; [vm_compute; reflexivity|].
  apply pricing_delivery_shown; reflexivity.
Defined.

Lemma checkout_not_recent_witness :
  Stats.ov_recent (Stats.overview id (orders four_after.2)) =
    Stats.ov_recent (Stats.overview id (orders st_four)) /\
  Stats.totalRevenue (orders four_after.2) = (Stats.totalRevenue (orders st_four) + price service0)%Z.
Proof.
  apply (checkout_not_recent id (Qmake 43 10000) "2026-01-02T00:00:00.000Z" service0 form0 st_four four_after.2
           four_after.1.1 four_after.1.2 w_empty four_run.1).
  - reflexivity.
  - cbn. lia.
  - vm_compute. reflexivity.
Defined.

Lemma save_overflow_lost_witness :
  ServicesManagement.isModalOpen overflow_after.1 = false /\
  services overflow_after.2 =
    ServicesManagement.saved_services (Some published) "0.42" 1700000000005 modal_new (services st_mounted) /\
  alerts overflow_run.1 = alerts w_full ++ [storage_full_alert] /\
  useStore C0 overflow_run.1 =
    (overflow_run.1, Normal (mkStore (users st_mounted) (services st_mounted) (orders st_mounted)
                               (settings st_mounted) None)).
Proof.
  apply (save_overflow_lost C0 (Some published) "0.42" 1700000000005 modal_new overflow_after.1
           st_mounted overflow_after.2 w_full overflow_run.1).
  - reflexivity.
  - unfold wf_world. decide_by_eval.
  - unfold synced. decide_by_eval.
  - decide_by_eval.
  - vm_compute. reflexivity.
Defined.

Lemma upload_lands_in_next_gig_witness :
  let p := page_run [PModal (EOpen (Some service0)); PUpload (Some ["data:image/png;base64,AAAA"]) ServicesManagement.f_images;
                     PModal EClose; PModal (EOpen (Some draft0)); PRead 0]
             (mkUploadPage ServicesManagement.initial_modal []) in
  ServicesManagement.editingId (up_modal p) = Some (service_id draft0) /\ up_pending p = [] /\
  exists b', b' ∈ ServicesManagement.saved_services (Some published) "0.42" 1700000000000 (up_modal p)
                  [service0; draft0] /\
    service_id b' = service_id draft0 /\ images b' = images draft0 ++ ["data:image/png;base64,AAAA"].
Proof.
  apply upload_lands_in_next_gig; [reflexivity|decide_by_eval|discriminate].
Defined.

Lemma login_page_outcome_witness :
  exists w' msg s',
    login_submit (Resolved true) "2026-01-01T00:00:00.000Z" "dup@x.com" "pw" st_mounted w_mounted =
      (w', Normal (stringify (Auth.login_audit "dup@x.com" "2026-01-01T00:00:00.000Z"), msg, s')) /\
    ((msg = "" /\
      Auth.login_redirect (props_isAuthenticated s') (props_isAdmin s') =
        Some (if props_isAdmin s' then "/admin" else "/")) \/
     (msg = login_error (Resolved true) /\ s' = st_mounted /\ w' = w_mounted /\
      Auth.login_redirect (props_isAuthenticated s') (props_isAdmin s') = None)).
Proof. apply login_page_outcome; reflexivity. Defined.

Lemma negative_price_published_witness :
  let m' := ServicesManagement.editField (ServicesManagement.FPrice (-50)) ServicesManagement.initial_modal in
  exists s, s ∈ ServicesManagement.saved_services (Some published) "0.42" 1700000000009 m' [service0] /\
    service_status s = published /\ price s = (-50)%Z /\
    Catalogue.card s = Catalogue.mkCard ("/service/" +:+ service_id s) (head (images s)) (title s)
                         (category s) ("$" +:+ string_of_Z (-50)) /\
    totalAmount (Checkout.newOrder s form0 (Qmake 42 10000) "2026-01-03T00:00:00.000Z") = (-50)%Z /\
    (Stats.totalRevenue ([order0] ++ [Checkout.newOrder s form0 (Qmake 42 10000) "2026-01-03T00:00:00.000Z"]) <
       Stats.totalRevenue [order0])%Z.
Proof. apply negative_price_published; [lia|reflexivity]. Defined.

